(** * Foreign-key inference engine of the Asset-Dashboard repository

    A shallow embedding of the relationship inference code of
    [src/analyze.py], [src/fetch_data.py] and [src/verify_fks.py], and the
    properties of it that the specification states.

    Modelling conventions.
    - Python [str] values are [string]s over ASCII characters; the
      functions below do not interpret bytes above 127.
    - Parsed JSON is the inductive type [json]; JSON numbers are integers
      ([JInt]), non-integer numbers are outside the embedding.
    - A Python [dict] is an association list in insertion order (the order
      in which [items()] and [keys()] iterate); a Python [set] is a list
      without repetitions.  The iteration order of a Python set of strings
      is not fixed by the language, so wherever the source iterates over a
      set the order of the list is the order that iteration happened to
      take.
    - A Python exception is a value [Raise e] of the type [result].
    - What a function prints is the list of the strings given to [print],
      one for each call, with the exception that ended the printing, if
      one did. *)

From Stdlib Require Import ZArith Bool List String Ascii Lia.
From Stdlib Require Import DecimalString QArith.
From Stdlib Require Import DecimalZ DecimalPos Permutation Sorted.
Import ListNotations.

Close Scope Q_scope.
Open Scope list_scope.
Open Scope string_scope.

(** ** Python strings *)

Module PyStr.

Definition is_upper (c : ascii) : bool :=
  ((65 <=? N_of_ascii c) && (N_of_ascii c <=? 90))%N.

Definition is_lower (c : ascii) : bool :=
  ((97 <=? N_of_ascii c) && (N_of_ascii c <=? 122))%N.

Definition is_digit (c : ascii) : bool :=
  ((48 <=? N_of_ascii c) && (N_of_ascii c <=? 57))%N.

Definition lower_ascii (c : ascii) : ascii :=
  if is_upper c then ascii_of_N (N_of_ascii c + 32) else c.

(** [s.lower()] *)
Fixpoint lower (s : string) : string :=
  match s with
  | EmptyString => EmptyString
  | String c s' => String (lower_ascii c) (lower s')
  end.

(** [s.startswith(p)] *)
Definition startswith (s p : string) : bool := String.prefix p s.

(** [s.endswith(suf)] *)
Fixpoint endswith (s suf : string) : bool :=
  String.eqb s suf ||
  match s with
  | EmptyString => false
  | String _ s' => endswith s' suf
  end.

(** [sub in s] on strings *)
Fixpoint contains (sub s : string) : bool :=
  String.prefix sub s ||
  match s with
  | EmptyString => false
  | String _ s' => contains sub s'
  end.

(** [s[:n]] for [n >= 0] *)
Definition take (n : nat) (s : string) : string := String.substring 0 n s.

(** [s[:-n]] for [n > 0] *)
Definition drop_last (n : nat) (s : string) : string :=
  String.substring 0 (String.length s - n) s.

(** [re.sub(r'[^...]', '', s)] for a character class given as a predicate:
    the characters of the class are kept. *)
Fixpoint keep (p : ascii -> bool) (s : string) : string :=
  match s with
  | EmptyString => EmptyString
  | String c s' => if p c then String c (keep p s') else keep p s'
  end.

(** The longest prefix of [s] whose characters satisfy [p], and the rest:
    what a greedy [[...]*] consumes. *)
Fixpoint span (p : ascii -> bool) (s : string) : string * string :=
  match s with
  | EmptyString => (EmptyString, EmptyString)
  | String c s' =>
      if p c then let (a, b) := span p s' in (String c a, b)
      else (EmptyString, s)
  end.

(** [sep.join(l)] *)
Fixpoint join (sep : string) (l : list string) : string :=
  match l with
  | [] => ""
  | [x] => x
  | x :: l' => x ++ sep ++ join sep l'
  end.

(** [x in l] for a tuple, list or set of strings *)
Definition mem (x : string) (l : list string) : bool :=
  existsb (String.eqb x) l.

(** [str(n)] for an [int] *)
Definition str_int (n : Z) : string := NilZero.string_of_int (Z.to_int n).

Definition hex_digit (n : N) : ascii :=
  if (n <? 10)%N then ascii_of_N (48 + n) else ascii_of_N (87 + n).

(** two lower-case hexadecimal digits of a character code *)
Definition hex2 (c : ascii) : string :=
  let n := N_of_ascii c in
  String (hex_digit (n / 16)) (String (hex_digit (n mod 16)) "").

Definition nl : ascii := ascii_of_N 10.
Definition cr : ascii := ascii_of_N 13.
Definition tab : ascii := ascii_of_N 9.
Definition bs : ascii := ascii_of_N 8.
Definition ff : ascii := ascii_of_N 12.
Definition backslash : ascii := ascii_of_N 92.
Definition squote : ascii := ascii_of_N 39.
Definition dquote : ascii := ascii_of_N 34.

Definition has_char (c : ascii) (s : string) : bool :=
  contains (String c "") s.

(** [repr(s)] for a [str]: single quotes, unless the string has a single
    quote and no double quote. *)
Definition repr_char (q c : ascii) : string :=
  if Ascii.eqb c backslash then String backslash (String backslash "")
  else if Ascii.eqb c q then String backslash (String q "")
  else if Ascii.eqb c nl then String backslash "n"
  else if Ascii.eqb c cr then String backslash "r"
  else if Ascii.eqb c tab then String backslash "t"
  else if ((N_of_ascii c <? 32) || (N_of_ascii c =? 127))%N
       then String backslash (String "x" (hex2 c))
  else String c "".

Fixpoint repr_chars (q : ascii) (s : string) : string :=
  match s with
  | EmptyString => EmptyString
  | String c s' => repr_char q c ++ repr_chars q s'
  end.

Definition repr_str (s : string) : string :=
  let q := if has_char squote s && negb (has_char dquote s)
           then dquote else squote in
  String q (repr_chars q s ++ String q "").

(** The string literal [json.dumps] writes for a [str] (ensure_ascii). *)
Definition dumps_char (c : ascii) : string :=
  if Ascii.eqb c backslash then String backslash (String backslash "")
  else if Ascii.eqb c dquote then String backslash (String dquote "")
  else if Ascii.eqb c bs then String backslash "b"
  else if Ascii.eqb c ff then String backslash "f"
  else if Ascii.eqb c nl then String backslash "n"
  else if Ascii.eqb c cr then String backslash "r"
  else if Ascii.eqb c tab then String backslash "t"
  else if ((N_of_ascii c <? 32) || (126 <? N_of_ascii c))%N
       then String backslash (String "u" (String "0" (String "0" (hex2 c))))
  else String c "".

Fixpoint dumps_chars (s : string) : string :=
  match s with
  | EmptyString => EmptyString
  | String c s' => dumps_char c ++ dumps_chars s'
  end.

Definition dumps_str (s : string) : string :=
  String dquote (dumps_chars s ++ String dquote "").

End PyStr.

(** ** Python dictionaries and sets *)

Module PyDict.

Section Dict.
Context {V : Type}.

(** [d.get(k)], [None] for an absent key *)
Fixpoint get (d : list (string * V)) (k : string) : option V :=
  match d with
  | [] => None
  | (k', v) :: d' => if String.eqb k' k then Some v else get d' k
  end.

(** [k in d] *)
Definition has (d : list (string * V)) (k : string) : bool :=
  match get d k with Some _ => true | None => false end.

(** [d[k] = v]: a present key keeps its place, a new key goes last *)
Fixpoint set (d : list (string * V)) (k : string) (v : V)
  : list (string * V) :=
  match d with
  | [] => [(k, v)]
  | (k', v') :: d' =>
      if String.eqb k' k then (k', v) :: d' else (k', v') :: set d' k v
  end.

(** [d.keys()] *)
Definition keys (d : list (string * V)) : list string := map fst d.
End Dict.

(** [{key(x): val(x) for x in l}] *)
Definition comprehension {A V : Type} (key : A -> string) (val : A -> V)
    (l : list A) : list (string * V) :=
  fold_left (fun d x => set d (key x) (val x)) l [].

(** [s.add(x)] on a set of strings *)
Definition add (s : list string) (x : string) : list string :=
  if PyStr.mem x s then s else (s ++ [x])%list.

(** [a.intersection(b)] on sets of strings *)
Definition intersection (a b : list string) : list string :=
  filter (fun x => PyStr.mem x b) a.

End PyDict.

(** ** Exceptions *)

Inductive exn : Type := NameError | AttributeError | TypeError.

Inductive result (A : Type) : Type :=
| Ok (a : A)
| Raise (e : exn).
Arguments Ok {A} a.
Arguments Raise {A} e.

Definition bind {A B : Type} (r : result A) (k : A -> result B) : result B :=
  match r with
  | Ok a => k a
  | Raise e => Raise e
  end.

Notation "x <- r ;; k" := (bind r (fun x => k))
  (at level 61, r at next level, right associativity).

(** ** JSON values *)

#[warnings="-register-all"]
Inductive json : Type :=
| JNull
| JBool (b : bool)
| JInt (n : Z)
| JStr (s : string)
| JList (l : list json)
| JDict (d : list (string * json)).

Definition record : Type := list (string * json).

Definition is_none (v : json) : bool :=
  match v with JNull => true | _ => false end.

(** [item.get(k)] on a record: [None] both for an absent key and for a
    key that holds [null]. *)
Definition py_get (d : record) (k : string) : json :=
  match PyDict.get d k with
  | Some v => v
  | None => JNull
  end.

(** insertion of a pair into a list of pairs sorted by key *)
Fixpoint insert_by_key (kv : string * string) (l : list (string * string))
  : list (string * string) :=
  match l with
  | [] => [kv]
  | kv' :: l' =>
      if String.leb (fst kv) (fst kv') then kv :: l
      else kv' :: insert_by_key kv l'
  end.

(** [sorted(items)] by key (stable) *)
Definition sort_by_key (l : list (string * string)) : list (string * string) :=
  fold_right insert_by_key [] l.

(** [repr(v)] *)
Fixpoint py_repr (v : json) : string :=
  match v with
  | JNull => "None"
  | JBool true => "True"
  | JBool false => "False"
  | JInt n => PyStr.str_int n
  | JStr s => PyStr.repr_str s
  | JList l => "[" ++ PyStr.join ", " (map py_repr l) ++ "]"
  | JDict d =>
      "{" ++ PyStr.join ", "
               (map (fun kv => PyStr.repr_str (fst kv) ++ ": " ++ py_repr (snd kv)) d)
          ++ "}"
  end.

(** [str(v)] *)
Definition py_str (v : json) : string :=
  match v with
  | JStr s => s
  | _ => py_repr v
  end.

(** [json.dumps(v, sort_keys=True, default=str)].  The members of a mapping
    are rendered first and then ordered by key, which gives the text the
    encoder writes when it visits the keys in sorted order.  Every value of
    [json] is serialisable, so [default] is never called and no exception
    is raised. *)
Fixpoint json_dumps (v : json) : string :=
  match v with
  | JNull => "null"
  | JBool true => "true"
  | JBool false => "false"
  | JInt n => PyStr.str_int n
  | JStr s => PyStr.dumps_str s
  | JList l => "[" ++ PyStr.join ", " (map json_dumps l) ++ "]"
  | JDict d =>
      "{" ++ PyStr.join ", "
               (map (fun kv => PyStr.dumps_str (fst kv) ++ ": " ++ snd kv)
                    (sort_by_key (map (fun kv => (fst kv, json_dumps (snd kv))) d)))
          ++ "}"
  end.

(** ** [src/fetch_data.py]: the stringifier and the value-overlap finder *)

Module FetchData.

(** The keys [stringify] probes in a mapping, in this order. *)
Definition id_like_keys : list string :=
  ["id"; "_id"; "Id"; "ID"; "serial_number"; "asset_rfid_tag"; "rfid"; "serial"].

(** [for k in (...): if k in v and v[k] is not None: return str(v[k])] *)
Fixpoint first_id_value (d : record) (ks : list string) : option json :=
  match ks with
  | [] => None
  | k :: ks' =>
      match PyDict.get d k with
      | Some x => if is_none x then first_id_value d ks' else Some x
      | None => first_id_value d ks'
      end
  end.

(** [json.dumps] raises nothing on a parsed JSON value, so the two
    [except] branches are not reached. *)
Definition stringify (v : json) : string :=
  match v with
  | JNull => "<null>"
  | JStr _ | JInt _ | JBool _ => py_str v
  | JDict d =>
      match first_id_value d id_like_keys with
      | Some x => py_str x
      | None => json_dumps v
      end
  | JList _ => json_dumps v
  end.

(** [for k in item.keys(): if k.lower().endswith("_id") or
    k.lower().endswith("id"): return k] *)
Fixpoint first_key_ending_in_id (ks : list string) : option string :=
  match ks with
  | [] => None
  | k :: ks' =>
      if PyStr.endswith (PyStr.lower k) "_id" || PyStr.endswith (PyStr.lower k) "id"
      then Some k
      else first_key_ending_in_id ks'
  end.

Definition normalize_id_field (item : record) : option string :=
  match find (PyDict.has item) ["id"; "_id"; "Id"; "ID"] with
  | Some k => Some k
  | None => first_key_ending_in_id (PyDict.keys item)
  end.

(** One turn of the loop of [collect_ids]. *)
Definition collect_id (ids : list string) (it : json) : list string :=
  match it with
  | JDict item =>
      match normalize_id_field item with
      | Some k =>
          if negb (String.eqb k "") && negb (is_none (py_get item k))
          then PyDict.add ids (stringify (py_get item k))
          else ids
      | None => ids
      end
  | _ => ids
  end.

Definition collect_ids (items : list json) : list string :=
  fold_left collect_id items [].

Record candidate : Type := {
  from_collection : string;
  field : string;
  to_collection : string;
  matches : nat;
  sample_matches : list string;
  name_match : bool
}.

(** [next((it for it in a_items if isinstance(it, dict)), None)] *)
Fixpoint first_dict (a_items : list json) : option record :=
  match a_items with
  | [] => None
  | JDict d :: _ => Some d
  | _ :: rest => first_dict rest
  end.

(** A local variable after the first loop: never assigned, or assigned. *)
Inductive binding (A : Type) : Type :=
| Unbound
| Bound (a : A).
Arguments Unbound {A}.
Arguments Bound {A} a.

(** The local variables [a_name], [a_items] and [sample]. *)
Record locals : Type := {
  a_pair : option (string * list json);
  sample : binding (option record)
}.

(** One turn of the first loop ([for a_name, a_items in ...]): the pair is
    rebound; [sample] is assigned only when [a_items] is not empty.  The
    collection is a list here, so [isinstance(a_items, list)] holds.  The
    last statement of the body, [if not sample: continue], changes
    nothing. *)
Definition scan_step (st : locals) (kv : string * list json) : locals :=
  match snd kv with
  | [] => {| a_pair := Some kv; sample := sample st |}
  | _ :: _ => {| a_pair := Some kv; sample := Bound (first_dict (snd kv)) |}
  end.

Definition scan (all_collections : list (string * list json)) : locals :=
  fold_left scan_step all_collections {| a_pair := None; sample := Unbound |}.

(** The values of [field] over [a_items]: the set [vals]. *)
Definition add_val (field : string) (vals : list string) (it : json)
  : list string :=
  match it with
  | JDict item =>
      if is_none (py_get item field) then vals
      else PyDict.add vals (stringify (py_get item field))
  | _ => vals
  end.

Definition field_vals (field : string) (a_items : list json) : list string :=
  fold_left (add_val field) a_items [].

Definition name_matches (field b_name : string) : bool :=
  (PyStr.endswith (PyStr.lower field) "_id"
     && PyStr.startswith (PyStr.lower field) (PyStr.take 3 (PyStr.lower b_name)))
  || (PyStr.contains (PyStr.lower b_name) (PyStr.lower field)
      || PyStr.contains (PyStr.lower field) (PyStr.lower b_name)).

(** The body of [for b_name, ids in col_ids.items()].  [list(inter)[:5]]
    takes five members of the set in its iteration order, which the
    language does not fix for strings; here they are the first five in the
    order of the field's values.  Which five they are is stated of the code
    only where the set has a single member. *)
Definition against_target (a_name field : string) (vals : list string)
    (b : string * list string) : list candidate :=
  match snd b with
  | [] => []
  | _ :: _ =>
      match PyDict.intersection vals (snd b) with
      | [] => []
      | inter =>
          [ {| from_collection := a_name;
               field := field;
               to_collection := fst b;
               matches := List.length inter;
               sample_matches := firstn 5 inter;
               name_match := name_matches field (fst b) |} ]
      end
  end.

(** The body of [for field in sample.keys()]. *)
Definition for_field (a_name : string) (a_items : list json)
    (col_ids : list (string * list string)) (field : string) : list candidate :=
  if PyStr.mem (PyStr.lower field) ["id"; "_id"] then []
  else
    match field_vals field a_items with
    | [] => []
    | vals => flat_map (against_target a_name field vals) col_ids
    end.

Definition col_ids_of (all_collections : list (string * list json))
  : list (string * list string) :=
  PyDict.comprehension fst (fun kv => collect_ids (snd kv)) all_collections.

(** The loop over the fields stands after the loop over the collections,
    not inside it: it runs once, on the variables the first loop left. *)
Definition find_fk_candidates (all_collections : list (string * list json))
  : result (list candidate) :=
  let col_ids := col_ids_of all_collections in
  let st := scan all_collections in
  match sample st, a_pair st with
  | Unbound, _ => Raise NameError
  | Bound None, _ => Raise AttributeError
  | Bound (Some smp), None => Raise NameError
  | Bound (Some smp), Some (a_name, a_items) =>
      Ok (flat_map (for_field a_name a_items col_ids) (PyDict.keys smp))
  end.

End FetchData.

(** ** [src/analyze.py]: names, path relationships and schema candidates *)

Module Analyze.

(** [re.sub(r'[^0-9a-z]', '', name.lower())] *)
Definition normalize (name : string) : string :=
  PyStr.keep (fun c => PyStr.is_digit c || PyStr.is_lower c) (PyStr.lower name).

(** [re.match(r'^/([^/]+)/\{[^}]+\}/([^:/]+):', path_str)], the two groups.
    Each of the three classes excludes the character that must follow it,
    so the greedy run is the only one that can be followed by that
    character and the search never backtracks. *)
Definition match_path (path_str : string) : option (string * string) :=
  match path_str with
  | String "/" r =>
      let (source, r1) := PyStr.span (fun c => negb (Ascii.eqb c "/")) r in
      match source, r1 with
      | String _ _, String "/" (String "{" r2) =>
          let (param, r3) := PyStr.span (fun c => negb (Ascii.eqb c "}")) r2 in
          match param, r3 with
          | String _ _, String "}" (String "/" r4) =>
              let (target, r5) :=
                PyStr.span (fun c => negb (Ascii.eqb c ":" || Ascii.eqb c "/")) r4 in
              match target, r5 with
              | String _ _, String ":" _ => Some (source, target)
              | _, _ => None
              end
          | _, _ => None
          end
      | _, _ => None
      end
  | _ => None
  end.

(** One turn of [for path_str, path_def in paths.items()]. *)
Definition add_path (relationships : list (string * list string))
    (path_str : string) : list (string * list string) :=
  match match_path path_str with
  | Some (source, target) =>
      let targets :=
        match PyDict.get relationships source with
        | Some ts => ts
        | None => []
        end in
      PyDict.set relationships source (PyDict.add targets target)
  | None => relationships
  end.

(** The relationships [load_schemas_from_file] reads off the keys of the
    [paths] mapping of a document: [rel_dict]. *)
Definition path_relationships (paths : list (string * json))
  : list (string * list string) :=
  fold_left add_path (PyDict.keys paths) [].

(** A property definition and a schema definition, as far as the finder
    reads them: [pdef.get('type')], any value of the document and [JNull]
    where the definition has no such key, and [sdef.get('properties')]. *)
Record pdef : Type := { p_type : json }.
Record sdef : Type := { properties : option (list (string * pdef)) }.

Record fk : Type := {
  from : string;
  field : string;
  to_guess : option string;
  type : json;
  confirmed_by_api : bool;
  source : string
}.

(** [{normalize(k): k for k in schemas.keys()}] *)
Definition norm_to_schema_of (schemas : list (string * sdef))
  : list (string * string) :=
  PyDict.comprehension normalize (fun k => k) (PyDict.keys schemas).

(** [a in b or b in a] *)
Definition overlap (a b : string) : bool :=
  PyStr.contains a b || PyStr.contains b a.

(** The loop [for candidate_norm, cand in norm_to_schema.items()] with its
    [break]. *)
Fixpoint direct_match (norm_to_schema : list (string * string))
    (prop_norm : string) : option string :=
  match norm_to_schema with
  | [] => None
  | (candidate_norm, cand) :: rest =>
      if overlap candidate_norm prop_norm then Some cand
      else direct_match rest prop_norm
  end.

(** [not matched] for a value that is [None] or a string *)
Definition falsy (matched : option string) : bool :=
  match matched with
  | None => true
  | Some s => String.eqb s ""
  end.

(** [re.sub(r'(_id|_Id|Id)$', '', prop, flags=re.IGNORECASE)].  [$] holds
    at the end of the string and before a line feed that ends it; the
    leftmost match takes the underscore when there is one. *)
Definition strip_id (body : string) : string :=
  let b := PyStr.drop_last 2 body in
  if PyStr.endswith b "_" then PyStr.drop_last 1 b else b.

Definition sub_id_suffix (prop : string) : string :=
  if PyStr.endswith (PyStr.lower prop) "id" then strip_id prop
  else if PyStr.endswith prop (String PyStr.nl "")
          && PyStr.endswith (PyStr.lower (PyStr.drop_last 1 prop)) "id"
       then strip_id (PyStr.drop_last 1 prop) ++ String PyStr.nl ""
  else prop.

(** The block under [if not matched:]; [matched] is what the loop left. *)
Definition heuristic_match (norm_to_schema : list (string * string))
    (prop : string) (matched : option string) : option string :=
  let clean := sub_id_suffix prop in
  let clean_norm := normalize clean in
  match PyDict.get norm_to_schema clean_norm with
  | Some s => Some s
  | None =>
      if PyStr.endswith clean "s" then
        match PyDict.get norm_to_schema (normalize (PyStr.drop_last 1 clean)) with
        | Some s => Some s
        | None => matched
        end
      else
        match PyDict.get norm_to_schema (normalize (clean ++ "s")) with
        | Some s => Some s
        | None => matched
        end
  end.

(** [for rel in related: if ...: matched = rel; confirmed_by_api = True;
    break] *)
Fixpoint confirming_rel (related : list string) (prop_norm : string)
  : option string :=
  match related with
  | [] => None
  | rel :: rest =>
      if overlap (normalize rel) prop_norm then Some rel
      else confirming_rel rest prop_norm
  end.

(** The body of [for prop, pdef in props.items()]: the record appended for
    a property whose lower-cased name contains [id], [None] for another. *)
Definition for_prop (norm_to_schema : list (string * string))
    (api_relationships : list (string * list string))
    (sname : string) (p : string * pdef) : option fk :=
  let prop := fst p in
  if PyStr.contains "id" (PyStr.lower prop) then
    let prop_norm := normalize prop in
    let matched := direct_match norm_to_schema prop_norm in
    let matched :=
      if falsy matched then heuristic_match norm_to_schema prop matched
      else matched in
    let confirmation :=
      match PyDict.get api_relationships sname with
      | Some related => confirming_rel related prop_norm
      | None => None
      end in
    Some {| from := sname;
            field := prop;
            to_guess := match confirmation with
                        | Some rel => Some rel
                        | None => matched
                        end;
            type := p_type (snd p);
            confirmed_by_api := match confirmation with
                                | Some _ => true
                                | None => false
                                end;
            source := match confirmation with
                      | Some _ => "api_path"
                      | None => "field_name"
                      end |}
  else None.

Definition add_prop (norm_to_schema : list (string * string))
    (api_relationships : list (string * list string)) (sname : string)
    (results : list fk) (p : string * pdef) : list fk :=
  match for_prop norm_to_schema api_relationships sname p with
  | Some r => (results ++ [r])%list
  | None => results
  end.

(** [fk['from'] == sname and fk['to_guess'] == related] for some record of
    [results] *)
Definition captured (results : list fk) (sname related : string) : bool :=
  existsb (fun r => String.eqb (from r) sname
                    && match to_guess r with
                       | Some t => String.eqb t related
                       | None => false
                       end) results.

(** One turn of [for related in api_relationships[sname]]. *)
Definition add_relation (sname : string) (results : list fk)
    (related : string) : list fk :=
  if captured results sname related then results
  else (results ++ [ {| from := sname;
                        field := "<relation to " ++ related ++ ">";
                        to_guess := Some related;
                        type := JStr "relation";
                        confirmed_by_api := true;
                        source := "api_path_only" |} ])%list.

(** [sdef.get('properties', {}) or {}] *)
Definition props_of (d : sdef) : list (string * pdef) :=
  match properties d with
  | Some props => props
  | None => []
  end.

(** One turn of [for sname, sdef in schemas.items()]. *)
Definition for_schema (norm_to_schema : list (string * string))
    (api_relationships : list (string * list string))
    (results : list fk) (s : string * sdef) : list fk :=
  let sname := fst s in
  let results :=
    fold_left (add_prop norm_to_schema api_relationships sname)
              (props_of (snd s)) results in
  match PyDict.get api_relationships sname with
  | Some related => fold_left (add_relation sname) related results
  | None => results
  end.

Definition find_candidate_fks (schemas : list (string * sdef))
    (api_relationships : list (string * list string)) : list fk :=
  fold_left (for_schema (norm_to_schema_of schemas) api_relationships)
            schemas [].

End Analyze.

(** ** [src/verify_fks.py]: the verifier *)

Module VerifyFks.

(** Only [None], [bool], [int] and [str] values can be members of a set;
    a list or a dict raises [TypeError]. *)
Definition hashable (v : json) : bool :=
  match v with
  | JList _ | JDict _ => false
  | _ => true
  end.

(** [a == b] on hashable values: [True == 1] and [False == 0]. *)
Definition py_eqb (a b : json) : bool :=
  match a, b with
  | JNull, JNull => true
  | JStr s, JStr t => String.eqb s t
  | JBool x, JBool y => Bool.eqb x y
  | JBool x, JInt n | JInt n, JBool x => Z.eqb n (if x then 1 else 0)
  | JInt n, JInt m => Z.eqb n m
  | _, _ => false
  end.

(** [x in s] on a set of values *)
Definition mem (x : json) (s : list json) : bool := existsb (py_eqb x) s.

(** [s.add(x)] *)
Definition add (s : list json) (x : json) : result (list json) :=
  if hashable x then Ok (if mem x s then s else (s ++ [x])%list)
  else Raise TypeError.

(** [set(l)], also what a set comprehension builds from its values *)
Fixpoint set_from (s : list json) (l : list json) : result (list json) :=
  match l with
  | [] => Ok s
  | x :: l' => s' <- add s x ;; set_from s' l'
  end.

Definition set_of (l : list json) : result (list json) := set_from [] l.

(** [a.intersection(b)] and [a - b], as sets of values up to [==] *)
Definition intersection (a b : list json) : list json :=
  filter (fun x => mem x b) a.

Definition difference (a b : list json) : list json :=
  filter (fun x => negb (mem x b)) a.

(** [item.get('id')] for the items that are mappings with an [id] that is
    not [None] *)
Fixpoint id_values (collection : list json) : list json :=
  match collection with
  | [] => []
  | JDict item :: rest =>
      if is_none (py_get item "id") then id_values rest
      else py_get item "id" :: id_values rest
  | _ :: rest => id_values rest
  end.

Definition extract_ids (collection : list json) : result (list json) :=
  set_of (id_values collection).

(** [{name: extract_ids(coll) for name, coll in collections.items()}] *)
Fixpoint all_ids_from (all_ids : list (string * list json))
    (collections : list (string * list json))
  : result (list (string * list json)) :=
  match collections with
  | [] => Ok all_ids
  | (name, coll) :: rest =>
      ids <- extract_ids coll ;;
      all_ids_from (PyDict.set all_ids name ids) rest
  end.

Definition all_ids_of (collections : list (string * list json))
  : result (list (string * list json)) :=
  all_ids_from [] collections.

Definition fk_checks : list (string * string * string) :=
  [ ("Asset", "Building_Id", "Buildings");
    ("Asset", "Room_Id", "Rooms");
    ("Asset", "SRB_Id", "SRB_Details");
    ("Rooms", "Building_id", "Buildings");
    ("Instance", "Asset_Id", "Asset");
    ("Asset_Condition", "asset_id", "Asset");
    ("Asset_Coverage_History", "Asset_Id", "Asset");
    ("Asset_Specifications", "Asset_Id", "Asset");
    ("SRB_Details", "Vendor_Id", "Vendor");
    ("Purchase_Order_Details", "Vendor_Id", "Vendor") ].

(** What the verifier prints for one check triple.  The three warnings
    carry no percentage; [Scored] carries the figures of the full
    report. *)
Inductive outcome : Type :=
| NoSourceData
| NoTargetIDs
| AllValuesNull (null_count : nat)
| Scored (status : string) (n_fk_values null_count : nat)
         (matches fk_set : list json) (match_pct : Q) (orphans : list json).

(** The loop that fills [fk_values] and counts [null_count]. *)
Fixpoint fk_values_of (fk_field : string) (source_coll : list json)
  : list json * nat :=
  match source_coll with
  | [] => ([], 0)
  | JDict item :: rest =>
      let (vals, nulls) := fk_values_of fk_field rest in
      if is_none (py_get item fk_field) then (vals, S nulls)
      else (py_get item fk_field :: vals, nulls)
  | _ :: rest => fk_values_of fk_field rest
  end.

(** [len(matches) / len(fk_set) * 100], as an exact rational in place of
    the binary floating-point value; [fk_set] is not empty where this is
    computed. *)
Definition percentage (n_matches n_unique : nat) : Q :=
  ((Z.of_nat n_matches # Pos.of_nat n_unique) * 100)%Q.

Definition status_of (match_pct : Q) : string :=
  if Qeq_bool match_pct 100%Q then "✓"
  else if Qle_bool 50%Q match_pct then "⚠"
  else "✗".

(** [collections.get(name, [])] and [all_ids.get(name, set())] *)
Definition get_or_empty (d : list (string * list json)) (name : string)
  : list json :=
  match PyDict.get d name with
  | Some l => l
  | None => []
  end.

(** The body of [for source_name, fk_field, target_name in fk_checks]. *)
Definition check (collections all_ids : list (string * list json))
    (c : string * string * string) : result outcome :=
  let '(source_name, fk_field, target_name) := c in
  let source_coll := get_or_empty collections source_name in
  let target_ids := get_or_empty all_ids target_name in
  match source_coll, target_ids with
  | [], _ => Ok NoSourceData
  | _ :: _, [] => Ok NoTargetIDs
  | _ :: _, _ :: _ =>
      let (fk_values, null_count) := fk_values_of fk_field source_coll in
      match fk_values with
      | [] => Ok (AllValuesNull null_count)
      | _ :: _ =>
          fk_set <- set_of fk_values ;;
          targets <-
            (if String.eqb fk_field "Vendor_Id"
             then set_of (map (fun x => JStr (py_str x)) target_ids)
             else Ok target_ids) ;;
          let matches := intersection fk_set targets in
          let orphans := difference fk_set targets in
          let match_pct :=
            percentage (List.length matches) (List.length fk_set) in
          Ok (Scored (status_of match_pct) (List.length fk_values) null_count
                     matches fk_set match_pct orphans)
      end
  end.

(** The checks of [main] in order; the first exception ends the run. *)
Fixpoint run_checks (collections all_ids : list (string * list json))
    (checks : list (string * string * string)) : result (list outcome) :=
  match checks with
  | [] => Ok []
  | c :: rest =>
      o <- check collections all_ids c ;;
      os <- run_checks collections all_ids rest ;;
      Ok (o :: os)
  end.

Definition verify (collections : list (string * list json))
  : result (list outcome) :=
  all_ids <- all_ids_of collections ;;
  run_checks collections all_ids fk_checks.

End VerifyFks.

(** ** [src/fetch_data.py]: file names and the order of the report *)

Module FetchReport.

(** [s] without the prefix [p], when it has that prefix *)
Fixpoint strip_prefix (p s : string) : option string :=
  match p, s with
  | EmptyString, _ => Some s
  | String a p', String b s' =>
      if Ascii.eqb a b then strip_prefix p' s' else None
  | String _ _, EmptyString => None
  end.

(** The pattern [ns=collections%25?2F([^&]+)] at the start of [s], and its
    group.  The question mark belongs to the [5] alone; when a [5] is there
    the pattern can only go on through it, so taking it loses no match. *)
Definition match_ns (s : string) : option string :=
  match strip_prefix "ns=collections%2" s with
  | Some r =>
      let r := match strip_prefix "5" r with
               | Some r' => r'
               | None => r
               end in
      match strip_prefix "2F" r with
      | Some r2 =>
          match PyStr.span (fun c => negb (Ascii.eqb c "&")) r2 with
          | (String c g, _) => Some (String c g)
          | (EmptyString, _) => None
          end
      | None => None
      end
  | None => None
  end.

(** [re.search]: the match at the leftmost position that has one *)
Fixpoint search_ns (s : string) : option string :=
  match match_ns s with
  | Some g => Some g
  | None =>
      match s with
      | EmptyString => None
      | String _ s' => search_ns s'
      end
  end.

Definition is_name_char (c : ascii) : bool :=
  PyStr.is_digit c || PyStr.is_upper c || PyStr.is_lower c || Ascii.eqb c "_".

(** [re.sub(r"[^0-9A-Za-z_]", "_", s)] *)
Fixpoint sanitize (s : string) : string :=
  match s with
  | EmptyString => EmptyString
  | String c s' => String (if is_name_char c then c else "_"%char) (sanitize s')
  end.

Definition is_strip_char (c : ascii) : bool :=
  Ascii.eqb c "/" || Ascii.eqb c " ".

Fixpoint lstrip (s : string) : string :=
  match s with
  | EmptyString => EmptyString
  | String c s' => if is_strip_char c then lstrip s' else s
  end.

Fixpoint rstrip (s : string) : string :=
  match s with
  | EmptyString => EmptyString
  | String c s' =>
      match rstrip s' with
      | EmptyString => if is_strip_char c then EmptyString else String c EmptyString
      | r => String c r
      end
  end.

(** [s.strip("/ ")] *)
Definition strip (s : string) : string := rstrip (lstrip s).

Definition safe_name_from_endpoint (ep : string) : string :=
  match search_ns ep with
  | Some g => sanitize g
  | None => PyStr.take 64 (sanitize (strip ep))
  end.

(** The key of [sorted(fk, key=lambda x: (-x["matches"], x["from_collection"]))]
    compared: more matches first, and for as many matches the lesser
    collection name first. *)
Definition rank_le (x y : FetchData.candidate) : bool :=
  (FetchData.matches y <? FetchData.matches x)%nat
  || ((FetchData.matches x =? FetchData.matches y)%nat
      && String.leb (FetchData.from_collection x) (FetchData.from_collection y)).

(** Insertion before the first record that does not come strictly before
    [x]: records with equal keys keep their order, as [sorted] keeps it. *)
Fixpoint insert_ranked (x : FetchData.candidate) (l : list FetchData.candidate)
  : list FetchData.candidate :=
  match l with
  | [] => [x]
  | y :: l' => if rank_le x y then x :: l else y :: insert_ranked x l'
  end.

Definition ranked (fk : list FetchData.candidate) : list FetchData.candidate :=
  fold_right insert_ranked [] fk.

End FetchReport.

(** ** [src/analyze.py]: documents and files *)

Module AnalyzeFiles.

(** The truth value of a parsed JSON value *)
Definition truthy (v : json) : bool :=
  match v with
  | JNull => false
  | JBool b => b
  | JInt n => negb (Z.eqb n 0)
  | JStr s => negb (String.eqb s "")
  | JList [] => false
  | JList (_ :: _) => true
  | JDict [] => false
  | JDict (_ :: _) => true
  end.

(** [doc.get(k, {})]: only a mapping has [get] *)
Definition get_or_empty_map (doc : json) (k : string) : result json :=
  match doc with
  | JDict d =>
      Ok match PyDict.get d k with
         | Some v => v
         | None => JDict []
         end
  | _ => Raise AttributeError
  end.

(** [load_schemas_from_file] on the parsed content [j] of the file: the
    schemas of the document, as they stand in it, and the relationships of
    its paths.  [paths.items()] needs a mapping. *)
Definition load_schemas_from_file (j : json)
  : result (json * list (string * list string)) :=
  let load (doc : json) :=
    comps <- get_or_empty_map doc "components" ;;
    schemas <- get_or_empty_map comps "schemas" ;;
    paths <- get_or_empty_map doc "paths" ;;
    match paths with
    | JDict p =>
        Ok (if truthy schemas then schemas else JDict [],
            Analyze.path_relationships p)
    | _ => Raise AttributeError
    end in
  match j with
  | JList (doc :: _) => load doc
  | JDict _ => load j
  | _ => Ok (JDict [], [])
  end.

(** A file of the data directory: its name, and its parsed content when it
    can be opened and parsed. *)
Record file : Type := {
  fname : string;
  parsed : option json
}.

(** [for sname, sdef in schemas.items(): if sname not in all_schemas:
    all_schemas[sname] = sdef] *)
Definition merge_schemas (all_schemas schemas : list (string * json))
  : list (string * json) :=
  fold_left
    (fun all kv => if PyDict.has all (fst kv) then all
                   else PyDict.set all (fst kv) (snd kv))
    schemas all_schemas.

(** [targets.update(rel_list)] *)
Definition update (targets rel_list : list string) : list string :=
  fold_left PyDict.add rel_list targets.

(** [for sname, rel_list in rels.items(): ...] *)
Definition merge_relationships (all_relationships rels : list (string * list string))
  : list (string * list string) :=
  fold_left
    (fun all kv =>
       PyDict.set all (fst kv)
                  (update match PyDict.get all (fst kv) with
                          | Some targets => targets
                          | None => []
                          end (snd kv)))
    rels all_relationships.

(** One turn of [for fname in os.listdir(DATA_DIR)].  The exceptions of
    opening, parsing and [load_schemas_from_file] are caught and the file is
    left out; [schemas.items()] stands after the [try] and needs a
    mapping. *)
Definition add_file
    (acc : list (string * json) * list (string * list string)) (f : file)
  : result (list (string * json) * list (string * list string)) :=
  if negb (PyStr.endswith (fname f) ".json") then Ok acc
  else
    match parsed f with
    | None => Ok acc
    | Some j =>
        match load_schemas_from_file j with
        | Raise _ => Ok acc
        | Ok (schemas, rels) =>
            match schemas with
            | JDict d =>
                Ok (merge_schemas (fst acc) d, merge_relationships (snd acc) rels)
            | _ => Raise AttributeError
            end
        end
    end.

Fixpoint collect_from
    (acc : list (string * json) * list (string * list string))
    (files : list file)
  : result (list (string * json) * list (string * list string)) :=
  match files with
  | [] => Ok acc
  | f :: rest => acc' <- add_file acc f ;; collect_from acc' rest
  end.

(** [collect_all_schemas] on the files of the data directory in the order
    of the listing; a missing directory gives what no file gives. *)
Definition collect_all_schemas (files : list file)
  : result (list (string * json) * list (string * list string)) :=
  collect_from ([], []) files.

End AnalyzeFiles.

(** ** [src/analyze.py]: the report of [main] *)

Module AnalyzeReport.

Fixpoint spaces (n : nat) : string :=
  match n with
  | O => EmptyString
  | S n' => String " " (spaces n')
  end.

(** A string in a field of the given width: filled with spaces on the
    right, never cut. *)
Definition ljust (width : nat) (s : string) : string :=
  s ++ spaces (width - String.length s).

(** [f"{v:30}"] for a value that is a string or [None]: [None] takes no
    width and raises [TypeError]. *)
Definition format_width (width : nat) (v : option string) : result string :=
  match v with
  | Some s => Ok (ljust width s)
  | None => Raise TypeError
  end.

(** A string in a field of the given width, filled with spaces on the
    left: how a number is set. *)
Definition rjust (width : nat) (s : string) : string :=
  spaces (width - String.length s) ++ s.

(** [f"{v:8}"] for a value of a document: a string is filled on the right,
    an integer is written in decimal and filled on the left, a boolean is
    written as the integer it is, and [None], a list and a mapping take no
    width and raise [TypeError]. *)
Definition format_json (width : nat) (v : json) : result string :=
  match v with
  | JStr s => Ok (ljust width s)
  | JInt n => Ok (rjust width (PyStr.str_int n))
  | JBool b => Ok (rjust width (if b then "1" else "0"))
  | JNull | JList _ | JDict _ => Raise TypeError
  end.

(** [f"{v}"] *)
Definition format_plain (v : option string) : string :=
  match v with
  | Some s => s
  | None => "None"
  end.

(** The marker of a confirmed record, as the source file has it. *)
Definition confirmed_marker : string := "âœ“".

(** The line printed for a record. *)
Definition render_line (it : Analyze.fk) : result string :=
  let confirmed :=
    if Analyze.confirmed_by_api it then confirmed_marker else " " in
  if String.eqb (Analyze.source it) "api_path_only" then
    target <- format_width 30 (Analyze.to_guess it) ;;
    Ok ("  " ++ confirmed ++ " relationship: " ++ target
        ++ "  (detected from API paths only)")
  else
    fld <- format_width 30 (Some (Analyze.field it)) ;;
    ty <- format_json 8 (Analyze.type it) ;;
    Ok ("  " ++ confirmed ++ " field: " ++ fld ++ "  type: " ++ ty
        ++ "  -> " ++ format_plain (Analyze.to_guess it)
        ++ "  (source: " ++ Analyze.source it ++ ")").

(** [by_from.setdefault(f['from'], []).append(f)] *)
Definition add_to_group (by_from : list (string * list Analyze.fk))
    (f : Analyze.fk) : list (string * list Analyze.fk) :=
  PyDict.set by_from (Analyze.from f)
             (match PyDict.get by_from (Analyze.from f) with
              | Some items => items
              | None => []
              end ++ [f])%list.

Definition group_by_from (fks : list Analyze.fk)
  : list (string * list Analyze.fk) :=
  fold_left add_to_group fks [].

Fixpoint insert_group (g : string * list Analyze.fk)
    (l : list (string * list Analyze.fk)) : list (string * list Analyze.fk) :=
  match l with
  | [] => [g]
  | h :: l' =>
      if String.leb (fst g) (fst h) then g :: l else h :: insert_group g l'
  end.

(** [sorted(by_from.items())]: the keys are distinct, so the pairs are
    ordered by their keys. *)
Definition sorted_groups (by_from : list (string * list Analyze.fk))
  : list (string * list Analyze.fk) :=
  fold_right insert_group [] by_from.

(** The lines printed for the records of a schema, and the exception that
    ended the printing, if one did. *)
Fixpoint print_items (items : list Analyze.fk) : list string * option exn :=
  match items with
  | [] => ([], None)
  | it :: rest =>
      match render_line it with
      | Ok line => let (out, e) := print_items rest in (line :: out, e)
      | Raise e => ([], Some e)
      end
  end.

Fixpoint print_groups (groups : list (string * list Analyze.fk))
  : list string * option exn :=
  match groups with
  | [] => ([], None)
  | (src, items) :: rest =>
      match print_items items with
      | (lines, Some e) => (("Schema: " ++ src) :: lines, Some e)
      | (lines, None) =>
          let (out, e) := print_groups rest in
          ((("Schema: " ++ src)%string :: lines) ++ ""%string :: out, e)%list
      end
  end.

Definition print_report (fks : list Analyze.fk) : list string * option exn :=
  print_groups (sorted_groups (group_by_from fks)).

End AnalyzeReport.

(** ** [src/analyze.py]: [main] on the files of the data directory *)

Module AnalyzeMain.

(** A loop whose body may raise *)
Fixpoint fold_result {A B : Type} (f : A -> B -> result A) (l : list B) (a : A)
  : result A :=
  match l with
  | [] => Ok a
  | b :: rest => a' <- f a b ;; fold_result f rest a'
  end.

(** [pdef.get('type')]: only a mapping has [get] *)
Definition read_pdef (pdef : json) : result Analyze.pdef :=
  match pdef with
  | JDict d =>
      Ok {| Analyze.p_type := match PyDict.get d "type" with
                              | Some t => t
                              | None => JNull
                              end |}
  | _ => Raise AttributeError
  end.

(** One turn of [for prop, pdef in props.items()] on a definition as the
    document has it: the definition is read only under
    [if 'id' in prop.lower()]. *)
Definition add_prop (norm_to_schema : list (string * string))
    (api_relationships : list (string * list string)) (sname : string)
    (results : list Analyze.fk) (p : string * json) : result (list Analyze.fk) :=
  if PyStr.contains "id" (PyStr.lower (fst p)) then
    pdef <- read_pdef (snd p) ;;
    Ok (Analyze.add_prop norm_to_schema api_relationships sname results
                         (fst p, pdef))
  else Ok results.

(** [props = sdef.get('properties', {}) or {}] and [props.items()]: [get]
    needs a mapping, and so does [items] when the value is kept. *)
Definition props_items (sdef : json) : result (list (string * json)) :=
  props <- AnalyzeFiles.get_or_empty_map sdef "properties" ;;
  match (if AnalyzeFiles.truthy props then props else JDict []) with
  | JDict items => Ok items
  | _ => Raise AttributeError
  end.

(** One turn of [for sname, sdef in schemas.items()]. *)
Definition for_schema (norm_to_schema : list (string * string))
    (api_relationships : list (string * list string))
    (results : list Analyze.fk) (s : string * json) : result (list Analyze.fk) :=
  let sname := fst s in
  items <- props_items (snd s) ;;
  results <- fold_result (add_prop norm_to_schema api_relationships sname)
                         items results ;;
  Ok match PyDict.get api_relationships sname with
     | Some related => fold_left (Analyze.add_relation sname) related results
     | None => results
     end.

(** [find_candidate_fks] on the schemas as the files give them. *)
Definition find_candidate_fks (schemas : list (string * json))
    (api_relationships : list (string * list string)) : result (list Analyze.fk) :=
  fold_result
    (for_schema (PyDict.comprehension Analyze.normalize (fun k => k)
                                      (PyDict.keys schemas))
                api_relationships)
    schemas [].


End AnalyzeMain.

(** * Statements *)

(** The text of an integer starts with a digit or with a minus sign. *)
Definition numeric_head (s : string) : Prop :=
  exists c rest, s = String c rest /\ (PyStr.is_digit c = true \/ c = "-"%char).

(** The values whose text is the text [stringify] gives to [None]. *)
Definition collides_with_null (v : json) : Prop :=
  v = JStr "<null>"
  \/ exists d, v = JDict d
               /\ FetchData.first_id_value d FetchData.id_like_keys
                  = Some (JStr "<null>").

(** The two collections of the value-overlap example. *)
Definition asset_records : list json :=
  [JDict [("id", JInt 1); ("Building_Id", JInt 10)]].

Definition buildings_records : list json :=
  [JDict [("id", JInt 10)]].

(** A candidate record whose two evidence tags agree. *)
Definition tags_consistent (c : Analyze.fk) : Prop :=
  (Analyze.confirmed_by_api c = true
   <-> (Analyze.source c = "api_path" \/ Analyze.source c = "api_path_only"))
  /\ (Analyze.source c = "field_name" \/ Analyze.source c = "api_path"
      \/ Analyze.source c = "api_path_only")
  /\ (Analyze.source c = "field_name" -> Analyze.confirmed_by_api c = false).

(** Schema names in lexicographic order. *)
Fixpoint insert_sorted (x : string) (l : list string) : list string :=
  match l with
  | [] => [x]
  | y :: l' => if String.leb x y then x :: l else y :: insert_sorted x l'
  end.

Definition sorted_names (names : list string) : list string :=
  fold_right insert_sorted [] names.

(** The tie-break in the words of the specification: the first schema, in
    sorted order of the schema names, whose canonical name has containment
    overlap with the canonical property name. *)
Definition sorted_first_match (schemas : list (string * Analyze.sdef))
    (prop_norm : string) : option string :=
  find (fun k => Analyze.overlap (Analyze.normalize k) prop_norm)
       (sorted_names (PyDict.keys schemas)).

(** The last of [names] whose canonical name is [n]. *)
Definition last_named (n : string) (names : list string) : option string :=
  find (fun k => String.eqb (Analyze.normalize k) n) (rev names).

(** Two schemas whose canonical names are both contained in the canonical
    name of the property [Room_Asset_Id]. *)
Definition room_asset_schemas : list (string * Analyze.sdef) :=
  [ ("Room", {| Analyze.properties :=
                  Some [("Room_Asset_Id", {| Analyze.p_type := JStr "integer" |})] |});
    ("Asset", {| Analyze.properties := Some [] |}) ].

(** The schemas of the naming example. *)
Definition asset_buildings_schemas : list (string * Analyze.sdef) :=
  [ ("Asset", {| Analyze.properties :=
                   Some [("Building_Id", {| Analyze.p_type := JStr "integer" |})] |});
    ("Buildings", {| Analyze.properties := Some [] |}) ].

(** The candidate the finder appends for a field of the collection
    [a_name] and a target [b_name] with the intersection [inter]. *)
Definition candidate_for (a_name fld b_name : string) (inter : list string)
  : FetchData.candidate :=
  {| FetchData.from_collection := a_name;
     FetchData.field := fld;
     FetchData.to_collection := b_name;
     FetchData.matches := List.length inter;
     FetchData.sample_matches := firstn 5 inter;
     FetchData.name_match := FetchData.name_matches fld b_name |}.


(** A single collection with a field that refers to the collection's own
    records. *)
Definition rooms_with_parent : list (string * list json) :=
  [("Rooms", [JDict [("id", JInt 1); ("Parent_Room", JInt 1)]])].

(** Every record of the source collection has [None] for the field. *)
Definition all_null (fk_field : string) (source_coll : list json) : Prop :=
  forall item, In (JDict item) source_coll -> py_get item fk_field = JNull.

(** An outcome that carries a match percentage. *)
Definition scored (o : VerifyFks.outcome) : bool :=
  match o with
  | VerifyFks.Scored _ _ _ _ _ _ _ => true
  | _ => false
  end.

(** The check of a triple on a source collection with the single record
    [{fk_field: value}] and a target collection with the single record
    [{id: id}]. *)
Definition single_check (source_name fk_field target_name : string)
    (value id : json) : result VerifyFks.outcome :=
  ids <- VerifyFks.extract_ids [JDict [("id", id)]] ;;
  VerifyFks.check [(source_name, [JDict [(fk_field, value)]])]
                  [(target_name, ids)]
                  (source_name, fk_field, target_name).

(** The number of values the report counts as matching. *)
Definition matched_count (r : result VerifyFks.outcome) : option nat :=
  match r with
  | Ok (VerifyFks.Scored _ _ _ matches _ _ _) => Some (List.length matches)
  | _ => None
  end.

(** The string form of [n] in the source field is counted as a match of
    the numeric identifier [n] of the target. *)
Definition string_matches_number (source_name fk_field target_name : string)
    (n : Z) : Prop :=
  matched_count (single_check source_name fk_field target_name
                              (JStr (PyStr.str_int n)) (JInt n)) = Some 1.



Fixpoint all_chars (p : ascii -> bool) (s : string) : bool :=
  match s with
  | EmptyString => true
  | String c s' => p c && all_chars p s'
  end.

Definition not_slash (c : ascii) : bool := negb (Ascii.eqb c "/").
Definition not_brace (c : ascii) : bool := negb (Ascii.eqb c "}").
Definition not_colon_slash (c : ascii) : bool :=
  negb (Ascii.eqb c ":" || Ascii.eqb c "/").

Definition targets_of (rels : list (string * list string)) (s : string)
  : list string :=
  match PyDict.get rels s with
  | Some ts => ts
  | None => []
  end.

(** A mapping of sources to sets of targets: distinct sources, and for each
    of them a set of targets without repetition and with a member. *)
Definition well_formed_relationships (rels : list (string * list string)) : Prop :=
  NoDup (PyDict.keys rels)
  /\ forall s ts, In (s, ts) rels -> NoDup ts /\ ts <> [].

Definition option_to_list {A : Type} (o : option A) : list A :=
  match o with
  | Some a => [a]
  | None => []
  end.

(** A record for a named property, as opposed to one for a relation that
    only the paths show. *)
Definition named (c : Analyze.fk) : bool :=
  negb (String.eqb (Analyze.source c) "api_path_only").

(** The pair a relation record is compared by. *)
Definition relation_pair (c : Analyze.fk) : string * option string :=
  (Analyze.from c, Analyze.to_guess c).

(** The record appended for a relation that only the paths show. *)
Definition relation_record (sname related : string) : Analyze.fk :=
  {| Analyze.from := sname;
     Analyze.field := "<relation to " ++ related ++ ">";
     Analyze.to_guess := Some related;
     Analyze.type := JStr "relation";
     Analyze.confirmed_by_api := true;
     Analyze.source := "api_path_only" |}.

(** The guess of a record tagged [field_name] is no schema at all or one of
    the schemas. *)
Definition guess_is_known (schemas : list (string * Analyze.sdef))
    (c : Analyze.fk) : Prop :=
  Analyze.source c = "field_name" ->
  Analyze.to_guess c = None
  \/ exists name, Analyze.to_guess c = Some name /\ In name (PyDict.keys schemas).

(** The guess of a confirmed record is one of the targets the paths give
    for its schema. *)
Definition confirmation_is_path_target
    (api_relationships : list (string * list string)) (c : Analyze.fk) : Prop :=
  Analyze.confirmed_by_api c = true ->
  exists related t,
    PyDict.get api_relationships (Analyze.from c) = Some related
    /\ In t related /\ Analyze.to_guess c = Some t.

(** No record tagged [api_path_only] repeats the pair of an earlier
    record. *)
Definition relations_are_new (results : list Analyze.fk) : Prop :=
  forall l1 c l2,
    results = (l1 ++ c :: l2)%list -> Analyze.source c = "api_path_only" ->
    forall c', In c' l1 -> relation_pair c' <> relation_pair c.

(** A value that is not a container: a string, an integer or a boolean. *)
Definition primitive (v : json) : bool :=
  match v with
  | JStr _ | JInt _ | JBool _ => true
  | _ => false
  end.

Definition key_le (a b : string * string) : Prop :=
  String.leb (fst a) (fst b) = true.

(** The identifier a record contributes to the identifier set of its
    collection, if it contributes one. *)
Definition id_text (it : json) : option string :=
  match it with
  | JDict item =>
      match FetchData.normalize_id_field item with
      | Some k =>
          if is_none (py_get item k) then None
          else Some (FetchData.stringify (py_get item k))
      | None => None
      end
  | _ => None
  end.

(** The text a record contributes to the value set of a field. *)
Definition field_text (fld : string) (it : json) : option string :=
  match it with
  | JDict item =>
      if is_none (py_get item fld) then None
      else Some (FetchData.stringify (py_get item fld))
  | _ => None
  end.

(** A source collection with the values 10 and 99 for [Building_Id], and
    the identifier set of a target that holds 10. *)
Definition two_building_refs : list (string * list json) :=
  [("Asset", [JDict [("Building_Id", JInt 10)]; JDict [("Building_Id", JInt 99)]])].

Definition one_building_id : list (string * list json) :=
  [("Buildings", [JInt 10])].


(** The order of the candidates in the report: more matches first, and for
    as many matches the lesser collection name first. *)
Definition ranks_before (x y : FetchData.candidate) : Prop :=
  FetchData.matches y < FetchData.matches x
  \/ (FetchData.matches x = FetchData.matches y
      /\ String.leb (FetchData.from_collection x) (FetchData.from_collection y) = true).

(** A candidate with [m] matches from the collection [f]. *)
Definition has_rank (m : nat) (f : string) (c : FetchData.candidate) : bool :=
  (FetchData.matches c =? m)%nat && String.eqb (FetchData.from_collection c) f.

(** What a file adds to the schemas and to the relationships: nothing when
    its name does not end in [.json], when it cannot be read or when
    loading it raises. *)
Definition contribution (f : AnalyzeFiles.file)
  : option (json * list (string * list string)) :=
  if negb (PyStr.endswith (AnalyzeFiles.fname f) ".json") then None
  else
    match AnalyzeFiles.parsed f with
    | None => None
    | Some j =>
        match AnalyzeFiles.load_schemas_from_file j with
        | Ok c => Some c
        | Raise _ => None
        end
    end.

(** The schemas a file adds, when they are a mapping. *)
Definition schemas_of (f : AnalyzeFiles.file) : list (string * json) :=
  match contribution f with
  | Some (JDict d, _) => d
  | _ => []
  end.

(** The relationships a file adds. *)
Definition relationships_of (f : AnalyzeFiles.file) : list (string * list string) :=
  match contribution f with
  | Some (_, rels) => rels
  | None => []
  end.

(** A file whose schemas are not a mapping. *)
Definition has_bad_schemas (f : AnalyzeFiles.file) : bool :=
  match contribution f with
  | Some (JDict _, _) => false
  | Some (_, _) => true
  | None => false
  end.

(** Three files: two documents that both define [Asset], the second one
    inside a list, and a file that is not read. *)
Definition sample_files : list AnalyzeFiles.file :=
  [ {| AnalyzeFiles.fname := "a.json";
       AnalyzeFiles.parsed :=
         Some (JDict [("components",
                       JDict [("schemas", JDict [("Asset", JDict [("v", JInt 1)])])]);
                      ("paths", JDict [("/Asset/{id}/End_User:get", JDict [])])]) |};
    {| AnalyzeFiles.fname := "b.json";
       AnalyzeFiles.parsed :=
         Some (JList
                 [JDict [("components",
                          JDict [("schemas",
                                  JDict [("Asset", JDict [("v", JInt 2)]);
                                         ("Rooms", JDict [])])]);
                         ("paths", JDict [("/Asset/{id}/Rooms:list", JDict [])])]]) |};
    {| AnalyzeFiles.fname := "notes.txt"; AnalyzeFiles.parsed := None |} ].

(** The definition of [sname] in the first file that has one. *)
Fixpoint first_definition (sname : string) (files : list AnalyzeFiles.file)
  : option json :=
  match files with
  | [] => None
  | f :: rest =>
      match PyDict.get (schemas_of f) sname with
      | Some d => Some d
      | None => first_definition sname rest
      end
  end.

(** The document of a parsed file: the first member of a list that has
    members, or a mapping itself. *)
Definition document_of (j : json) : option json :=
  match j with
  | JList (doc :: _) => Some doc
  | JDict _ => Some j
  | _ => None
  end.

(** The member [k] of a mapping, the empty mapping where it has none. *)
Definition member (k : string) (d : list (string * json)) : json :=
  match PyDict.get d k with
  | Some v => v
  | None => JDict []
  end.

Definition is_mapping (v : json) : bool :=
  match v with
  | JDict _ => true
  | _ => false
  end.

(** A value that [v or {}] keeps and that is not a mapping: [True], a
    number other than zero, or a string or a list with members. *)
Definition kept_non_mapping (v : json) : bool :=
  match v with
  | JBool b => b
  | JInt n => negb (Z.eqb n 0)
  | JStr s => negb (String.eqb s "")
  | JList (_ :: _) => true
  | _ => false
  end.

(** A file that is loaded with schemas that are not a mapping: its name
    ends in [.json], its document, the components and the paths of the
    document are mappings, and the schemas of the components are a value
    that is kept and is not a mapping. *)
Definition keeps_bad_schemas (f : AnalyzeFiles.file) : Prop :=
  PyStr.endswith (AnalyzeFiles.fname f) ".json" = true
  /\ exists j doc comps,
       AnalyzeFiles.parsed f = Some j
       /\ document_of j = Some (JDict doc)
       /\ member "components" doc = JDict comps
       /\ is_mapping (member "paths" doc) = true
       /\ kept_non_mapping (member "schemas" comps) = true.

(** A file that adds nothing: another suffix, a file that cannot be read, a
    content that is neither a list with members nor a mapping, or a
    document, components or paths that are not a mapping. *)
Definition left_out (f : AnalyzeFiles.file) : Prop :=
  PyStr.endswith (AnalyzeFiles.fname f) ".json" = false
  \/ AnalyzeFiles.parsed f = None
  \/ exists j,
       AnalyzeFiles.parsed f = Some j
       /\ match document_of j with
          | Some (JDict d) => is_mapping (member "components" d) = false
                              \/ is_mapping (member "paths" d) = false
          | _ => True
          end.

(** A file whose schemas are a list. *)
Definition list_schemas_file : AnalyzeFiles.file :=
  {| AnalyzeFiles.fname := "c.json";
     AnalyzeFiles.parsed :=
       Some (JDict [("components", JDict [("schemas", JList [JStr "Asset"])])]) |}.

(** A value that takes no width in a line: [None], a list or a mapping. *)
Definition takes_no_width (v : json) : bool :=
  match v with
  | JNull | JList _ | JDict _ => true
  | _ => false
  end.

(** A record whose line cannot be printed: a relation without a target, or
    a property whose type takes no width. *)
Definition unprintable (c : Analyze.fk) : bool :=
  if String.eqb (Analyze.source c) "api_path_only"
  then match Analyze.to_guess c with Some _ => false | None => true end
  else takes_no_width (Analyze.type c).













(** * Properties *)

(** ** The embedding on sample inputs *)

Example lower_example : PyStr.lower "Building_Id" = "building_id".
Proof. reflexivity. Qed.

Example contains_examples :
  PyStr.contains "id" "building_id" = true
  /\ PyStr.contains "" "abc" = true
  /\ PyStr.contains "buildings" "buildingid" = false.
Proof. repeat split. Qed.

Example endswith_examples :
  PyStr.endswith "asset_id" "_id" = true
  /\ PyStr.endswith "id" "_id" = false
  /\ PyStr.endswith "abc" "" = true.
Proof. repeat split. Qed.

Example normalize_examples :
  Analyze.normalize "Building_Id" = "buildingid"
  /\ Analyze.normalize "buildingid" = "buildingid"
  /\ Analyze.normalize "A-b_9 Z" = "ab9z".
Proof. repeat split. Qed.

Example sub_id_suffix_examples :
  Analyze.sub_id_suffix "Building_Id" = "Building"
  /\ Analyze.sub_id_suffix "AssetId" = "Asset"
  /\ Analyze.sub_id_suffix "x__ID" = "x_"
  /\ Analyze.sub_id_suffix "idid" = "id"
  /\ Analyze.sub_id_suffix ("x_id" ++ String PyStr.nl "") = "x" ++ String PyStr.nl ""
  /\ Analyze.sub_id_suffix "Name" = "Name".
Proof. repeat split. Qed.

Example match_path_examples :
  Analyze.match_path "/Asset/{collectionIndex}/End_User:get" = Some ("Asset", "End_User")
  /\ Analyze.match_path "/Asset/{a/b}/X y:get" = Some ("Asset", "X y")
  /\ Analyze.match_path "/Asset/End_User:get" = None
  /\ Analyze.match_path "/Asset/{}/End_User:get" = None
  /\ Analyze.match_path "Asset/{id}/End_User:get" = None
  /\ Analyze.match_path "/Asset/{id}/End_User" = None.
Proof. repeat split. Qed.

Example stringify_examples :
  FetchData.stringify (JInt 7) = "7"
  /\ FetchData.stringify (JStr "7") = "7"
  /\ FetchData.stringify (JInt (-15)) = "-15"
  /\ FetchData.stringify (JDict [("name", JStr "x"); ("Id", JInt 3)]) = "3"
  /\ FetchData.stringify (JDict [("id", JNull); ("serial", JStr "S1")]) = "S1"
  /\ FetchData.stringify (JDict [("id", JList [JInt 1; JNull; JBool true; JStr "q"])])
     = "[1, None, True, 'q']"
  /\ FetchData.stringify (JList [JInt 1; JNull; JBool true; JStr "q"])
     = "[1, null, true, " ++ String PyStr.dquote ("q" ++ String PyStr.dquote "]")
  /\ FetchData.stringify (JDict [("b", JInt 2); ("a", JList [])])
     = "{" ++ String PyStr.dquote ("a" ++ String PyStr.dquote
         (": [], " ++ String PyStr.dquote ("b" ++ String PyStr.dquote ": 2}"))).
Proof. repeat split. Qed.

(** ** Canonical names *)

Lemma lower_ascii_fixed (c : ascii) :
  PyStr.is_digit c || PyStr.is_lower c = true -> PyStr.lower_ascii c = c.
Proof.
  unfold PyStr.lower_ascii, PyStr.is_digit, PyStr.is_lower, PyStr.is_upper.
  intros H.
  destruct ((65 <=? N_of_ascii c)%N && (N_of_ascii c <=? 90)%N) eqn:U;
    [ | reflexivity].
  exfalso.
  apply andb_true_iff in U. destruct U as [U1 U2].
  apply N.leb_le in U1, U2.
  apply orb_true_iff in H. destruct H as [H | H];
    apply andb_true_iff in H; destruct H as [H1 H2];
    apply N.leb_le in H1, H2; lia.
Qed.

Lemma keep_all (p : ascii -> bool) (s : string) :
  PyStr.keep p (PyStr.keep p s) = PyStr.keep p s.
Proof.
  induction s as [ | c s IH]; simpl; [reflexivity | ].
  destruct (p c) eqn:E; simpl; [ | exact IH].
  now rewrite E, IH.
Qed.

Lemma lower_keep_canonical (s : string) :
  PyStr.lower (PyStr.keep (fun c => PyStr.is_digit c || PyStr.is_lower c) s)
  = PyStr.keep (fun c => PyStr.is_digit c || PyStr.is_lower c) s.
Proof.
  induction s as [ | c s IH]; simpl; [reflexivity | ].
  destruct (PyStr.is_digit c || PyStr.is_lower c) eqn:E; simpl; [ | exact IH].
  now rewrite IH, lower_ascii_fixed.
Qed.

(** X1: [normalize] is idempotent: the canonical name of a canonical name
    is that canonical name. *)
Lemma X1_normalize_idempotent (name : string) :
  Analyze.normalize (Analyze.normalize name) = Analyze.normalize name.
Proof.
  unfold Analyze.normalize. now rewrite lower_keep_canonical, keep_all.
Qed.

(** ** Decimal text of integers *)

Lemma string_of_uint_head (d : Decimal.uint) :
  exists c rest, NilZero.string_of_uint d = String c rest
                 /\ PyStr.is_digit c = true.
Proof.
  destruct d; simpl; eauto.
Qed.

Lemma str_int_numeric_head (n : Z) : numeric_head (PyStr.str_int n).
Proof.
  unfold PyStr.str_int, NilZero.string_of_int, numeric_head.
  destruct (Z.to_int n) as [d | d].
  - destruct (string_of_uint_head d) as (c & rest & -> & Hc); eauto.
  - eauto.
Qed.

(** A text that starts with another character is not the text of an
    integer. *)
Lemma str_int_neq (n : Z) (c : ascii) (rest : string) :
  PyStr.is_digit c = false -> c <> "-"%char ->
  PyStr.str_int n <> String c rest.
Proof.
  intros Hd Hm Heq.
  destruct (str_int_numeric_head n) as (c' & rest' & E & [H | H]);
    rewrite E in Heq; inversion Heq; subst; congruence.
Qed.

(** ** The stringifier *)

Section Stringify.
Import FetchData.

Lemma py_repr_not_sentinel (v : json) : py_repr v <> "<null>".
Proof.
  destruct v as [ | [ | ] | n | s | l | d ]; simpl; try discriminate.
  - apply str_int_neq; [reflexivity | discriminate].
  - unfold PyStr.repr_str.
    destruct (PyStr.has_char PyStr.squote s && negb (PyStr.has_char PyStr.dquote s));
      cbv [PyStr.dquote PyStr.squote]; simpl; discriminate.
Qed.

Lemma py_str_sentinel (v : json) :
  py_str v = "<null>" <-> v = JStr "<null>".
Proof.
  split.
  - destruct v; unfold py_str; intros H;
      try (exfalso; exact (py_repr_not_sentinel _ H)).
    now subst.
  - now intros ->.
Qed.

Lemma json_dumps_not_sentinel (v : json) : json_dumps v <> "<null>".
Proof.
  destruct v as [ | [ | ] | n | s | l | d ]; simpl; try discriminate.
  apply str_int_neq; [reflexivity | discriminate].
Qed.

Lemma first_id_value_not_none (d : record) (ks : list string) :
  first_id_value d ks <> Some JNull.
Proof.
  induction ks as [ | k ks IH]; simpl; [discriminate | ].
  destruct (PyDict.get d k) as [x | ]; [ | exact IH].
  destruct x; simpl; try discriminate; exact IH.
Qed.

(** C4, as the specification states it, fails: the string ["<null>"] is
    a value other than [None], and [stringify] gives it the very text it
    gives to [None]. *)
Lemma C4_sentinel_is_a_string_value :
  JStr "<null>" <> JNull
  /\ stringify (JStr "<null>") = stringify JNull.
Proof.
  split; [discriminate | reflexivity].
Qed.

(** C4, amended: a value other than [None] gets the text of [None] exactly
    when it is the string ["<null>"], or a mapping whose first
    identifier-like key with a value other than [None] holds the string
    ["<null>"].  Booleans, integers, sequences, every other string and
    every other mapping get another text. *)
Theorem C4_null_text_collisions (v : json) :
  v <> JNull ->
  (stringify v = stringify JNull <-> collides_with_null v).
Proof.
  intros Hv. unfold collides_with_null.
  destruct v as [ | b | n | s | l | d ].
  - contradiction.
  - split.
    + destruct b; discriminate.
    + intros [H | (d & H & _)]; discriminate.
  - split.
    + intros H. exfalso. revert H. simpl.
      apply str_int_neq; [reflexivity | discriminate].
    + intros [H | (d & H & _)]; discriminate.
  - simpl. split.
    + intros ->. now left.
    + intros [H | (d & H & _)]; [now inversion H | discriminate].
  - split.
    + intros H. exfalso. exact (json_dumps_not_sentinel _ H).
    + intros [H | (d & H & _)]; discriminate.
  - unfold stringify.
    destruct (first_id_value d id_like_keys) as [x | ] eqn:E.
    + split.
      * intros H. apply py_str_sentinel in H. subst x.
        right. exists d. now split.
      * intros [H | (d' & H & H')]; [discriminate | ].
        inversion H; subst d'. rewrite E in H'. inversion H'. reflexivity.
    + split.
      * intros H. exfalso. exact (json_dumps_not_sentinel _ H).
      * intros [H | (d' & H & H')]; [discriminate | ].
        inversion H; subst d'. rewrite E in H'. discriminate.
Qed.

Lemma C4_null_text_collisions_witness :
  JInt 0 <> JNull
  /\ (stringify (JInt 0) = stringify JNull <-> collides_with_null (JInt 0)).
Proof.
  split; [discriminate | apply (C4_null_text_collisions (JInt 0)); discriminate].
Defined.

Lemma bool_text_not_numeric (b : bool) (n : Z) :
  stringify (JBool b) <> stringify (JInt n).
Proof.
  intros H. symmetry in H. revert H.
  destruct b; simpl; apply str_int_neq; try reflexivity; discriminate.
Qed.

Lemma bool_text_not_among_numeric (b : bool) (ns : list Z) :
  PyStr.mem (stringify (JBool b)) (map (fun n => stringify (JInt n)) ns) = false.
Proof.
  unfold PyStr.mem.
  induction ns as [ | n ns IH]; [reflexivity | ].
  cbn [map existsb]. rewrite IH, orb_false_r.
  apply String.eqb_neq, bool_text_not_numeric.
Qed.

(** C10: [stringify] gives [True] and [False] the texts ["True"] and
    ["False"], and [1] and [0] the texts ["1"] and ["0"].  The text of a
    boolean is never the text of an integer nor of the strings ["1"] and
    ["0"], so a set of boolean field values has no element in common with
    a set of integer identifiers; an integer and the string of its decimal
    text get the same text. *)
Theorem C10_booleans_never_match_numbers :
  stringify (JBool true) = "True"
  /\ stringify (JBool false) = "False"
  /\ stringify (JInt 1) = "1"
  /\ stringify (JInt 0) = "0"
  /\ (forall b n, stringify (JBool b) <> stringify (JInt n))
  /\ (forall b, stringify (JBool b) <> stringify (JStr "1")
                /\ stringify (JBool b) <> stringify (JStr "0"))
  /\ (forall b ns,
         PyDict.intersection [stringify (JBool b)]
                             (map (fun n => stringify (JInt n)) ns) = [])
  /\ (forall n, stringify (JInt n) = stringify (JStr (PyStr.str_int n))).
Proof.
  repeat split; try reflexivity; try (destruct b; discriminate).
  - intros b n. apply bool_text_not_numeric.
  - intros b ns. unfold PyDict.intersection. cbn [filter].
    now rewrite bool_text_not_among_numeric.
Qed.

End Stringify.

(** ** The value-overlap finder *)

Section ValueOverlap.
Import FetchData.

(** C1: on the collections [Asset] and [Buildings], in this order, the
    finder emits no candidate at all.  The loop over the fields runs after
    the loop over the collections, on the last collection only, and the
    only field of [Buildings] is its identifier. *)
Theorem C1_asset_before_buildings_emits_nothing :
  find_fk_candidates [("Asset", asset_records); ("Buildings", buildings_records)]
  = Ok [].
Proof.
  vm_compute. reflexivity.
Qed.

(** With the same two collections in the other order the candidate of the
    example is emitted. *)
Lemma buildings_before_asset_emits_candidate :
  find_fk_candidates [("Buildings", buildings_records); ("Asset", asset_records)]
  = Ok [ {| from_collection := "Asset";
            field := "Building_Id";
            to_collection := "Buildings";
            matches := 1;
            sample_matches := ["10"];
            name_match := true |} ].
Proof.
  vm_compute. reflexivity.
Qed.

End ValueOverlap.

(** ** Python dictionaries *)

Section DictFacts.
Context {A V : Type}.

Lemma comprehension_snoc (key : A -> string) (val : A -> V) (l : list A) (x : A) :
  PyDict.comprehension key val (l ++ [x])
  = PyDict.set (PyDict.comprehension key val l) (key x) (val x).
Proof.
  unfold PyDict.comprehension. now rewrite fold_left_app.
Qed.

(** The first entry whose key satisfies [g], after an assignment. *)
Lemma find_set (g : string -> bool) (d : list (string * V)) (k : string) (v : V) :
  find (fun e => g (fst e)) (PyDict.set d k v)
  = match find (fun e => g (fst e)) d with
    | Some e => Some (if String.eqb (fst e) k then (fst e, v) else e)
    | None => if g k then Some (k, v) else None
    end.
Proof.
  induction d as [ | [k' v'] d IH]; simpl; [reflexivity | ].
  destruct (String.eqb k' k) eqn:E; simpl.
  - destruct (g k') eqn:G; simpl; [now rewrite E | ].
    apply String.eqb_eq in E. subst k'. rewrite G.
    destruct (find (fun e => g (fst e)) d) as [e | ] eqn:F; [ | reflexivity].
    apply find_some in F. destruct F as [_ F].
    destruct (String.eqb (fst e) k) eqn:E'; [ | reflexivity].
    apply String.eqb_eq in E'. congruence.
  - destruct (g k') eqn:G; simpl; [now rewrite E | exact IH].
Qed.

Lemma in_set (d : list (string * V)) (k : string) (v : V) (e : string * V) :
  In e (PyDict.set d k v) -> e = (k, v) \/ In e d.
Proof.
  induction d as [ | [k' v'] d IH]; simpl.
  - intros [H | []]. now left.
  - destruct (String.eqb k' k) eqn:E; simpl.
    + apply String.eqb_eq in E. subst k'. intros [H | H]; auto.
    + intros [H | H]; auto. destruct (IH H); auto.
Qed.

(** Every entry of a comprehension comes from an element of the list. *)
Lemma in_comprehension (key : A -> string) (val : A -> V) (l : list A)
    (e : string * V) :
  In e (PyDict.comprehension key val l) ->
  exists x, In x l /\ e = (key x, val x).
Proof.
  induction l as [ | x l IH] using rev_ind.
  - intros [].
  - rewrite comprehension_snoc. intros H.
    apply in_set in H. destruct H as [H | H].
    + exists x. split; [apply in_or_app; right; now left | exact H].
    + destruct (IH H) as (y & Hy & E).
      exists y. split; [apply in_or_app; now left | exact E].
Qed.

End DictFacts.

Lemma fold_left_Forall {A B : Type} (P : A -> Prop) (f : list A -> B -> list A)
    (l : list B) :
  (forall acc x, Forall P acc -> Forall P (f acc x)) ->
  forall acc, Forall P acc -> Forall P (fold_left f l acc).
Proof.
  intros Hf. induction l as [ | x l IH]; simpl; auto.
Qed.

(** ** The schema candidate finder *)

Section SchemaCandidates.
Import Analyze.

(** C6: from the single path template [/Asset/{id}/End_User:get] the
    extractor yields the mapping of [Asset] to the set of [End_User] and
    nothing else; from the single template [/Asset/End_User:get], which has
    no parameter segment, it yields the empty mapping. *)
Theorem C6_path_template_examples (path_def : json) :
  path_relationships [("/Asset/{id}/End_User:get", path_def)]
  = [("Asset", ["End_User"])]
  /\ path_relationships [("/Asset/End_User:get", path_def)] = [].
Proof.
  split; vm_compute; reflexivity.
Qed.

(** C5: on the schemas [Asset], with the integer property [Building_Id],
    and [Buildings], without properties, and no path relationships, the
    finder emits a candidate from [Asset], field [Building_Id], with the
    guess [Buildings]; it is the only record emitted. *)
Theorem C5_building_id_resolves_to_buildings :
  find_candidate_fks asset_buildings_schemas []
  = [ {| from := "Asset";
         field := "Building_Id";
         to_guess := Some "Buildings";
         type := JStr "integer";
         confirmed_by_api := false;
         source := "field_name" |} ]
  /\ exists c, In c (find_candidate_fks asset_buildings_schemas [])
               /\ from c = "Asset" /\ field c = "Building_Id"
               /\ to_guess c = Some "Buildings".
Proof.
  split; [vm_compute; reflexivity | ].
  eexists. split; [vm_compute; left; reflexivity | ].
  repeat split.
Qed.

Lemma for_prop_tags (nts : list (string * string))
    (rels : list (string * list string)) (sname : string) (p : string * pdef)
    (r : fk) :
  for_prop nts rels sname p = Some r -> tags_consistent r.
Proof.
  unfold for_prop.
  destruct (PyStr.contains "id" (PyStr.lower (fst p))); [ | discriminate].
  intros H. inversion H; subst r; clear H. unfold tags_consistent. simpl.
  destruct (match PyDict.get rels sname with
            | Some related => confirming_rel related (normalize (fst p))
            | None => None
            end).
  - repeat split; auto; discriminate.
  - repeat split; auto; try discriminate.
    intros [H | H]; discriminate.
Qed.

Lemma add_prop_tags (nts : list (string * string))
    (rels : list (string * list string)) (sname : string)
    (results : list fk) (p : string * pdef) :
  Forall tags_consistent results ->
  Forall tags_consistent (add_prop nts rels sname results p).
Proof.
  intros H. unfold add_prop.
  destruct (for_prop nts rels sname p) as [r | ] eqn:E; [ | exact H].
  apply Forall_app. split; [exact H | ].
  constructor; [ | constructor]. exact (for_prop_tags _ _ _ _ _ E).
Qed.

Lemma add_relation_tags (sname : string) (results : list fk) (related : string) :
  Forall tags_consistent results ->
  Forall tags_consistent (add_relation sname results related).
Proof.
  intros H. unfold add_relation.
  destruct (captured results sname related); [exact H | ].
  apply Forall_app. split; [exact H | ].
  constructor; [ | constructor].
  unfold tags_consistent. simpl. repeat split; auto; discriminate.
Qed.

Lemma for_schema_tags (nts : list (string * string))
    (rels : list (string * list string)) (results : list fk)
    (s : string * sdef) :
  Forall tags_consistent results ->
  Forall tags_consistent (for_schema nts rels results s).
Proof.
  intros H. unfold for_schema.
  assert (Hp : Forall tags_consistent
                 (fold_left (add_prop nts rels (fst s)) (props_of (snd s)) results)).
  { apply fold_left_Forall; [ | exact H].
    intros acc x. apply add_prop_tags. }
  destruct (PyDict.get rels (fst s)) as [related | ]; [ | exact Hp].
  apply fold_left_Forall; [ | exact Hp].
  intros acc x. apply add_relation_tags.
Qed.

(** C9: in every record emitted by [find_candidate_fks], [confirmed_by_api]
    is true exactly when the source tag is [api_path] or [api_path_only];
    the source tag is one of [field_name], [api_path] and [api_path_only];
    and a record tagged [field_name] is not marked as confirmed. *)
Theorem C9_evidence_tags_agree (schemas : list (string * sdef))
    (api_relationships : list (string * list string)) :
  Forall tags_consistent (find_candidate_fks schemas api_relationships).
Proof.
  unfold find_candidate_fks.
  apply fold_left_Forall; [ | constructor].
  intros acc x. apply for_schema_tags.
Qed.

Lemma direct_match_find (nts : list (string * string)) (prop_norm : string) :
  direct_match nts prop_norm
  = option_map snd (find (fun e => overlap (fst e) prop_norm) nts).
Proof.
  induction nts as [ | [cn cand] nts IH]; simpl; [reflexivity | ].
  destruct (overlap cn prop_norm); [reflexivity | exact IH].
Qed.

Lemma find_snoc {A : Type} (f : A -> bool) (l : list A) (x : A) :
  find f (l ++ [x])
  = match find f l with
    | Some k => Some k
    | None => if f x then Some x else None
    end.
Proof.
  induction l as [ | y l IH]; simpl; [reflexivity | ].
  destruct (f y); [reflexivity | exact IH].
Qed.

Lemma last_named_snoc (n : string) (names : list string) (x : string) :
  last_named n (names ++ [x])
  = if String.eqb (normalize x) n then Some x else last_named n names.
Proof.
  unfold last_named. now rewrite rev_unit.
Qed.

Lemma last_named_some (n : string) (names : list string) (k : string) :
  In k names -> normalize k = n -> exists c, last_named n names = Some c.
Proof.
  intros Hin Hn. unfold last_named.
  destruct (find (fun k0 => String.eqb (normalize k0) n) (rev names)) as [c | ] eqn:F.
  - now exists c.
  - apply find_none with (x := k) in F; [ | now apply in_rev in Hin].
    apply String.eqb_neq in F. contradiction.
Qed.

(** The first entry of [norm_to_schema] whose key satisfies [g]: its key is
    the canonical name of the first schema name that satisfies [g], its
    value the last schema name with that canonical name. *)
Lemma first_entry_of_norm_to_schema (g : string -> bool) (names : list string) :
  find (fun e => g (fst e)) (PyDict.comprehension normalize (fun k => k) names)
  = match find (fun k => g (normalize k)) names with
    | Some k => option_map (pair (normalize k)) (last_named (normalize k) names)
    | None => None
    end.
Proof.
  induction names as [ | x names IH] using rev_ind; [reflexivity | ].
  rewrite comprehension_snoc, find_set, IH, find_snoc.
  destruct (find (fun k => g (normalize k)) names) as [k | ] eqn:F.
  - apply find_some in F. destruct F as [Hin _].
    destruct (last_named_some (normalize k) names k Hin eq_refl) as [c Hc].
    rewrite last_named_snoc, Hc. simpl.
    rewrite String.eqb_sym.
    destruct (String.eqb (normalize x) (normalize k)); reflexivity.
  - destruct (g (normalize x)); [ | reflexivity].
    now rewrite last_named_snoc, String.eqb_refl.
Qed.

(** C3, as the specification states it, fails: with the schemas [Room] and
    [Asset] inserted in this order, both canonical names are contained in
    the canonical name of [Room_Asset_Id]; the step records [Room], the
    first in insertion order, and the first in sorted order is [Asset]. *)
Lemma C3_sorted_order_is_not_used :
  direct_match (norm_to_schema_of room_asset_schemas) (normalize "Room_Asset_Id")
  = Some "Room"
  /\ sorted_first_match room_asset_schemas (normalize "Room_Asset_Id")
     = Some "Asset"
  /\ map to_guess (find_candidate_fks room_asset_schemas []) = [Some "Room"]
  /\ direct_match (norm_to_schema_of room_asset_schemas) (normalize "Room_Asset_Id")
     <> sorted_first_match room_asset_schemas (normalize "Room_Asset_Id").
Proof.
  repeat split; try (vm_compute; reflexivity).
  vm_compute. discriminate.
Qed.

(** C3, amended: the match recorded by the direct containment step is the
    one of the first schema name, in the insertion order of the schema
    mapping, whose canonical name has containment overlap with the
    canonical property name; when several schema names have that same
    canonical name, the last of them is recorded. *)
Theorem C3_first_match_in_insertion_order (schemas : list (string * sdef))
    (prop_norm : string) :
  direct_match (norm_to_schema_of schemas) prop_norm
  = match find (fun k => overlap (normalize k) prop_norm) (PyDict.keys schemas) with
    | Some k => last_named (normalize k) (PyDict.keys schemas)
    | None => None
    end.
Proof.
  rewrite direct_match_find. unfold norm_to_schema_of.
  rewrite (first_entry_of_norm_to_schema (fun cn => overlap cn prop_norm)).
  destruct (find (fun k => overlap (normalize k) prop_norm) (PyDict.keys schemas))
    as [k | ]; [ | reflexivity].
  destruct (last_named (normalize k) (PyDict.keys schemas)); reflexivity.
Qed.

Lemma map_injective_on {A B : Type} (f : A -> B) (l : list A) (a b : A) :
  NoDup (map f l) -> In a l -> In b l -> f a = f b -> a = b.
Proof.
  induction l as [ | x l IH]; simpl; [intros _ [] | ].
  intros Hnd Ha Hb E. inversion Hnd as [ | ? ? Hx Hl]; subst.
  destruct Ha as [-> | Ha], Hb as [-> | Hb]; auto.
  - exfalso. apply Hx. rewrite E. now apply in_map.
  - exfalso. apply Hx. rewrite <- E. now apply in_map.
Qed.

(** When no two schema names have the same canonical name, the direct
    containment step records the first overlapping schema name itself. *)
Lemma direct_match_distinct_names (schemas : list (string * sdef))
    (prop_norm : string) :
  NoDup (map normalize (PyDict.keys schemas)) ->
  direct_match (norm_to_schema_of schemas) prop_norm
  = find (fun k => overlap (normalize k) prop_norm) (PyDict.keys schemas).
Proof.
  intros Hnd. rewrite direct_match_find. unfold norm_to_schema_of.
  rewrite (first_entry_of_norm_to_schema (fun cn => overlap cn prop_norm)).
  destruct (find (fun k => overlap (normalize k) prop_norm) (PyDict.keys schemas))
    as [k | ] eqn:F; [ | reflexivity].
  apply find_some in F. destruct F as [Hin _].
  destruct (last_named_some (normalize k) _ k Hin eq_refl) as [c Hc].
  rewrite Hc. simpl. f_equal.
  unfold last_named in Hc. apply find_some in Hc. destruct Hc as [Hc E].
  apply in_rev in Hc. apply String.eqb_eq in E.
  exact (map_injective_on normalize _ c k Hnd Hc Hin E).
Qed.

End SchemaCandidates.

(** ** The value-overlap finder: targets *)

Section OverlapTargets.
Import FetchData.

Lemma intersection_nil_r (vals : list string) : PyDict.intersection vals [] = [].
Proof.
  unfold PyDict.intersection. induction vals as [ | v vals IH]; [reflexivity | exact IH].
Qed.

Lemma in_against_target (a_name fld : string) (vals : list string)
    (b : string * list string) (c : candidate) :
  In c (against_target a_name fld vals b)
  <-> PyDict.intersection vals (snd b) <> []
      /\ c = candidate_for a_name fld (fst b) (PyDict.intersection vals (snd b)).
Proof.
  unfold against_target, candidate_for.
  destruct (snd b) as [ | i ids] eqn:E.
  - rewrite intersection_nil_r. simpl. split; [intros [] | intros [H _]; now apply H].
  - destruct (PyDict.intersection vals (i :: ids)) as [ | x inter] eqn:I.
    + simpl. split; [intros [] | intros [H _]; now apply H].
    + simpl. split.
      * intros [H | []]. split; [discriminate | now symmetry].
      * intros [_ ->]. now left.
Qed.

Lemma in_for_field (a_name : string) (a_items : list json)
    (col_ids : list (string * list string)) (fld : string) (c : candidate) :
  In c (for_field a_name a_items col_ids fld)
  <-> PyStr.mem (PyStr.lower fld) ["id"; "_id"] = false
      /\ exists b_name ids,
           In (b_name, ids) col_ids
           /\ PyDict.intersection (field_vals fld a_items) ids <> []
           /\ c = candidate_for a_name fld b_name
                    (PyDict.intersection (field_vals fld a_items) ids).
Proof.
  unfold for_field.
  destruct (PyStr.mem (PyStr.lower fld) ["id"; "_id"]).
  - split; [intros [] | intros [H _]; discriminate].
  - assert (F : In c (flat_map (against_target a_name fld (field_vals fld a_items)) col_ids)
                <-> exists b_name ids,
                      In (b_name, ids) col_ids
                      /\ PyDict.intersection (field_vals fld a_items) ids <> []
                      /\ c = candidate_for a_name fld b_name
                               (PyDict.intersection (field_vals fld a_items) ids)).
    { rewrite in_flat_map. split.
      - intros ([b_name ids] & Hb & Hc). apply in_against_target in Hc.
        exists b_name, ids. tauto.
      - intros (b_name & ids & Hb & Hi & Hc). exists (b_name, ids).
        split; [exact Hb | ]. apply in_against_target. now split. }
    destruct (field_vals fld a_items) as [ | v vals] eqn:V.
    + split; [intros [] | ].
      intros (_ & b_name & ids & _ & Hi & _). now elim Hi.
    + rewrite F. tauto.
Qed.





End OverlapTargets.

(** ** The verifier *)

Section Verifier.
Import VerifyFks.

Lemma fk_values_of_all_null (fk_field : string) (source_coll : list json) :
  all_null fk_field source_coll ->
  fst (fk_values_of fk_field source_coll) = [].
Proof.
  unfold all_null.
  induction source_coll as [ | it rest IH]; intros H; [reflexivity | ].
  assert (Hrest : fst (fk_values_of fk_field rest) = []).
  { apply IH. intros item Hin. apply H. now right. }
  destruct it as [ | b | n | s | l | item ]; simpl; try exact Hrest.
  destruct (fk_values_of fk_field rest) as [vals nulls]. simpl in Hrest.
  rewrite (H item (or_introl eq_refl)). simpl. exact Hrest.
Qed.

(** C8: for a check triple, an empty source collection gives the outcome
    "no source data"; a source collection with records and an empty
    identifier set of the target gives "no target IDs"; records, target
    identifiers and a field that is [None] in every record give "all values
    are NULL".  The three outcomes differ from one another, and in each of
    the three cases the outcome carries no match percentage. *)
Theorem C8_cannot_verify_is_not_scored
    (collections all_ids : list (string * list json))
    (source_name fk_field target_name : string) :
  (get_or_empty collections source_name = [] ->
   check collections all_ids (source_name, fk_field, target_name)
   = Ok NoSourceData)
  /\ (get_or_empty collections source_name <> [] ->
      get_or_empty all_ids target_name = [] ->
      check collections all_ids (source_name, fk_field, target_name)
      = Ok NoTargetIDs)
  /\ (get_or_empty collections source_name <> [] ->
      get_or_empty all_ids target_name <> [] ->
      all_null fk_field (get_or_empty collections source_name) ->
      exists null_count,
        check collections all_ids (source_name, fk_field, target_name)
        = Ok (AllValuesNull null_count))
  /\ (get_or_empty collections source_name = []
      \/ get_or_empty all_ids target_name = []
      \/ all_null fk_field (get_or_empty collections source_name) ->
      exists o,
        check collections all_ids (source_name, fk_field, target_name) = Ok o
        /\ scored o = false)
  /\ NoSourceData <> NoTargetIDs
  /\ (forall n, AllValuesNull n <> NoSourceData /\ AllValuesNull n <> NoTargetIDs).
Proof.
  unfold check.
  destruct (get_or_empty collections source_name) as [ | it rest] eqn:Src;
    destruct (get_or_empty all_ids target_name) as [ | i ids] eqn:Tgt.
  all: repeat split; try discriminate; try congruence; eauto.
  all: try (intros; exfalso; congruence).
  - intros _ _ Hnull. apply fk_values_of_all_null in Hnull.
    destruct (fk_values_of fk_field (it :: rest)) as [vals nulls].
    simpl in Hnull. subst vals. eauto.
  - intros [H | [H | Hnull]]; try discriminate.
    apply fk_values_of_all_null in Hnull.
    destruct (fk_values_of fk_field (it :: rest)) as [vals nulls].
    simpl in Hnull. subst vals. eauto.
Qed.

Lemma C8_cannot_verify_is_not_scored_witness :
  get_or_empty [("Asset", [JDict [("Building_Id", JNull)]])] "Asset" <> []
  /\ get_or_empty [("Buildings", [JInt 10])] "Buildings" <> []
  /\ all_null "Building_Id"
              (get_or_empty [("Asset", [JDict [("Building_Id", JNull)]])] "Asset")
  /\ exists null_count,
       check [("Asset", [JDict [("Building_Id", JNull)]])]
             [("Buildings", [JInt 10])]
             ("Asset", "Building_Id", "Buildings")
       = Ok (AllValuesNull null_count).
Proof.
  assert (Hs : get_or_empty [("Asset", [JDict [("Building_Id", JNull)]])] "Asset" <> [])
    by (vm_compute; discriminate).
  assert (Ht : get_or_empty [("Buildings", [JInt 10])] "Buildings" <> [])
    by (vm_compute; discriminate).
  assert (Hn : all_null "Building_Id"
                 (get_or_empty [("Asset", [JDict [("Building_Id", JNull)]])] "Asset")).
  { intros item [H | []]. inversion H; subst item. reflexivity. }
  repeat split; try assumption.
  exact (proj1 (proj2 (proj2
           (C8_cannot_verify_is_not_scored
              [("Asset", [JDict [("Building_Id", JNull)]])]
              [("Buildings", [JInt 10])]
              "Asset" "Building_Id" "Buildings"))) Hs Ht Hn).
Defined.

Lemma py_get_single (k : string) (v : json) : py_get [(k, v)] k = v.
Proof.
  unfold py_get. simpl. now rewrite String.eqb_refl.
Qed.

Lemma get_or_empty_single (k : string) (l : list json) :
  get_or_empty [(k, l)] k = l.
Proof.
  unfold get_or_empty. simpl. now rewrite String.eqb_refl.
Qed.

Lemma set_of_single (v : json) : hashable v = true -> set_of [v] = Ok [v].
Proof.
  intros H. unfold set_of. simpl. unfold add. now rewrite H.
Qed.

Lemma extract_ids_single (x : json) :
  hashable x = true -> is_none x = false ->
  extract_ids [JDict [("id", x)]] = Ok [x].
Proof.
  intros Hx Nx. unfold extract_ids. cbn [id_values].
  rewrite py_get_single, Nx. now apply set_of_single.
Qed.

Lemma fk_values_of_single (f : string) (v : json) :
  is_none v = false -> fk_values_of f [JDict [(f, v)]] = ([v], 0).
Proof.
  intros Nv. cbn [fk_values_of]. now rewrite py_get_single, Nv.
Qed.

(** The check of a single source value against a single target identifier:
    the number of matches for either way of comparing. *)
Lemma single_check_count (s f t : string) (v x : json) :
  hashable v = true -> hashable x = true ->
  is_none v = false -> is_none x = false ->
  matched_count (single_check s f t v x)
  = Some (if (if String.eqb f "Vendor_Id"
              then py_eqb v (JStr (py_str x))
              else py_eqb v x)
          then 1 else 0).
Proof.
  intros Hv Hx Nv Nx.
  unfold single_check. rewrite (extract_ids_single x Hx Nx). cbn [bind].
  unfold check. rewrite !get_or_empty_single.
  rewrite (fk_values_of_single f v Nv), (set_of_single v Hv). cbn [bind].
  destruct (String.eqb f "Vendor_Id").
  - cbn [map]. rewrite set_of_single by reflexivity. cbn [bind matched_count].
    unfold intersection, mem. cbn [filter existsb]. rewrite orb_false_r.
    destruct (py_eqb v (JStr (py_str x))); reflexivity.
  - cbn [bind matched_count].
    unfold intersection, mem. cbn [filter existsb]. rewrite orb_false_r.
    destruct (py_eqb v x); reflexivity.
Qed.


Lemma string_matches_number_iff (source_name fk_field target_name : string)
    (n : Z) :
  string_matches_number source_name fk_field target_name n
  <-> fk_field = "Vendor_Id".
Proof.
  unfold string_matches_number.
  rewrite single_check_count by reflexivity.
  cbn [py_eqb py_str].
  destruct (String.eqb fk_field "Vendor_Id") eqn:E.
  - apply String.eqb_eq in E. rewrite String.eqb_refl. tauto.
  - apply String.eqb_neq in E. split; [discriminate | contradiction].
Qed.











End Verifier.

(** * Further properties of the code *)

(** ** Strings and patterns *)

Lemma prefix_app (s b : string) : String.prefix s (s ++ b) = true.
Proof.
  induction s as [ | c s IH]; simpl; [now destruct b | ].
  destruct (ascii_dec c c) as [_ | N]; [exact IH | now elim N].
Qed.

Lemma contains_unfold (sub s : string) :
  PyStr.contains sub s
  = String.prefix sub s
    || match s with
       | EmptyString => false
       | String _ s' => PyStr.contains sub s'
       end.
Proof.
  destruct s; reflexivity.
Qed.

Lemma contains_app (s a b : string) : PyStr.contains s (a ++ s ++ b) = true.
Proof.
  induction a as [ | c a IH].
  - rewrite contains_unfold. simpl. now rewrite prefix_app.
  - rewrite contains_unfold. simpl. rewrite IH. apply orb_true_r.
Qed.

Lemma lower_app (a b : string) :
  PyStr.lower (a ++ b) = PyStr.lower a ++ PyStr.lower b.
Proof.
  induction a as [ | c a IH]; simpl; [reflexivity | now rewrite IH].
Qed.

Lemma keep_app (p : ascii -> bool) (a b : string) :
  PyStr.keep p (a ++ b) = PyStr.keep p a ++ PyStr.keep p b.
Proof.
  induction a as [ | c a IH]; simpl; [reflexivity | ].
  destruct (p c); simpl; now rewrite IH.
Qed.

Lemma normalize_app (a b : string) :
  Analyze.normalize (a ++ b) = Analyze.normalize a ++ Analyze.normalize b.
Proof.
  unfold Analyze.normalize. now rewrite lower_app, keep_app.
Qed.

(** X2: a property name that contains the name of a schema, whatever stands
    before and after it, has containment overlap with that schema: the
    canonical name of the schema is contained in the canonical name of the
    property. *)
Theorem X2_embedded_name_overlaps (schema pre post : string) :
  Analyze.overlap (Analyze.normalize schema)
                  (Analyze.normalize (pre ++ schema ++ post)) = true.
Proof.
  unfold Analyze.overlap. rewrite !normalize_app, contains_app. reflexivity.
Qed.

Lemma str_int_injective (n m : Z) : PyStr.str_int n = PyStr.str_int m -> n = m.
Proof.
  unfold PyStr.str_int. intros H.
  assert (V : forall z, Z.to_int z <> Decimal.Pos Decimal.Nil
                        /\ Z.to_int z <> Decimal.Neg Decimal.Nil).
  { intros [ | p | p]; simpl; split; try discriminate;
      intros E; inversion E as [E']; now apply Unsigned.to_uint_nonnil in E'. }
  apply (f_equal NilZero.int_of_string) in H.
  rewrite !NilZero.isi in H by apply V.
  inversion H as [E]. apply (f_equal Z.of_int) in E.
  now rewrite !DecimalZ.of_to in E.
Qed.

Lemma span_spec (p : ascii -> bool) (s a b : string) :
  PyStr.span p s = (a, b) ->
  s = a ++ b /\ all_chars p a = true
  /\ match b with
     | EmptyString => True
     | String c _ => p c = false
     end.
Proof.
  revert a b. induction s as [ | c s IH]; simpl; intros a b H.
  - inversion H; subst. repeat split.
  - destruct (p c) eqn:E.
    + destruct (PyStr.span p s) as [a' b'] eqn:S. inversion H; subst.
      destruct (IH a' b eq_refl) as (-> & Ha & Hb).
      simpl. rewrite E, Ha. repeat split. exact Hb.
    + inversion H; subst. simpl. repeat split. exact E.
Qed.

Lemma span_intro (p : ascii -> bool) (a : string) (c : ascii) (b : string) :
  all_chars p a = true -> p c = false ->
  PyStr.span p (a ++ String c b) = (a, String c b).
Proof.
  induction a as [ | x a IH]; simpl; intros Ha Hc.
  - now rewrite Hc.
  - apply andb_true_iff in Ha. destruct Ha as [Hx Ha].
    now rewrite Hx, IH.
Qed.

(** A match on a character literal: all characters but one are refuted. *)
Ltac only_char H :=
  match type of H with
  | context [match ?c with Ascii _ _ _ _ _ _ _ _ => _ end] =>
      destruct c as [[] [] [] [] [] [] [] []]; try discriminate H
  end.

(** X3: the pattern of the path templates matches exactly the strings of the
    shape [/source/{param}/target:rest], where [source] has no slash,
    [param] no closing brace, [target] neither colon nor slash, and none of
    the three is empty; the two groups are [source] and [target]. *)
Theorem X3_match_path_shape (path_str source target : string) :
  Analyze.match_path path_str = Some (source, target)
  <-> exists param rest,
        path_str = "/" ++ source ++ "/{" ++ param ++ "}/" ++ target ++ ":" ++ rest
        /\ source <> "" /\ param <> "" /\ target <> ""
        /\ all_chars not_slash source = true
        /\ all_chars not_brace param = true
        /\ all_chars not_colon_slash target = true.
Proof.
  split.
  - unfold Analyze.match_path. intros H.
    destruct path_str as [ | c r]; [discriminate | ].
    only_char H.
    destruct (PyStr.span (fun c => negb (Ascii.eqb c "/")) r) as [src r1] eqn:S1.
    destruct src as [ | s0 src]; [discriminate | ].
    destruct r1 as [ | c1 r1]; [discriminate | ].
    only_char H.
    destruct r1 as [ | c2 r2]; [discriminate | ].
    only_char H.
    destruct (PyStr.span (fun c => negb (Ascii.eqb c "}")) r2) as [par r3] eqn:S2.
    destruct par as [ | p0 par]; [discriminate | ].
    destruct r3 as [ | c3 r3]; [discriminate | ].
    only_char H.
    destruct r3 as [ | c4 r4]; [discriminate | ].
    only_char H.
    destruct (PyStr.span (fun c => negb (Ascii.eqb c ":" || Ascii.eqb c "/")) r4)
      as [tgt r5] eqn:S3.
    destruct tgt as [ | t0 tgt]; [discriminate | ].
    destruct r5 as [ | c5 r5]; [discriminate | ].
    only_char H.
    inversion H; subst source target; clear H.
    apply span_spec in S1, S2, S3.
    destruct S1 as (-> & A1 & _), S2 as (-> & A2 & _), S3 as (-> & A3 & _).
    exists (String p0 par), r5.
    repeat split; try discriminate; try assumption.
  - intros (param & rest & -> & Hs & Hp & Ht & As & Ap & At).
    unfold Analyze.match_path. simpl.
    rewrite (span_intro (fun c => negb (Ascii.eqb c "/")) source) by (exact As || reflexivity).
    destruct source as [ | s0 source]; [now elim Hs | ].
    rewrite (span_intro (fun c => negb (Ascii.eqb c "}")) param) by (exact Ap || reflexivity).
    destruct param as [ | p0 param]; [now elim Hp | ].
    rewrite (span_intro (fun c => negb (Ascii.eqb c ":" || Ascii.eqb c "/")) target)
      by (exact At || reflexivity).
    destruct target as [ | t0 target]; [now elim Ht | ].
    reflexivity.
Qed.

(** ** Laws of dictionaries and sets *)

Section DictLaws.
Context {V : Type}.

Lemma get_set (d : list (string * V)) (k k' : string) (v : V) :
  PyDict.get (PyDict.set d k v) k'
  = if String.eqb k k' then Some v else PyDict.get d k'.
Proof.
  induction d as [ | [k0 v0] d IH]; simpl.
  - reflexivity.
  - destruct (String.eqb k0 k) eqn:E; simpl.
    + apply String.eqb_eq in E. subst k0.
      destruct (String.eqb k k'); reflexivity.
    + destruct (String.eqb k0 k') eqn:E'; [ | exact IH].
      apply String.eqb_eq in E'. subst k0.
      now rewrite String.eqb_sym, E.
Qed.

Lemma get_in (d : list (string * V)) (k : string) (v : V) :
  PyDict.get d k = Some v -> In (k, v) d.
Proof.
  induction d as [ | [k0 v0] d IH]; simpl; [discriminate | ].
  destruct (String.eqb k0 k) eqn:E.
  - apply String.eqb_eq in E. intros H. inversion H; subst. now left.
  - intros H. right. now apply IH.
Qed.

Lemma get_none_keys (d : list (string * V)) (k : string) :
  PyDict.get d k = None <-> ~ In k (PyDict.keys d).
Proof.
  induction d as [ | [k0 v0] d IH]; simpl.
  - split; [intros _ [] | reflexivity].
  - destruct (String.eqb k0 k) eqn:E.
    + apply String.eqb_eq in E. split; [discriminate | ]. intros H. elim H. now left.
    + apply String.eqb_neq in E. rewrite IH. tauto.
Qed.

Lemma keys_set (d : list (string * V)) (k : string) (v : V) :
  PyDict.keys (PyDict.set d k v)
  = if PyDict.has d k then PyDict.keys d else (PyDict.keys d ++ [k])%list.
Proof.
  unfold PyDict.has, PyDict.keys.
  induction d as [ | [k0 v0] d IH]; simpl; [reflexivity | ].
  destruct (String.eqb k0 k) eqn:E; simpl; [reflexivity | ].
  rewrite IH.
  destruct (PyDict.get d k); reflexivity.
Qed.

Lemma keys_set_nodup (d : list (string * V)) (k : string) (v : V) :
  NoDup (PyDict.keys d) -> NoDup (PyDict.keys (PyDict.set d k v)).
Proof.
  intros H. rewrite keys_set. unfold PyDict.has.
  destruct (PyDict.get d k) eqn:E; [exact H | ].
  apply get_none_keys in E.
  apply NoDup_app; [exact H | repeat constructor; intros [] | ].
  intros x Hx [<- | []]. contradiction.
Qed.

End DictLaws.

Lemma mem_in (x : string) (l : list string) : PyStr.mem x l = true <-> In x l.
Proof.
  unfold PyStr.mem. rewrite existsb_exists. split.
  - intros (y & Hy & E). apply String.eqb_eq in E. now subst.
  - intros H. exists x. split; [exact H | apply String.eqb_refl].
Qed.

Lemma in_add (l : list string) (x y : string) :
  In x (PyDict.add l y) <-> In x l \/ x = y.
Proof.
  unfold PyDict.add. destruct (PyStr.mem y l) eqn:E.
  - apply mem_in in E. split; [tauto | ]. intros [H | ->]; assumption.
  - rewrite in_app_iff. simpl. intuition congruence.
Qed.

Lemma add_nodup (l : list string) (y : string) :
  NoDup l -> NoDup (PyDict.add l y).
Proof.
  intros H. unfold PyDict.add. destruct (PyStr.mem y l) eqn:E; [exact H | ].
  apply NoDup_app; [exact H | repeat constructor; intros [] | ].
  intros x Hx [<- | []].
  apply mem_in in Hx. congruence.
Qed.

(** ** Path relationships *)

Section PathRelationships.
Import Analyze.

Lemma targets_of_add_path (rels : list (string * list string))
    (path_str s t : string) :
  In t (targets_of (add_path rels path_str) s)
  <-> In t (targets_of rels s) \/ match_path path_str = Some (s, t).
Proof.
  unfold add_path.
  destruct (match_path path_str) as [[src tgt] | ] eqn:M.
  - unfold targets_of at 1. rewrite get_set.
    destruct (String.eqb src s) eqn:E.
    + apply String.eqb_eq in E. subst src. rewrite in_add.
      unfold targets_of. split.
      * intros [H | ->]; [now left | now right].
      * intros [H | H]; [now left | ]. inversion H. now right.
    + apply String.eqb_neq in E. fold (targets_of rels s). split; [tauto | ].
      intros [H | H]; [exact H | ]. inversion H. congruence.
  - split; [tauto | ]. intros [H | H]; [exact H | discriminate].
Qed.

Lemma targets_of_fold (l : list string) (rels : list (string * list string))
    (s t : string) :
  In t (targets_of (fold_left add_path l rels) s)
  <-> In t (targets_of rels s)
      \/ exists path_str, In path_str l /\ match_path path_str = Some (s, t).
Proof.
  revert rels. induction l as [ | p l IH]; intros rels; simpl.
  - split; [tauto | ]. intros [H | (p & [] & _)]. exact H.
  - rewrite IH, targets_of_add_path. split.
    + intros [[H | H] | (q & Hq & Hm)]; eauto.
    + intros [H | (q & [<- | Hq] & Hm)]; eauto.
Qed.

(** X4: a target is related to a source exactly when some path template of
    the input matches the pattern with that source and that target. *)
Theorem X4_path_relationships_members
    (paths : list (string * json)) (source target : string) :
  In target (targets_of (path_relationships paths) source)
  <-> exists path_str,
        In path_str (PyDict.keys paths)
        /\ match_path path_str = Some (source, target).
Proof.
  unfold path_relationships. rewrite targets_of_fold.
  split; [ | now right]. intros [[] | H]. exact H.
Qed.

Lemma add_nonempty (l : list string) (y : string) : PyDict.add l y <> [].
Proof.
  unfold PyDict.add. destruct (PyStr.mem y l) eqn:E.
  - destruct l; [discriminate | discriminate].
  - destruct l; discriminate.
Qed.

Lemma add_path_well_formed (rels : list (string * list string)) (path_str : string) :
  well_formed_relationships rels ->
  well_formed_relationships (add_path rels path_str).
Proof.
  intros [Hk Hv]. unfold add_path.
  destruct (match_path path_str) as [[src tgt] | ]; [ | now split].
  split; [now apply keys_set_nodup | ].
  intros s ts Hin. apply in_set in Hin. destruct Hin as [E | Hin]; [ | exact (Hv _ _ Hin)].
  inversion E; subst. split; [ | apply add_nonempty].
  apply add_nodup.
  destruct (PyDict.get rels src) as [ts0 | ] eqn:G; [ | constructor].
  apply get_in in G. exact (proj1 (Hv _ _ G)).
Qed.

(** X5: the relationships read off the paths have distinct sources, and
    every source has a set of targets without repetition and with at least
    one member. *)
Theorem X5_path_relationships_well_formed (paths : list (string * json)) :
  well_formed_relationships (path_relationships paths).
Proof.
  unfold path_relationships.
  assert (G : forall l rels, well_formed_relationships rels ->
                             well_formed_relationships (fold_left add_path l rels)).
  { induction l as [ | p l IH]; simpl; intros rels H; [exact H | ].
    apply IH. now apply add_path_well_formed. }
  apply G. split; [constructor | intros s ts []].
Qed.

End PathRelationships.

(** ** The structure of the result of the schema candidate finder *)

Section SchemaStructure.
Import Analyze.
Variable nts : list (string * string).
Variable rels : list (string * list string).

Lemma for_prop_named (sname : string) (p : string * pdef) (c : fk) :
  for_prop nts rels sname p = Some c -> named c = true.
Proof.
  unfold for_prop, named.
  destruct (PyStr.contains "id" (PyStr.lower (fst p))); [ | discriminate].
  intros H. inversion H; subst c; clear H. simpl.
  destruct (match PyDict.get rels sname with
            | Some related => confirming_rel related (normalize (fst p))
            | None => None
            end); reflexivity.
Qed.

Lemma fold_add_prop (sname : string) (props : list (string * pdef))
    (results : list fk) :
  fold_left (add_prop nts rels sname) props results
  = (results ++ flat_map (fun p => option_to_list (for_prop nts rels sname p)) props)%list.
Proof.
  revert results. induction props as [ | p props IH]; intros results; simpl.
  - now rewrite app_nil_r.
  - rewrite IH. unfold add_prop.
    destruct (for_prop nts rels sname p); simpl.
    + now rewrite <- app_assoc.
    + reflexivity.
Qed.

Lemma filter_named_props (sname : string) (props : list (string * pdef)) :
  filter named (flat_map (fun p => option_to_list (for_prop nts rels sname p)) props)
  = flat_map (fun p => option_to_list (for_prop nts rels sname p)) props.
Proof.
  induction props as [ | p props IH]; simpl; [reflexivity | ].
  rewrite filter_app, IH. f_equal.
  destruct (for_prop nts rels sname p) as [c | ] eqn:E; simpl; [ | reflexivity].
  now rewrite (for_prop_named _ _ _ E).
Qed.

Lemma filter_named_add_relation (sname : string) (results : list fk)
    (related : string) :
  filter named (add_relation sname results related) = filter named results.
Proof.
  unfold add_relation. destruct (captured results sname related); [reflexivity | ].
  rewrite filter_app. simpl. apply app_nil_r.
Qed.

Lemma filter_named_relations (sname : string) (related : list string)
    (results : list fk) :
  filter named (fold_left (add_relation sname) related results)
  = filter named results.
Proof.
  revert results. induction related as [ | r related IH]; intros results; simpl.
  - reflexivity.
  - now rewrite IH, filter_named_add_relation.
Qed.

Lemma filter_named_for_schema (results : list fk) (s : string * sdef) :
  filter named (for_schema nts rels results s)
  = (filter named results
     ++ flat_map (fun p => option_to_list (for_prop nts rels (fst s) p))
                 (props_of (snd s)))%list.
Proof.
  unfold for_schema.
  destruct (PyDict.get rels (fst s)) as [related | ].
  - now rewrite filter_named_relations, fold_add_prop, filter_app, filter_named_props.
  - now rewrite fold_add_prop, filter_app, filter_named_props.
Qed.

Lemma filter_named_schemas (schemas : list (string * sdef)) (results : list fk) :
  filter named (fold_left (for_schema nts rels) schemas results)
  = (filter named results
     ++ flat_map
          (fun s => flat_map (fun p => option_to_list (for_prop nts rels (fst s) p))
                             (props_of (snd s)))
          schemas)%list.
Proof.
  revert results. induction schemas as [ | s schemas IH]; intros results; simpl.
  - now rewrite app_nil_r.
  - now rewrite IH, filter_named_for_schema, <- app_assoc.
Qed.

End SchemaStructure.

(** ** Invariants of the schema candidate finder *)

Section SchemaProperties.
Import Analyze.

Lemma for_prop_fields (nts : list (string * string))
    (rels : list (string * list string)) (sname : string)
    (props : list (string * pdef)) :
  map (fun c => (from c, field c, type c))
      (flat_map (fun p => option_to_list (for_prop nts rels sname p)) props)
  = map (fun p => (sname, fst p, p_type (snd p)))
        (filter (fun p => PyStr.contains "id" (PyStr.lower (fst p))) props).
Proof.
  induction props as [ | p props IH]; simpl; [reflexivity | ].
  rewrite map_app, IH. unfold for_prop.
  destruct (PyStr.contains "id" (PyStr.lower (fst p))); reflexivity.
Qed.

Lemma schemas_fields (nts : list (string * string))
    (rels : list (string * list string)) (schemas : list (string * sdef)) :
  map (fun c => (from c, field c, type c))
      (flat_map
         (fun s => flat_map (fun p => option_to_list (for_prop nts rels (fst s) p))
                            (props_of (snd s)))
         schemas)
  = flat_map
      (fun s =>
         map (fun p => (fst s, fst p, p_type (snd p)))
             (filter (fun p => PyStr.contains "id" (PyStr.lower (fst p)))
                     (props_of (snd s))))
      schemas.
Proof.
  induction schemas as [ | s schemas IH]; simpl; [reflexivity | ].
  now rewrite map_app, IH, for_prop_fields.
Qed.

(** X6: the records of the result that are not tagged [api_path_only] are
    one record for each property whose lower-cased name contains [id], in
    the order of the schemas and of their properties, whether a target was
    found or not: each has the name of the schema, the name of the property
    and the type the property gives; the relation records do not change
    them. *)
Theorem X6_named_candidates_in_order (schemas : list (string * sdef))
    (api_relationships : list (string * list string)) :
  map (fun c => (from c, field c, type c))
      (filter named (find_candidate_fks schemas api_relationships))
  = flat_map
      (fun s =>
         map (fun p => (fst s, fst p, p_type (snd p)))
             (filter (fun p => PyStr.contains "id" (PyStr.lower (fst p)))
                     (props_of (snd s))))
      schemas.
Proof.
  unfold find_candidate_fks. rewrite filter_named_schemas. simpl.
  apply schemas_fields.
Qed.

Lemma fold_left_Forall_in {A B : Type} (P : A -> Prop)
    (f : list A -> B -> list A) (l : list B) :
  (forall acc x, In x l -> Forall P acc -> Forall P (f acc x)) ->
  forall acc, Forall P acc -> Forall P (fold_left f l acc).
Proof.
  induction l as [ | x l IH]; simpl; intros Hf acc H; [exact H | ].
  apply IH.
  - intros acc' y Hy. apply Hf. now right.
  - apply Hf; [now left | exact H].
Qed.

(** A property of every record of the result, from the two places that
    append a record. *)
Lemma find_candidate_fks_Forall (P : fk -> Prop) (schemas : list (string * sdef))
    (rels : list (string * list string)) :
  (forall s p c,
      In s schemas -> In p (props_of (snd s)) ->
      for_prop (norm_to_schema_of schemas) rels (fst s) p = Some c -> P c) ->
  (forall s related t,
      In s schemas -> PyDict.get rels (fst s) = Some related -> In t related ->
      P (relation_record (fst s) t)) ->
  Forall P (find_candidate_fks schemas rels).
Proof.
  intros Hprop Hrel. unfold find_candidate_fks.
  apply fold_left_Forall_in; [ | constructor].
  intros acc s Hs Hacc. unfold for_schema.
  assert (Hp : Forall P (fold_left (add_prop (norm_to_schema_of schemas) rels (fst s))
                                   (props_of (snd s)) acc)).
  { apply fold_left_Forall_in; [ | exact Hacc].
    intros acc' p Hp Hacc'. unfold add_prop.
    destruct (for_prop (norm_to_schema_of schemas) rels (fst s) p) as [c | ] eqn:E;
      [ | exact Hacc'].
    apply Forall_app. split; [exact Hacc' | ].
    constructor; [ | constructor]. exact (Hprop s p c Hs Hp E). }
  destruct (PyDict.get rels (fst s)) as [related | ] eqn:G; [ | exact Hp].
  apply fold_left_Forall_in; [ | exact Hp].
  intros acc' t Ht Hacc'. unfold add_relation.
  destruct (captured acc' (fst s) t); [exact Hacc' | ].
  apply Forall_app. split; [exact Hacc' | ].
  constructor; [ | constructor]. exact (Hrel s related t Hs G Ht).
Qed.

Lemma direct_match_value (nts : list (string * string)) (prop_norm x : string) :
  direct_match nts prop_norm = Some x -> In x (map snd nts).
Proof.
  induction nts as [ | [cn cand] nts IH]; simpl; [discriminate | ].
  destruct (overlap cn prop_norm).
  - intros H. inversion H. now left.
  - intros H. right. now apply IH.
Qed.

Lemma get_value {V : Type} (d : list (string * V)) (k : string) (v : V) :
  PyDict.get d k = Some v -> In v (map snd d).
Proof.
  intros H. apply get_in in H. now apply (in_map snd) in H.
Qed.

Lemma heuristic_match_value (nts : list (string * string)) (prop : string)
    (matched : option string) (x : string) :
  heuristic_match nts prop matched = Some x ->
  In x (map snd nts) \/ matched = Some x.
Proof.
  unfold heuristic_match.
  destruct (PyDict.get nts (normalize (sub_id_suffix prop))) as [s | ] eqn:G1.
  - intros H. inversion H; subst. left. exact (get_value _ _ _ G1).
  - destruct (PyStr.endswith (sub_id_suffix prop) "s").
    + destruct (PyDict.get nts (normalize (PyStr.drop_last 1 (sub_id_suffix prop))))
        as [s | ] eqn:G2.
      * intros H. inversion H; subst. left. exact (get_value _ _ _ G2).
      * now right.
    + destruct (PyDict.get nts (normalize (sub_id_suffix prop ++ "s")))
        as [s | ] eqn:G3.
      * intros H. inversion H; subst. left. exact (get_value _ _ _ G3).
      * now right.
Qed.

Lemma norm_to_schema_values (schemas : list (string * sdef)) (x : string) :
  In x (map snd (norm_to_schema_of schemas)) -> In x (PyDict.keys schemas).
Proof.
  intros H. apply in_map_iff in H. destruct H as ([cn v] & E & H).
  simpl in E. subst v.
  apply in_comprehension in H. destruct H as (k & Hk & E).
  inversion E; subst. exact Hk.
Qed.

(** X7: the guess of a record tagged [field_name] is either no schema or the
    name of one of the schemas of the input. *)
Theorem X7_field_name_guess_is_a_schema (schemas : list (string * sdef))
    (api_relationships : list (string * list string)) :
  Forall (guess_is_known schemas) (find_candidate_fks schemas api_relationships).
Proof.
  apply find_candidate_fks_Forall.
  - intros s p c _ _. unfold for_prop.
    destruct (PyStr.contains "id" (PyStr.lower (fst p))); [ | discriminate].
    intros H. inversion H; subst c; clear H. unfold guess_is_known. simpl.
    destruct (match PyDict.get api_relationships (fst s) with
              | Some related => confirming_rel related (normalize (fst p))
              | None => None
              end); [discriminate | ].
    intros _.
    set (nts := norm_to_schema_of schemas).
    destruct (direct_match nts (normalize (fst p))) as [m | ] eqn:D.
    + assert (Hm : In m (PyDict.keys schemas))
        by (apply norm_to_schema_values; exact (direct_match_value _ _ _ D)).
      destruct (falsy (Some m)); [ | right; eauto].
      destruct (heuristic_match nts (fst p) (Some m)) as [x | ] eqn:Hh; [ | now left].
      right. exists x. split; [reflexivity | ].
      apply heuristic_match_value in Hh. destruct Hh as [Hh | Hh].
      * now apply norm_to_schema_values.
      * inversion Hh; subst. exact Hm.
    + simpl. destruct (heuristic_match nts (fst p) None) as [x | ] eqn:Hh; [ | now left].
      right. exists x. split; [reflexivity | ].
      apply heuristic_match_value in Hh. destruct Hh as [Hh | Hh]; [ | discriminate].
      now apply norm_to_schema_values.
  - intros s related t _ _ _. unfold guess_is_known. simpl. discriminate.
Qed.

Lemma confirming_rel_member (related : list string) (prop_norm rel : string) :
  confirming_rel related prop_norm = Some rel ->
  In rel related /\ overlap (normalize rel) prop_norm = true.
Proof.
  induction related as [ | r related IH]; simpl; [discriminate | ].
  destruct (overlap (normalize r) prop_norm) eqn:E.
  - intros H. inversion H; subst. split; [now left | exact E].
  - intros H. destruct (IH H). split; [now right | assumption].
Qed.

(** X8: a record is marked as confirmed only with a guess that is one of
    the targets the paths give for the schema of the record. *)
Theorem X8_confirmed_guess_is_a_path_target (schemas : list (string * sdef))
    (api_relationships : list (string * list string)) :
  Forall (confirmation_is_path_target api_relationships)
         (find_candidate_fks schemas api_relationships).
Proof.
  apply find_candidate_fks_Forall.
  - intros s p c _ _. unfold for_prop.
    destruct (PyStr.contains "id" (PyStr.lower (fst p))); [ | discriminate].
    intros H. inversion H; subst c; clear H.
    unfold confirmation_is_path_target. simpl.
    destruct (PyDict.get api_relationships (fst s)) as [related | ]; [ | discriminate].
    destruct (confirming_rel related (normalize (fst p))) as [rel | ] eqn:E;
      [ | discriminate].
    intros _. exists related, rel.
    apply confirming_rel_member in E. tauto.
  - intros s related t _ G Ht. unfold confirmation_is_path_target. simpl.
    intros _. exists related, t. tauto.
Qed.

Lemma add_relation_extends (sname : string) (results : list fk) (t : string) :
  exists ext, add_relation sname results t = (results ++ ext)%list.
Proof.
  unfold add_relation. destruct (captured results sname t).
  - exists []. now rewrite app_nil_r.
  - eexists. reflexivity.
Qed.

Lemma relations_extend (sname : string) (related : list string) (results : list fk) :
  exists ext, fold_left (add_relation sname) related results = (results ++ ext)%list.
Proof.
  revert results. induction related as [ | t related IH]; intros results; simpl.
  - exists []. now rewrite app_nil_r.
  - destruct (add_relation_extends sname results t) as [e1 ->].
    destruct (IH (results ++ e1)%list) as [e2 ->].
    exists (e1 ++ e2)%list. now rewrite app_assoc.
Qed.

Lemma for_schema_extends (nts : list (string * string))
    (rels : list (string * list string)) (results : list fk) (s : string * sdef) :
  exists ext, for_schema nts rels results s = (results ++ ext)%list.
Proof.
  unfold for_schema. rewrite fold_add_prop.
  destruct (PyDict.get rels (fst s)) as [related | ].
  - destruct (relations_extend (fst s) related
                (results ++ flat_map (fun p => option_to_list
                                                 (for_prop nts rels (fst s) p))
                                     (props_of (snd s)))%list) as [e ->].
    eexists. now rewrite <- app_assoc.
  - eexists. reflexivity.
Qed.

Lemma schemas_extend (nts : list (string * string))
    (rels : list (string * list string)) (schemas : list (string * sdef))
    (results : list fk) :
  exists ext, fold_left (for_schema nts rels) schemas results = (results ++ ext)%list.
Proof.
  revert results. induction schemas as [ | s schemas IH]; intros results; simpl.
  - exists []. now rewrite app_nil_r.
  - destruct (for_schema_extends nts rels results s) as [e1 ->].
    destruct (IH (results ++ e1)%list) as [e2 ->].
    exists (e1 ++ e2)%list. now rewrite app_assoc.
Qed.

Lemma captured_app (results ext : list fk) (sname t : string) :
  captured results sname t = true -> captured (results ++ ext) sname t = true.
Proof.
  unfold captured. rewrite existsb_app. intros ->. reflexivity.
Qed.

Lemma captured_add_relation (sname : string) (results : list fk) (t : string) :
  captured (add_relation sname results t) sname t = true.
Proof.
  unfold add_relation. destruct (captured results sname t) eqn:E; [exact E | ].
  unfold captured. rewrite existsb_app. simpl.
  rewrite !String.eqb_refl. simpl. apply orb_true_r.
Qed.

Lemma captured_relations (sname : string) (related : list string)
    (results : list fk) (t : string) :
  In t related ->
  captured (fold_left (add_relation sname) related results) sname t = true.
Proof.
  revert results. induction related as [ | r related IH]; intros results; simpl;
    [intros [] | ].
  intros [-> | Hin]; [ | now apply IH].
  destruct (relations_extend sname related (add_relation sname results t)) as [e ->].
  apply captured_app, captured_add_relation.
Qed.

Lemma captured_member (results : list fk) (sname t : string) :
  captured results sname t = true ->
  exists c, In c results /\ from c = sname /\ to_guess c = Some t.
Proof.
  unfold captured. rewrite existsb_exists. intros (c & Hc & H).
  apply andb_true_iff in H. destruct H as [H1 H2].
  apply String.eqb_eq in H1.
  destruct (to_guess c) as [t' | ] eqn:E; [ | discriminate].
  apply String.eqb_eq in H2. subst. now exists c.
Qed.

(** X9: every target the paths give for a schema of the input is the guess
    of some record of that schema. *)
Theorem X9_every_path_target_is_reported (schemas : list (string * sdef))
    (api_relationships : list (string * list string))
    (sname : string) (d : sdef) (related : list string) (t : string) :
  In (sname, d) schemas ->
  PyDict.get api_relationships sname = Some related ->
  In t related ->
  exists c, In c (find_candidate_fks schemas api_relationships)
            /\ from c = sname /\ to_guess c = Some t.
Proof.
  intros Hs G Ht. apply captured_member.
  apply in_split in Hs. destruct Hs as (pre & post & ->).
  unfold find_candidate_fks. rewrite fold_left_app. simpl.
  set (nts := norm_to_schema_of (pre ++ (sname, d) :: post)).
  set (r0 := fold_left (for_schema nts api_relationships) pre []).
  destruct (schemas_extend nts api_relationships post
              (for_schema nts api_relationships r0 (sname, d))) as [e ->].
  apply captured_app. unfold for_schema. simpl. rewrite G.
  now apply captured_relations.
Qed.

Lemma X9_every_path_target_is_reported_witness :
  In ("Asset", {| properties := Some [("Building_Id", {| p_type := JStr "integer" |})] |})
     asset_buildings_schemas
  /\ PyDict.get [("Asset", ["End_User"])] "Asset" = Some ["End_User"]
  /\ In "End_User" ["End_User"]
  /\ exists c, In c (find_candidate_fks asset_buildings_schemas [("Asset", ["End_User"])])
               /\ from c = "Asset" /\ to_guess c = Some "End_User".
Proof.
  assert (H1 : In ("Asset", {| properties :=
                                 Some [("Building_Id", {| p_type := JStr "integer" |})] |})
                  asset_buildings_schemas) by (left; reflexivity).
  assert (H2 : PyDict.get [("Asset", ["End_User"])] "Asset" = Some ["End_User"])
    by reflexivity.
  assert (H3 : In "End_User" ["End_User"]) by (left; reflexivity).
  split; [exact H1 | ]. split; [exact H2 | ]. split; [exact H3 | ].
  exact (X9_every_path_target_is_reported _ _ _ _ _ _ H1 H2 H3).
Defined.

Lemma snoc_split {A : Type} (l l1 l2 : list A) (r c : A) :
  (l ++ [r] = l1 ++ c :: l2)%list ->
  (l2 = [] /\ l1 = l /\ c = r)
  \/ exists l2', l2 = (l2' ++ [r])%list /\ l = (l1 ++ c :: l2')%list.
Proof.
  destruct l2 as [ | x l2] using rev_ind.
  - intros H. apply app_inj_tail in H. left. intuition.
  - clear IHl2. intros H.
    change (l1 ++ c :: l2 ++ [x])%list with (l1 ++ (c :: l2) ++ [x])%list in H.
    rewrite app_assoc in H. apply app_inj_tail in H. destruct H as [-> ->].
    right. now exists l2.
Qed.

Lemma relations_are_new_snoc (results : list fk) (r : fk) :
  relations_are_new results ->
  (source r = "api_path_only" ->
   forall c', In c' results -> relation_pair c' <> relation_pair r) ->
  relations_are_new (results ++ [r]).
Proof.
  intros Hres Hr l1 c l2 E Hc c' Hc'.
  apply snoc_split in E. destruct E as [(-> & -> & ->) | (l2' & -> & ->)].
  - now apply Hr.
  - exact (Hres l1 c l2' eq_refl Hc c' Hc').
Qed.

Lemma not_captured (results : list fk) (sname t : string) :
  captured results sname t = false ->
  forall c', In c' results -> relation_pair c' <> (sname, Some t).
Proof.
  intros H c' Hc' E. unfold relation_pair in E. inversion E as [[E1 E2]].
  assert (captured results sname t = true); [ | congruence].
  unfold captured. apply existsb_exists. exists c'. split; [exact Hc' | ].
  rewrite E1, E2, !String.eqb_refl. reflexivity.
Qed.

(** X10: in the result, a record tagged [api_path_only] never has the schema
    and the guess of a record that stands before it. *)
Theorem X10_relation_records_are_new (schemas : list (string * sdef))
    (api_relationships : list (string * list string)) :
  relations_are_new (find_candidate_fks schemas api_relationships).
Proof.
  unfold find_candidate_fks.
  set (nts := norm_to_schema_of schemas). clearbody nts.
  assert (G : forall l results,
             relations_are_new results ->
             relations_are_new (fold_left (for_schema nts api_relationships) l results)).
  { induction l as [ | s l IH]; simpl; intros results H; [exact H | ].
    apply IH. unfold for_schema.
    assert (Hp : forall props acc,
               relations_are_new acc ->
               relations_are_new
                 (fold_left (add_prop nts api_relationships (fst s)) props acc)).
    { induction props as [ | p props IHp]; simpl; intros acc Hacc; [exact Hacc | ].
      apply IHp. unfold add_prop.
      destruct (for_prop nts api_relationships (fst s) p) as [c | ] eqn:E;
        [ | exact Hacc].
      apply relations_are_new_snoc; [exact Hacc | ].
      intros Hsrc. apply for_prop_named in E. unfold named in E.
      rewrite Hsrc in E. discriminate. }
    assert (Hr : forall related acc,
               relations_are_new acc ->
               relations_are_new (fold_left (add_relation (fst s)) related acc)).
    { induction related as [ | t related IHr]; simpl; intros acc Hacc; [exact Hacc | ].
      apply IHr. unfold add_relation.
      destruct (captured acc (fst s) t) eqn:E; [exact Hacc | ].
      apply relations_are_new_snoc; [exact Hacc | ].
      intros _. exact (not_captured _ _ _ E). }
    destruct (PyDict.get api_relationships (fst s)); auto. }
  apply G. intros l1 c l2 E. destruct l1; discriminate.
Qed.

End SchemaProperties.

(** ** Texts of values *)

Section StringifyMore.
Import FetchData.

(** X11: two integers have the same text only when they are equal, and an
    integer and a string have the same text exactly when the string is the
    decimal text of the integer. *)
Theorem X11_integer_texts (n m : Z) (s : string) :
  (stringify (JInt n) = stringify (JInt m) <-> n = m)
  /\ (stringify (JInt n) = stringify (JStr s) <-> s = PyStr.str_int n).
Proof.
  simpl. split; split.
  - apply str_int_injective.
  - now intros ->.
  - now intros <-.
  - now intros ->.
Qed.

(** In a mapping whose keys are distinct the entry of a key is found under
    that key. *)
Lemma in_get {V : Type} (d : list (string * V)) (k : string) (v : V) :
  NoDup (PyDict.keys d) -> In (k, v) d -> PyDict.get d k = Some v.
Proof.
  induction d as [ | [k0 v0] d IH]; simpl; intros Hnd Hin; [contradiction | ].
  inversion Hnd as [ | ? ? Hk Hd]; subst.
  destruct Hin as [E | Hin].
  - inversion E; subst. now rewrite String.eqb_refl.
  - destruct (String.eqb k0 k) eqn:E; [ | now apply IH].
    apply String.eqb_eq in E. subst k0.
    elim Hk. change k with (fst (k, v)). now apply in_map.
Qed.

Lemma get_permutation {V : Type} (d1 d2 : list (string * V)) (k : string) :
  NoDup (PyDict.keys d1) -> Permutation d1 d2 ->
  PyDict.get d1 k = PyDict.get d2 k.
Proof.
  intros Hnd Hp.
  assert (Hnd2 : NoDup (PyDict.keys d2)).
  { eapply Permutation_NoDup; [ | exact Hnd]. now apply Permutation_map. }
  destruct (PyDict.get d1 k) as [v | ] eqn:G1.
  - apply get_in in G1. symmetry. apply in_get; [exact Hnd2 | ].
    eapply Permutation_in; eassumption.
  - destruct (PyDict.get d2 k) as [v | ] eqn:G2; [ | reflexivity].
    apply get_in in G2. apply Permutation_sym in Hp.
    apply (Permutation_in _ Hp) in G2. apply in_get in G2; [ | exact Hnd].
    congruence.
Qed.

Lemma first_id_value_permutation (d1 d2 : record) (ks : list string) :
  NoDup (PyDict.keys d1) -> Permutation d1 d2 ->
  first_id_value d1 ks = first_id_value d2 ks.
Proof.
  intros Hnd Hp. induction ks as [ | k ks IH]; simpl; [reflexivity | ].
  now rewrite (get_permutation d1 d2 k Hnd Hp), IH.
Qed.

(** The order of strings *)

Lemma ascii_compare_eq (a b : ascii) : Ascii.compare a b = Eq -> a = b.
Proof.
  apply Ascii.compare_eq_iff.
Qed.

Lemma leb_trans (s1 s2 s3 : string) :
  String.leb s1 s2 = true -> String.leb s2 s3 = true -> String.leb s1 s3 = true.
Proof.
  unfold String.leb.
  revert s2 s3. induction s1 as [ | c1 s1 IH]; intros [ | c2 s2] [ | c3 s3] H1 H2;
    simpl in *; try reflexivity; try discriminate.
  unfold Ascii.compare in *.
  destruct (N.compare_spec (N_of_ascii c1) (N_of_ascii c2)) as [E12 | L12 | G12];
    try discriminate;
    destruct (N.compare_spec (N_of_ascii c2) (N_of_ascii c3)) as [E23 | L23 | G23];
    try discriminate;
    destruct (N.compare_spec (N_of_ascii c1) (N_of_ascii c3)) as [E13 | L13 | G13];
    try reflexivity; try lia.
  exact (IH s2 s3 H1 H2).
Qed.

Lemma insert_by_key_perm (kv : string * string) (l : list (string * string)) :
  Permutation (insert_by_key kv l) (kv :: l).
Proof.
  induction l as [ | x l IH]; simpl; [reflexivity | ].
  destruct (String.leb (fst kv) (fst x)); [reflexivity | ].
  rewrite IH. apply perm_swap.
Qed.

Lemma sort_by_key_perm (l : list (string * string)) :
  Permutation (sort_by_key l) l.
Proof.
  induction l as [ | x l IH]; simpl; [reflexivity | ].
  unfold sort_by_key in *. simpl. rewrite insert_by_key_perm. now constructor.
Qed.

Lemma insert_by_key_sorted (kv : string * string) (l : list (string * string)) :
  StronglySorted key_le l -> StronglySorted key_le (insert_by_key kv l).
Proof.
  induction l as [ | x l IH]; simpl; intros H.
  - repeat constructor.
  - apply StronglySorted_inv in H. destruct H as [Hl Hx].
    destruct (String.leb (fst kv) (fst x)) eqn:E.
    + constructor; [now constructor | ].
      constructor; [exact E | ].
      eapply Forall_impl; [ | exact Hx].
      intros y Hy. unfold key_le in *. eapply leb_trans; eassumption.
    + constructor; [now apply IH | ].
      assert (Hxk : key_le x kv).
      { unfold key_le. destruct (String.leb_total (fst x) (fst kv)); congruence. }
      eapply Permutation_Forall; [symmetry; apply insert_by_key_perm | ].
      now constructor.
Qed.

Lemma sort_by_key_sorted (l : list (string * string)) :
  StronglySorted key_le (sort_by_key l).
Proof.
  induction l as [ | x l IH]; simpl; [constructor | ].
  unfold sort_by_key in *. simpl. now apply insert_by_key_sorted.
Qed.

(** Two sorted lists of entries with the same members and distinct keys
    are equal. *)
Lemma sorted_unique (l1 l2 : list (string * string)) :
  StronglySorted key_le l1 -> StronglySorted key_le l2 ->
  NoDup (map fst l1) -> Permutation l1 l2 -> l1 = l2.
Proof.
  revert l2. induction l1 as [ | a l1 IH]; intros l2 S1 S2 Hnd Hp.
  - apply Permutation_nil in Hp. now subst.
  - destruct l2 as [ | b l2].
    + apply Permutation_sym, Permutation_nil in Hp. discriminate.
    + apply StronglySorted_inv in S1, S2.
      destruct S1 as [S1 F1], S2 as [S2 F2].
      assert (E : a = b).
      { assert (Ha : In a (b :: l2))
          by (eapply Permutation_in; [exact Hp | now left]).
        assert (Hb : In b (a :: l1))
          by (eapply Permutation_in; [symmetry; exact Hp | now left]).
        destruct Ha as [Ha | Ha]; [now symmetry | ].
        destruct Hb as [Hb | Hb]; [exact Hb | ].
        rewrite Forall_forall in F1, F2.
        assert (K : fst a = fst b)
          by (apply String.leb_antisym; [exact (F1 b Hb) | exact (F2 a Ha)]).
        inversion Hnd as [ | ? ? Hk _]; subst.
        elim Hk. rewrite K. now apply in_map. }
      subst b. f_equal.
      apply IH; try assumption.
      * now inversion Hnd.
      * eapply Permutation_cons_inv; exact Hp.
Qed.

(** X12: mappings with the same members in another order get the same text,
    when the keys of the mapping are distinct. *)
Theorem X12_member_order_is_ignored (d1 d2 : record) :
  NoDup (PyDict.keys d1) -> Permutation d1 d2 ->
  stringify (JDict d1) = stringify (JDict d2).
Proof.
  intros Hnd Hp. unfold stringify.
  rewrite (first_id_value_permutation d1 d2 _ Hnd Hp).
  destruct (first_id_value d2 id_like_keys); [reflexivity | ].
  cbn [json_dumps]. do 4 f_equal.
  apply sorted_unique; try apply sort_by_key_sorted.
  - eapply Permutation_NoDup; [ | exact Hnd].
    unfold PyDict.keys. symmetry.
    rewrite (Permutation_map fst (sort_by_key_perm _)).
    rewrite map_map. simpl. reflexivity.
  - rewrite !sort_by_key_perm. now apply Permutation_map.
Qed.

Lemma X12_member_order_is_ignored_witness :
  NoDup (PyDict.keys [("b", JInt 2); ("a", JStr "x")])
  /\ Permutation [("b", JInt 2); ("a", JStr "x")] [("a", JStr "x"); ("b", JInt 2)]
  /\ stringify (JDict [("b", JInt 2); ("a", JStr "x")])
     = stringify (JDict [("a", JStr "x"); ("b", JInt 2)]).
Proof.
  assert (H1 : NoDup (PyDict.keys [("b", JInt 2); ("a", JStr "x")])).
  { repeat constructor; simpl; intuition discriminate. }
  assert (H2 : Permutation [("b", JInt 2); ("a", JStr "x")]
                           [("a", JStr "x"); ("b", JInt 2)])
    by apply perm_swap.
  split; [exact H1 | ]. split; [exact H2 | ].
  exact (X12_member_order_is_ignored _ _ H1 H2).
Defined.

(** X13: a mapping with a key [id] whose value is a string, an integer or a
    boolean gets the text of that value. *)
Theorem X13_mapping_text_is_its_id (d : record) (x : json) :
  PyDict.get d "id" = Some x -> primitive x = true ->
  stringify (JDict d) = stringify x.
Proof.
  intros G P. unfold stringify at 1. simpl. rewrite G.
  destruct x; try discriminate; reflexivity.
Qed.

Lemma X13_mapping_text_is_its_id_witness :
  PyDict.get [("name", JStr "Main"); ("id", JInt 10)] "id" = Some (JInt 10)
  /\ primitive (JInt 10) = true
  /\ stringify (JDict [("name", JStr "Main"); ("id", JInt 10)]) = stringify (JInt 10).
Proof.
  split; [reflexivity | ]. split; [reflexivity | ].
  exact (X13_mapping_text_is_its_id [("name", JStr "Main"); ("id", JInt 10)] (JInt 10)
           eq_refl eq_refl).
Defined.

End StringifyMore.

(** ** Identifier sets and value sets *)

Section IdentifierSets.
Import FetchData.

Lemma has_keys {V : Type} (d : list (string * V)) (k : string) :
  PyDict.has d k = true <-> In k (PyDict.keys d).
Proof.
  unfold PyDict.has. destruct (PyDict.get d k) as [v | ] eqn:G.
  - split; [intros _ | reflexivity].
    apply get_in in G. change k with (fst (k, v)). now apply in_map.
  - apply get_none_keys in G. split; [discriminate | contradiction].
Qed.

Lemma endswith_tail (s : string) (c : ascii) (suf : string) :
  PyStr.endswith s (String c suf) = true -> PyStr.endswith s suf = true.
Proof.
  induction s as [ | x s IH]; cbn [PyStr.endswith].
  - discriminate.
  - intros H. apply orb_true_iff in H. destruct H as [H | H].
    + apply String.eqb_eq in H. inversion H; subst.
      apply orb_true_iff. right.
      destruct suf; cbn [PyStr.endswith]; now rewrite String.eqb_refl.
    + apply orb_true_iff. right. now apply IH.
Qed.

Lemma first_key_ending_in_id_some (ks : list string) (k : string) :
  first_key_ending_in_id ks = Some k ->
  In k ks /\ PyStr.endswith (PyStr.lower k) "id" = true.
Proof.
  induction ks as [ | x ks IH]; simpl; [discriminate | ].
  destruct (PyStr.endswith (PyStr.lower x) "_id" || PyStr.endswith (PyStr.lower x) "id")
    eqn:E.
  - intros H. inversion H; subst. split; [now left | ].
    apply orb_true_iff in E. destruct E as [E | E]; [ | exact E].
    now apply endswith_tail in E.
  - intros H. destruct (IH H). split; [now right | assumption].
Qed.

Lemma first_key_ending_in_id_none (ks : list string) :
  first_key_ending_in_id ks = None <->
  forall k, In k ks -> PyStr.endswith (PyStr.lower k) "id" = false.
Proof.
  induction ks as [ | x ks IH]; simpl.
  - split; [intros _ k [] | reflexivity].
  - destruct (PyStr.endswith (PyStr.lower x) "_id") eqn:E1.
    + simpl. split; [discriminate | ]. intros H.
      apply endswith_tail in E1. rewrite (H x (or_introl eq_refl)) in E1. discriminate.
    + simpl. destruct (PyStr.endswith (PyStr.lower x) "id") eqn:E2.
      * split; [discriminate | ]. intros H.
        rewrite (H x (or_introl eq_refl)) in E2. discriminate.
      * rewrite IH. split.
        -- intros H k [<- | Hk]; [exact E2 | now apply H].
        -- intros H k Hk. apply H. now right.
Qed.

Lemma normalize_id_field_some (item : record) (k : string) :
  normalize_id_field item = Some k ->
  In k (PyDict.keys item) /\ PyStr.endswith (PyStr.lower k) "id" = true.
Proof.
  unfold normalize_id_field.
  destruct (find (PyDict.has item) ["id"; "_id"; "Id"; "ID"]) as [k0 | ] eqn:F.
  - apply find_some in F. destruct F as [Hin Hhas].
    apply has_keys in Hhas. intros H. inversion H; subst k0. split; [exact Hhas | ].
    destruct Hin as [<- | [<- | [<- | [<- | []]]]]; reflexivity.
  - apply first_key_ending_in_id_some.
Qed.

Lemma normalize_id_field_none (item : record) :
  normalize_id_field item = None <->
  forall k, In k (PyDict.keys item) -> PyStr.endswith (PyStr.lower k) "id" = false.
Proof.
  split.
  - intros H k Hk.
    destruct (PyStr.endswith (PyStr.lower k) "id") eqn:E; [ | reflexivity].
    unfold normalize_id_field in H.
    destruct (find (PyDict.has item) ["id"; "_id"; "Id"; "ID"]); [discriminate | ].
    rewrite first_key_ending_in_id_none in H. rewrite (H k Hk) in E. discriminate.
  - intros H. destruct (normalize_id_field item) as [k | ] eqn:E; [ | reflexivity].
    apply normalize_id_field_some in E. destruct E as [Hk He].
    rewrite (H k Hk) in He. discriminate.
Qed.

(** X14: the identifier field [normalize_id_field] names is a key of the
    record whose lower-cased name ends in [id], and no field is named
    exactly when no key of the record has such a name. *)
Theorem X14_identifier_field_is_a_key (item : record) :
  (forall k, normalize_id_field item = Some k ->
             In k (PyDict.keys item)
             /\ PyStr.endswith (PyStr.lower k) "id" = true)
  /\ (normalize_id_field item = None <->
      forall k, In k (PyDict.keys item) ->
                PyStr.endswith (PyStr.lower k) "id" = false).
Proof.
  split; [apply normalize_id_field_some | apply normalize_id_field_none].
Qed.

Lemma identifier_field_not_empty (item : record) (k : string) :
  normalize_id_field item = Some k -> String.eqb k "" = false.
Proof.
  intros H. apply normalize_id_field_some in H.
  destruct H as [_ H]. destruct k; [discriminate | reflexivity].
Qed.

Lemma collect_id_spec (ids : list string) (it : json) :
  collect_id ids it
  = match id_text it with
    | Some s => PyDict.add ids s
    | None => ids
    end.
Proof.
  unfold collect_id, id_text.
  destruct it as [ | b | n | s | l | item ]; try reflexivity.
  destruct (normalize_id_field item) as [k | ] eqn:E; [ | reflexivity].
  rewrite (identifier_field_not_empty item k E). simpl.
  destruct (is_none (py_get item k)); reflexivity.
Qed.

Lemma add_val_spec (fld : string) (vals : list string) (it : json) :
  add_val fld vals it
  = match field_text fld it with
    | Some s => PyDict.add vals s
    | None => vals
    end.
Proof.
  unfold add_val, field_text.
  destruct it as [ | b | n | s | l | item ]; try reflexivity.
  destruct (is_none (py_get item fld)); reflexivity.
Qed.

(** A set of texts filled by a loop over records. *)
Lemma text_set_members (text : json -> option string)
    (step : list string -> json -> list string) :
  (forall acc it, step acc it = match text it with
                                | Some s => PyDict.add acc s
                                | None => acc
                                end) ->
  forall items acc s,
    In s (fold_left step items acc)
    <-> In s acc \/ exists it, In it items /\ text it = Some s.
Proof.
  intros Hstep. induction items as [ | it items IH]; intros acc s; simpl.
  - split; [tauto | ]. intros [H | (it & [] & _)]. exact H.
  - rewrite IH, Hstep. destruct (text it) as [x | ] eqn:T.
    + rewrite in_add. split.
      * intros [[H | ->] | (it' & Hin & Ht)]; eauto.
      * intros [H | (it' & [<- | Hin] & Ht)]; eauto.
        rewrite T in Ht. inversion Ht. auto.
    + split.
      * intros [H | (it' & Hin & Ht)]; eauto.
      * intros [H | (it' & [<- | Hin] & Ht)]; eauto. congruence.
Qed.

Lemma text_set_nodup (text : json -> option string)
    (step : list string -> json -> list string) :
  (forall acc it, step acc it = match text it with
                                | Some s => PyDict.add acc s
                                | None => acc
                                end) ->
  forall items acc, NoDup acc -> NoDup (fold_left step items acc).
Proof.
  intros Hstep. induction items as [ | it items IH]; intros acc H; simpl; [exact H | ].
  apply IH. rewrite Hstep. destruct (text it); [now apply add_nodup | exact H].
Qed.

(** X15: the identifier set of a collection holds exactly the texts of the
    identifiers of its mapping records, each once; entries that are not
    mappings, records without an identifier field and identifiers that are
    [None] add nothing. *)
Theorem X15_identifier_set_members (items : list json) (s : string) :
  (In s (collect_ids items)
   <-> exists it, In it items /\ id_text it = Some s)
  /\ NoDup (collect_ids items).
Proof.
  unfold collect_ids. split.
  - rewrite (text_set_members id_text collect_id collect_id_spec).
    split; [intros [[] | H]; exact H | now right].
  - apply (text_set_nodup id_text collect_id collect_id_spec). constructor.
Qed.

(** X16: the value set of a field holds exactly the texts of the values of
    that field in the mapping records of the collection, each once; entries
    that are not mappings and values that are [None] add nothing. *)
Theorem X16_value_set_members (fld : string) (a_items : list json) (s : string) :
  (In s (field_vals fld a_items)
   <-> exists it, In it a_items /\ field_text fld it = Some s)
  /\ NoDup (field_vals fld a_items).
Proof.
  unfold field_vals. split.
  - rewrite (text_set_members (field_text fld) (add_val fld) (add_val_spec fld)).
    split; [intros [[] | H]; exact H | now right].
  - apply (text_set_nodup (field_text fld) (add_val fld) (add_val_spec fld)). constructor.
Qed.

End IdentifierSets.

(** ** Exceptions and samples of the value-overlap finder *)

Section FinderEdges.
Import FetchData.

Lemma scan_snoc (l : list (string * list json)) (kv : string * list json) :
  scan (l ++ [kv]) = scan_step (scan l) kv.
Proof.
  unfold scan. now rewrite fold_left_app.
Qed.

Lemma scan_pair_none (l : list (string * list json)) :
  a_pair (scan l) = None <-> l = [].
Proof.
  destruct l as [ | kv l] using rev_ind; [now split | ].
  rewrite scan_snoc. split.
  - unfold scan_step. destruct (snd kv); discriminate.
  - intros H. destruct l; discriminate.
Qed.

Lemma scan_sample_unbound (l : list (string * list json)) :
  sample (scan l) = Unbound <-> forall kv, In kv l -> snd kv = [].
Proof.
  induction l as [ | kv l IH] using rev_ind.
  - split; [intros _ kv [] | reflexivity].
  - rewrite scan_snoc. unfold scan_step.
    destruct (snd kv) as [ | x xs] eqn:E; simpl.
    + rewrite IH. split.
      * intros H kv' Hin. apply in_app_or in Hin.
        destruct Hin as [Hin | [<- | []]]; [now apply H | exact E].
      * intros H kv' Hin. apply H. apply in_or_app. now left.
    + split; [discriminate | ].
      intros H. rewrite (H kv) in E; [discriminate | ].
      apply in_or_app. right. now left.
Qed.

Lemma scan_sample_bound (l : list (string * list json)) (o : option record) :
  sample (scan l) = Bound o
  <-> exists pre name items post,
        l = (pre ++ (name, items) :: post)%list
        /\ items <> [] /\ first_dict items = o
        /\ forall kv, In kv post -> snd kv = [].
Proof.
  induction l as [ | kv l IH] using rev_ind.
  - split; [discriminate | ].
    intros (pre & name & items & post & E & _). destruct pre; discriminate.
  - rewrite scan_snoc. unfold scan_step.
    destruct kv as [name0 items0]. simpl.
    destruct items0 as [ | x xs]; simpl.
    + rewrite IH. split.
      * intros (pre & name & items & post & -> & Hne & Hf & Hpost).
        exists pre, name, items, (post ++ [(name0, [])])%list.
        rewrite <- app_assoc. simpl. repeat split; try assumption.
        intros kv Hin. apply in_app_or in Hin.
        destruct Hin as [Hin | [E | []]]; [now apply Hpost | now subst kv].
      * intros (pre & name & items & post & E & Hne & Hf & Hpost).
        destruct post as [ | p post] using rev_ind.
        -- apply app_inj_tail in E. destruct E as [_ E]. inversion E; subst.
           now elim Hne.
        -- clear IHpost.
           change (pre ++ (name, items) :: post ++ [p])%list
             with (pre ++ ((name, items) :: post) ++ [p])%list in E.
           rewrite app_assoc in E. apply app_inj_tail in E. destruct E as [-> <-].
           exists pre, name, items, post. repeat split; try assumption.
           intros kv Hin. apply Hpost. apply in_or_app. now left.
    + split.
      * intros H. inversion H; subst o.
        exists l, name0, (x :: xs), []. repeat split; [discriminate | intros kv []].
      * intros (pre & name & items & post & E & Hne & Hf & Hpost).
        destruct post as [ | p post] using rev_ind.
        -- apply app_inj_tail in E. destruct E as [_ E]. inversion E; subst.
           reflexivity.
        -- clear IHpost.
           change (pre ++ (name, items) :: post ++ [p])%list
             with (pre ++ ((name, items) :: post) ++ [p])%list in E.
           rewrite app_assoc in E. apply app_inj_tail in E. destruct E as [_ <-].
           assert (C : snd (name0, x :: xs) = [])
             by (apply Hpost, in_or_app; right; now left).
           discriminate.
Qed.

(** X17: the finder raises [NameError] exactly when every collection of the
    input is empty, which is so when there is no collection at all. *)
Theorem X17_name_error_on_empty_collections
    (all_collections : list (string * list json)) :
  find_fk_candidates all_collections = Raise NameError
  <-> forall kv, In kv all_collections -> snd kv = [].
Proof.
  rewrite <- scan_sample_unbound. unfold find_fk_candidates.
  destruct (sample (scan all_collections)) as [ | [smp | ]] eqn:S.
  - now split.
  - destruct (a_pair (scan all_collections)) as [[a_name a_items] | ] eqn:P.
    + split; discriminate.
    + split; [ | discriminate]. intros _. exfalso.
      apply scan_pair_none in P. subst. discriminate.
  - split; discriminate.
Qed.

(** X18: the finder raises [AttributeError] exactly when the last collection
    that is not empty has no mapping among its records. *)
Theorem X18_attribute_error_without_mapping
    (all_collections : list (string * list json)) :
  find_fk_candidates all_collections = Raise AttributeError
  <-> exists pre name items post,
        all_collections = (pre ++ (name, items) :: post)%list
        /\ items <> [] /\ first_dict items = None
        /\ forall kv, In kv post -> snd kv = [].
Proof.
  rewrite <- scan_sample_bound. unfold find_fk_candidates.
  destruct (sample (scan all_collections)) as [ | [smp | ]] eqn:S.
  - split; discriminate.
  - destruct (a_pair (scan all_collections)) as [[a_name a_items] | ];
      split; discriminate.
  - now split.
Qed.

Lemma intersection_members (a b : list string) (s : string) :
  In s (PyDict.intersection a b) <-> In s a /\ In s b.
Proof.
  unfold PyDict.intersection. rewrite filter_In, mem_in. reflexivity.
Qed.

Lemma in_firstn {A : Type} (n : nat) (l : list A) (x : A) :
  In x (firstn n l) -> In x l.
Proof.
  revert l. induction n as [ | n IH]; intros [ | y l]; simpl; try tauto.
  intros [H | H]; [now left | right; now apply IH].
Qed.

(** X19: a candidate carries at most five sample matches: the first
    [min 5 matches] members of the intersection, each a text of a value of
    the field and of an identifier of the target. *)
Theorem X19_at_most_five_samples (all_collections : list (string * list json))
    (rs : list candidate) (c : candidate) :
  find_fk_candidates all_collections = Ok rs -> In c rs ->
  List.length (sample_matches c) = Nat.min 5 (matches c)
  /\ exists a_items ids,
       In (to_collection c, ids) (col_ids_of all_collections)
       /\ a_pair (scan all_collections) = Some (from_collection c, a_items)
       /\ forall s, In s (sample_matches c) ->
                    In s (field_vals (field c) a_items) /\ In s ids.
Proof.
  unfold find_fk_candidates.
  destruct (sample (scan all_collections)) as [ | [smp | ]]; try discriminate.
  destruct (a_pair (scan all_collections)) as [[a_name a_items] | ]; try discriminate.
  intros H Hc. inversion H; subst rs; clear H.
  apply in_flat_map in Hc. destruct Hc as (fld & _ & Hc).
  apply in_for_field in Hc. destruct Hc as (_ & b_name & ids & Hb & _ & ->).
  unfold candidate_for.
  cbn [sample_matches matches from_collection to_collection field].
  split; [apply length_firstn | ].
  exists a_items, ids. split; [exact Hb | ]. split; [reflexivity | ].
  intros s Hs. apply in_firstn in Hs. now apply intersection_members in Hs.
Qed.

Lemma X19_at_most_five_samples_witness :
  find_fk_candidates rooms_with_parent
  = Ok [candidate_for "Rooms" "Parent_Room" "Rooms" ["1"]]
  /\ In (candidate_for "Rooms" "Parent_Room" "Rooms" ["1"])
        [candidate_for "Rooms" "Parent_Room" "Rooms" ["1"]]
  /\ List.length (sample_matches (candidate_for "Rooms" "Parent_Room" "Rooms" ["1"]))
     = Nat.min 5 (matches (candidate_for "Rooms" "Parent_Room" "Rooms" ["1"])).
Proof.
  assert (H1 : find_fk_candidates rooms_with_parent
               = Ok [candidate_for "Rooms" "Parent_Room" "Rooms" ["1"]])
    by (vm_compute; reflexivity).
  assert (H2 : In (candidate_for "Rooms" "Parent_Room" "Rooms" ["1"])
                  [candidate_for "Rooms" "Parent_Room" "Rooms" ["1"]])
    by (left; reflexivity).
  split; [exact H1 | ]. split; [exact H2 | ].
  exact (proj1 (X19_at_most_five_samples rooms_with_parent _ _ H1 H2)).
Defined.

End FinderEdges.

(** ** Counts and status of the verifier *)

Section VerifierMore.
Import VerifyFks.

Lemma set_from_raises (l s : list json) (e : exn) :
  set_from s l = Raise e ->
  e = TypeError /\ exists x, In x l /\ hashable x = false.
Proof.
  revert s. induction l as [ | x l IH]; intros s; simpl; [discriminate | ].
  unfold add. destruct (hashable x) eqn:Hx; simpl.
  - intros H. destruct (IH _ H) as (-> & y & Hy & Hh). eauto.
  - intros H. inversion H. eauto.
Qed.

Lemma set_from_ok (l s s' : list json) :
  set_from s l = Ok s' ->
  (forall x, In x l -> hashable x = true)
  /\ (forall x, In x s' -> In x s \/ In x l)
  /\ List.length s' <= List.length s + List.length l
  /\ (s <> [] \/ l <> [] -> s' <> []).
Proof.
  revert s s'. induction l as [ | x l IH]; intros s s'; simpl.
  - intros H. inversion H; subst. repeat split; auto; try lia; try tauto.
  - unfold add. destruct (hashable x) eqn:Hx; simpl; [ | discriminate].
    intros H. destruct (IH _ _ H) as (H1 & H2 & H3 & H4).
    repeat split.
    + intros y [<- | Hy]; auto.
    + intros y Hy. destruct (H2 y Hy) as [Hs | Hl]; [ | auto].
      destruct (mem x s); [auto | ].
      apply in_app_or in Hs. destruct Hs as [Hs | [<- | []]]; auto.
    + destruct (mem x s); [lia | ]. rewrite length_app in H3. simpl in H3. lia.
    + intros _. apply H4. left. destruct (mem x s) eqn:M.
      * unfold mem in M. destruct s; [discriminate | discriminate].
      * destruct s; discriminate.
Qed.

Lemma id_values_members (collection : list json) (x : json) :
  In x (id_values collection)
  <-> exists item, In (JDict item) collection
                   /\ x = py_get item "id" /\ is_none x = false.
Proof.
  induction collection as [ | it rest IH]; simpl.
  - split; [intros [] | intros (item & [] & _)].
  - assert (Hrest : (exists item, In (JDict item) rest
                                  /\ x = py_get item "id" /\ is_none x = false)
                    -> exists item, (it = JDict item \/ In (JDict item) rest)
                                    /\ x = py_get item "id" /\ is_none x = false).
    { intros (item & H1 & H2). exists item. tauto. }
    destruct it as [ | b | n | s | l | item ];
      try (rewrite IH; split; [exact Hrest | ];
           intros (item & [E | H1] & H2); [discriminate | eauto]).
    destruct (is_none (py_get item "id")) eqn:N.
    + rewrite IH. split; [exact Hrest | ].
      intros (item' & [E | H1] & H2 & H3); [ | eauto].
      inversion E; subst. congruence.
    + simpl. rewrite IH. split.
      * intros [<- | H]; [ | now apply Hrest].
        exists item. auto.
      * intros (item' & [E | H1] & H2 & H3); [ | right; eauto].
        inversion E; subst. now left.
Qed.

(** X20: [extract_ids] raises an exception exactly when some mapping record
    has a list or a mapping as its [id]; the exception is [TypeError].
    Otherwise every member of the set is the [id], other than [None], of a
    mapping record. *)
Theorem X20_extract_ids_type_error (collection : list json) :
  (extract_ids collection = Raise TypeError
   <-> exists item, In (JDict item) collection
                    /\ hashable (py_get item "id") = false)
  /\ (forall e, extract_ids collection = Raise e -> e = TypeError)
  /\ (forall ids x,
         extract_ids collection = Ok ids -> In x ids ->
         exists item, In (JDict item) collection
                      /\ x = py_get item "id" /\ is_none x = false).
Proof.
  unfold extract_ids, set_of. repeat split.
  - intros H. apply set_from_raises in H. destruct H as (_ & x & Hx & Hh).
    apply id_values_members in Hx. destruct Hx as (item & Hin & -> & _). eauto.
  - intros (item & Hin & Hh).
    destruct (set_from [] (id_values collection)) as [ids | e] eqn:S.
    + apply set_from_ok in S. destruct S as (S & _).
      rewrite S in Hh; [discriminate | ].
      apply id_values_members. exists item. repeat split; [exact Hin | ].
      destruct (py_get item "id"); try reflexivity; discriminate.
    + apply set_from_raises in S. destruct S as [-> _]. reflexivity.
  - intros e H. apply set_from_raises in H. tauto.
  - intros ids x H Hx. apply set_from_ok in H. destruct H as (_ & H & _).
    destruct (H x Hx) as [[] | Hl]. now apply id_values_members.
Qed.


Lemma partition_lengths (a b : list json) :
  List.length (intersection a b) + List.length (difference a b) = List.length a.
Proof.
  unfold intersection, difference.
  induction a as [ | x a IH]; simpl; [reflexivity | ].
  destruct (mem x b); simpl; lia.
Qed.


Lemma percentage_full (m n : nat) :
  m <= n -> 1 <= n ->
  (Qeq_bool (percentage m n) 100%Q = true <-> m = n).
Proof.
  intros Hm Hn. rewrite Qeq_bool_iff.
  assert (E : Z.pos (Pos.of_nat n) = Z.of_nat n) by lia.
  unfold percentage, Qeq. cbn [Qmult Qnum Qden].
  rewrite !Pos2Z.inj_mul, E. split; intros H; nia.
Qed.

(** The outcome of a check that reaches the report. *)
Lemma check_scored (collections all_ids : list (string * list json))
    (source_name fk_field target_name status : string) (n nulls : nat)
    (matches fk_set : list json) (pct : Q) (orphans : list json) :
  check collections all_ids (source_name, fk_field, target_name)
  = Ok (Scored status n nulls matches fk_set pct orphans) ->
  exists targets,
    set_of (fst (fk_values_of fk_field (get_or_empty collections source_name)))
    = Ok fk_set
    /\ fst (fk_values_of fk_field (get_or_empty collections source_name)) <> []
    /\ n = List.length (fst (fk_values_of fk_field
                                          (get_or_empty collections source_name)))
    /\ nulls = snd (fk_values_of fk_field (get_or_empty collections source_name))
    /\ matches = intersection fk_set targets
    /\ orphans = difference fk_set targets
    /\ pct = percentage (List.length matches) (List.length fk_set)
    /\ status = status_of pct.
Proof.
  unfold check.
  destruct (get_or_empty collections source_name) as [ | it rest]; [discriminate | ].
  destruct (get_or_empty all_ids target_name) as [ | i ids]; [discriminate | ].
  destruct (fk_values_of fk_field (it :: rest)) as [vals nulls0].
  destruct vals as [ | v vals]; [discriminate | ].
  cbn [fst snd].
  destruct (set_of (v :: vals)) as [fs | e]; [ | discriminate].
  cbn [bind].
  destruct (if String.eqb fk_field "Vendor_Id"
            then set_of (map (fun x => JStr (py_str x)) (i :: ids))
            else Ok (i :: ids)) as [targets | e]; [ | discriminate].
  cbn [bind]. intros H. inversion H; subst.
  exists targets. repeat split. discriminate.
Qed.



(** X22: the status of a report is the check mark exactly when no value of
    the field is an orphan. *)
Theorem X22_check_mark_means_no_orphans
    (collections all_ids : list (string * list json))
    (source_name fk_field target_name status : string) (n nulls : nat)
    (matches fk_set : list json) (pct : Q) (orphans : list json) :
  check collections all_ids (source_name, fk_field, target_name)
  = Ok (Scored status n nulls matches fk_set pct orphans) ->
  (status = "✓" <-> orphans = []).
Proof.
  intros H. apply check_scored in H.
  destruct H as (targets & Hset & Hne & _ & _ & -> & -> & -> & ->).
  pose proof (partition_lengths fk_set targets) as Hp.
  apply set_from_ok in Hset. destruct Hset as (_ & _ & _ & Hnn).
  assert (Hpos : 1 <= List.length fk_set).
  { destruct fk_set; [elim Hnn; auto | simpl; lia]. }
  pose proof (percentage_full (List.length (intersection fk_set targets))
                              (List.length fk_set) ltac:(lia) Hpos) as Hfull.
  unfold status_of.
  destruct (Qeq_bool (percentage (List.length (intersection fk_set targets))
                                 (List.length fk_set)) 100%Q).
  - split; [intros _ | reflexivity].
    assert (E : List.length (intersection fk_set targets) = List.length fk_set)
      by now apply Hfull.
    destruct (difference fk_set targets); [reflexivity | simpl in Hp; lia].
  - split.
    + destruct (Qle_bool 50%Q _); discriminate.
    + intros Ho. rewrite Ho in Hp. simpl in Hp.
      assert (T : false = true); [ | discriminate].
      apply Hfull. lia.
Qed.

Lemma X22_check_mark_means_no_orphans_witness :
  check two_building_refs one_building_id ("Asset", "Building_Id", "Buildings")
  = Ok (Scored "⚠" 2 0 [JInt 10] [JInt 10; JInt 99] (100 # 2) [JInt 99])
  /\ ("⚠" = "✓" <-> [JInt 99] = []).
Proof.
  assert (H : check two_building_refs one_building_id
                    ("Asset", "Building_Id", "Buildings")
              = Ok (Scored "⚠" 2 0 [JInt 10] [JInt 10; JInt 99] (100 # 2) [JInt 99]))
    by (vm_compute; reflexivity).
  split; [exact H | ].
  exact (X22_check_mark_means_no_orphans _ _ _ _ _ _ _ _ _ _ _ _ H).
Defined.

End VerifierMore.

(** ** File names *)

Section FileNames.
Import FetchReport.

Lemma sanitize_name_chars (s : string) :
  all_chars is_name_char (sanitize s) = true.
Proof.
  induction s as [ | c s IH]; simpl; [reflexivity | ].
  rewrite IH, andb_true_r. destruct (is_name_char c) eqn:E; [exact E | reflexivity].
Qed.

Lemma sanitize_fixed (s : string) :
  all_chars is_name_char s = true -> sanitize s = s.
Proof.
  induction s as [ | c s IH]; simpl; [reflexivity | ].
  intros H. apply andb_true_iff in H. destruct H as [Hc Hs].
  now rewrite Hc, IH.
Qed.

Lemma sanitize_app (a b : string) : sanitize (a ++ b) = sanitize a ++ sanitize b.
Proof.
  induction a as [ | c a IH]; simpl; [reflexivity | now rewrite IH].
Qed.

Lemma take_all_chars (p : ascii -> bool) (n : nat) (s : string) :
  all_chars p s = true -> all_chars p (PyStr.take n s) = true.
Proof.
  unfold PyStr.take. revert s. induction n as [ | n IH]; intros [ | c s]; simpl;
    try reflexivity.
  intros H. apply andb_true_iff in H. destruct H as [Hc Hs].
  now rewrite Hc, IH.
Qed.

Lemma take_length (n : nat) (s : string) : String.length (PyStr.take n s) <= n.
Proof.
  unfold PyStr.take. revert s. induction n as [ | n IH]; intros [ | c s]; simpl;
    try lia.
  specialize (IH s). lia.
Qed.

(** X23: the name [safe_name_from_endpoint] gives consists of ASCII letters,
    digits and underscores only, and when the endpoint does not have the
    namespace pattern it has at most 64 characters. *)
Theorem X23_safe_name_is_safe (ep : string) :
  all_chars is_name_char (safe_name_from_endpoint ep) = true
  /\ (search_ns ep = None ->
      String.length (safe_name_from_endpoint ep) <= 64).
Proof.
  unfold safe_name_from_endpoint. destruct (search_ns ep) as [g | ].
  - split; [apply sanitize_name_chars | discriminate].
  - split; [apply take_all_chars, sanitize_name_chars | intros _; apply take_length].
Qed.

Lemma match_ns_name_chars (s : string) :
  all_chars is_name_char s = true -> match_ns s = None.
Proof.
  intros H. unfold match_ns.
  destruct s as [ | c1 [ | c2 [ | c3 s]]]; try reflexivity;
    cbn [strip_prefix].
  - destruct (Ascii.eqb "n" c1); reflexivity.
  - destruct (Ascii.eqb "n" c1); [ | reflexivity].
    destruct (Ascii.eqb "s" c2); reflexivity.
  - destruct (Ascii.eqb "n" c1); [ | reflexivity].
    destruct (Ascii.eqb "s" c2); [ | reflexivity].
    destruct (Ascii.eqb_spec "=" c3) as [<- | _]; [ | reflexivity].
    simpl in H. rewrite !andb_false_r in H. discriminate.
Qed.

Lemma search_ns_name_chars (s : string) :
  all_chars is_name_char s = true -> search_ns s = None.
Proof.
  induction s as [ | c s IH]; intros H.
  - reflexivity.
  - cbn [search_ns]. rewrite (match_ns_name_chars _ H).
    simpl in H. apply andb_true_iff in H. now apply IH.
Qed.

Lemma rstrip_name_chars (s : string) :
  all_chars is_name_char s = true -> rstrip s = s.
Proof.
  induction s as [ | c s IH]; simpl; [reflexivity | ].
  intros H. apply andb_true_iff in H. destruct H as [Hc Hs].
  rewrite (IH Hs). destruct s; [ | reflexivity].
  assert (E : is_strip_char c = false).
  { unfold is_strip_char.
    destruct (Ascii.eqb_spec c "/") as [-> | _]; [discriminate | ].
    destruct (Ascii.eqb_spec c " ") as [-> | _]; [discriminate | reflexivity]. }
  now rewrite E.
Qed.

(** X24: an endpoint that names its collection with the singly encoded
    slash, [ns=collections%2F], is not recognised by the namespace pattern:
    its name is the whole endpoint with every other character replaced by
    an underscore, cut to 64 characters. *)
Theorem X24_single_encoding_is_not_recognised (name : string) :
  all_chars is_name_char name = true ->
  safe_name_from_endpoint ("/api/swagger:get?ns=collections%2F" ++ name)
  = PyStr.take 64 ("api_swagger_get_ns_collections_2F" ++ name).
Proof.
  intros H. unfold safe_name_from_endpoint.
  assert (S : search_ns ("/api/swagger:get?ns=collections%2F" ++ name) = None).
  { cbn. now apply search_ns_name_chars. }
  rewrite S. f_equal.
  assert (R : strip ("/api/swagger:get?ns=collections%2F" ++ name)
              = "api/swagger:get?ns=collections%2F" ++ name).
  { unfold strip. cbn [lstrip append is_strip_char Ascii.eqb orb Bool.eqb andb].
    cbn [rstrip]. rewrite (rstrip_name_chars _ H).
    destruct name; reflexivity. }
  rewrite R, sanitize_app, (sanitize_fixed _ H). reflexivity.
Qed.

Lemma X24_single_encoding_is_not_recognised_witness :
  all_chars is_name_char "Buildings" = true
  /\ safe_name_from_endpoint "/api/swagger:get?ns=collections%2FBuildings"
     = "api_swagger_get_ns_collections_2FBuildings".
Proof.
  split; [reflexivity | ].
  exact (X24_single_encoding_is_not_recognised "Buildings" eq_refl).
Defined.

End FileNames.

(** ** The order of the value-overlap report *)

Section ReportOrder.
Import FetchData FetchReport.

Lemma rank_le_spec (x y : candidate) : rank_le x y = true <-> ranks_before x y.
Proof.
  unfold rank_le, ranks_before.
  rewrite orb_true_iff, andb_true_iff, Nat.ltb_lt, Nat.eqb_eq. reflexivity.
Qed.

Lemma rank_le_total (x y : candidate) :
  rank_le x y = false -> ranks_before y x.
Proof.
  intros H. unfold rank_le in H. apply orb_false_iff in H. destruct H as [H1 H2].
  apply Nat.ltb_ge in H1. unfold ranks_before.
  destruct (Nat.eqb_spec (matches x) (matches y)) as [E | N]; [ | left; lia].
  simpl in H2. right. split; [now symmetry | ].
  destruct (String.leb_total (from_collection x) (from_collection y)); congruence.
Qed.

Lemma ranks_before_trans (x y z : candidate) :
  ranks_before x y -> ranks_before y z -> ranks_before x z.
Proof.
  unfold ranks_before. intros [H1 | [E1 L1]] [H2 | [E2 L2]].
  - left. lia.
  - left. lia.
  - left. lia.
  - right. split; [lia | ]. eapply leb_trans; eassumption.
Qed.

Lemma insert_ranked_perm (x : candidate) (l : list candidate) :
  Permutation (insert_ranked x l) (x :: l).
Proof.
  induction l as [ | y l IH]; simpl; [reflexivity | ].
  destruct (rank_le x y); [reflexivity | ].
  rewrite IH. apply perm_swap.
Qed.

Lemma insert_ranked_sorted (x : candidate) (l : list candidate) :
  StronglySorted ranks_before l -> StronglySorted ranks_before (insert_ranked x l).
Proof.
  induction l as [ | y l IH]; simpl; intros H.
  - repeat constructor.
  - apply StronglySorted_inv in H. destruct H as [Hl Hy].
    destruct (rank_le x y) eqn:E.
    + apply rank_le_spec in E.
      constructor; [now constructor | ].
      constructor; [exact E | ].
      eapply Forall_impl; [ | exact Hy].
      intros z Hz. eapply ranks_before_trans; eassumption.
    + apply rank_le_total in E.
      constructor; [now apply IH | ].
      eapply Permutation_Forall; [symmetry; apply insert_ranked_perm | ].
      now constructor.
Qed.

Lemma insert_ranked_filter (m : nat) (f : string) (x : candidate)
    (l : list candidate) :
  filter (has_rank m f) (insert_ranked x l) = filter (has_rank m f) (x :: l).
Proof.
  induction l as [ | y l IH]; [reflexivity | ].
  cbn [insert_ranked]. destruct (rank_le x y) eqn:E; [reflexivity | ].
  cbn [filter] in *. rewrite IH.
  destruct (has_rank m f x) eqn:Hx; [ | reflexivity].
  destruct (has_rank m f y) eqn:Hy; [ | reflexivity].
  exfalso. unfold has_rank in Hx, Hy.
  apply andb_true_iff in Hx, Hy. destruct Hx as [Mx Fx], Hy as [My Fy].
  apply Nat.eqb_eq in Mx, My. apply String.eqb_eq in Fx, Fy.
  unfold rank_le in E. apply orb_false_iff in E. destruct E as [_ E].
  rewrite Mx, My, Nat.eqb_refl, Fx, Fy in E. simpl in E.
  destruct (String.leb_total f f); congruence.
Qed.

(** X25: the report lists the candidates of the finder, each as often as the
    finder emitted it, by falling number of matches and, for as many
    matches, by rising name of the source collection; candidates with the
    same number of matches and the same source collection keep the order in
    which they were emitted. *)
Theorem X25_report_order (fk : list candidate) :
  Permutation (ranked fk) fk
  /\ StronglySorted ranks_before (ranked fk)
  /\ forall m f, filter (has_rank m f) (ranked fk) = filter (has_rank m f) fk.
Proof.
  unfold ranked. induction fk as [ | x fk (IH1 & IH2 & IH3)]; simpl.
  - repeat split; constructor.
  - split; [rewrite insert_ranked_perm; now constructor | ].
    split; [now apply insert_ranked_sorted | ].
    intros m f. rewrite insert_ranked_filter. cbn [filter]. now rewrite IH3.
Qed.

End ReportOrder.

(** ** Schemas and relationships collected from files *)

Section Files.
Import AnalyzeFiles.

Lemma get_merge_schemas (schemas all_schemas : list (string * json)) (k : string) :
  PyDict.get (merge_schemas all_schemas schemas) k
  = match PyDict.get all_schemas k with
    | Some v => Some v
    | None => PyDict.get schemas k
    end.
Proof.
  unfold merge_schemas. revert all_schemas.
  induction schemas as [ | [k0 v0] schemas IH]; intros all_schemas; simpl.
  - now destruct (PyDict.get all_schemas k).
  - rewrite IH. unfold PyDict.has.
    destruct (PyDict.get all_schemas k0) as [w | ] eqn:G0.
    + destruct (PyDict.get all_schemas k) as [v | ] eqn:G; [reflexivity | ].
      destruct (String.eqb k0 k) eqn:E; [ | reflexivity].
      apply String.eqb_eq in E. subst. congruence.
    + rewrite get_set.
      destruct (String.eqb k0 k) eqn:E; [ | reflexivity].
      apply String.eqb_eq in E. subst. now rewrite G0.
Qed.

Lemma in_update (targets rel_list : list string) (t : string) :
  In t (update targets rel_list) <-> In t targets \/ In t rel_list.
Proof.
  unfold update. revert targets.
  induction rel_list as [ | r rel_list IH]; intros targets; simpl.
  - tauto.
  - rewrite IH, in_add. intuition congruence.
Qed.

Lemma targets_of_merge (rels all_relationships : list (string * list string))
    (s t : string) :
  In t (targets_of (merge_relationships all_relationships rels) s)
  <-> In t (targets_of all_relationships s)
      \/ exists ts, In (s, ts) rels /\ In t ts.
Proof.
  unfold merge_relationships. revert all_relationships.
  induction rels as [ | [k ts0] rels IH]; intros all_relationships; simpl.
  - split; [tauto | ]. intros [H | (ts & [] & _)]. exact H.
  - rewrite IH. unfold targets_of at 1. rewrite get_set.
    destruct (String.eqb k s) eqn:E.
    + apply String.eqb_eq in E. subst k. rewrite in_update.
      fold (targets_of all_relationships s). split.
      * intros [[H | H] | (ts & Hin & Ht)]; eauto.
      * intros [H | (ts & [E | Hin] & Ht)]; eauto.
        inversion E; subst. auto.
    + apply String.eqb_neq in E. fold (targets_of all_relationships s). split.
      * intros [H | (ts & Hin & Ht)]; eauto.
      * intros [H | (ts & [E' | Hin] & Ht)]; eauto.
        inversion E'. congruence.
Qed.

(** What one turn of the loop over the files does. *)
Lemma add_file_spec
    (acc : list (string * json) * list (string * list string)) (f : file) :
  add_file acc f
  = if has_bad_schemas f then Raise AttributeError
    else Ok (merge_schemas (fst acc) (schemas_of f),
             merge_relationships (snd acc) (relationships_of f)).
Proof.
  unfold add_file, has_bad_schemas, schemas_of, relationships_of, contribution.
  destruct acc as [a r].
  destruct (negb (PyStr.endswith (fname f) ".json")); [reflexivity | ].
  destruct (parsed f) as [j | ]; [ | reflexivity].
  destruct (load_schemas_from_file j) as [[schemas rels] | e]; [ | reflexivity].
  destruct schemas; reflexivity.
Qed.

Lemma collect_from_raises
    (files : list file) (acc : list (string * json) * list (string * list string))
    (e : exn) :
  collect_from acc files = Raise e
  <-> e = AttributeError /\ exists f, In f files /\ has_bad_schemas f = true.
Proof.
  revert acc. induction files as [ | f files IH]; intros acc; simpl.
  - split; [discriminate | intros (_ & f & [] & _)].
  - rewrite add_file_spec. destruct (has_bad_schemas f) eqn:B; simpl.
    + split.
      * intros H. inversion H. eauto.
      * intros (-> & _). reflexivity.
    + rewrite IH. split.
      * intros (-> & g & Hg & Hb). eauto.
      * intros (-> & g & [<- | Hg] & Hb); [congruence | eauto].
Qed.

Lemma collect_from_ok
    (files : list file) (acc res : list (string * json) * list (string * list string)) :
  collect_from acc files = Ok res ->
  (forall sname,
      PyDict.get (fst res) sname
      = match PyDict.get (fst acc) sname with
        | Some d => Some d
        | None => first_definition sname files
        end)
  /\ (forall s t,
         In t (targets_of (snd res) s)
         <-> In t (targets_of (snd acc) s)
             \/ exists f ts, In f files /\ In (s, ts) (relationships_of f) /\ In t ts).
Proof.
  revert acc. induction files as [ | f files IH]; intros acc; simpl.
  - intros H. inversion H; subst. split.
    + intros sname. now destruct (PyDict.get (fst res) sname).
    + intros s t. split; [tauto | ]. intros [H' | (f & ts & [] & _)]. exact H'.
  - rewrite add_file_spec. destruct (has_bad_schemas f); [discriminate | ].
    simpl. intros H. apply IH in H. destruct H as [H1 H2]. split.
    + intros sname. rewrite H1. cbn [fst]. rewrite get_merge_schemas.
      destruct (PyDict.get (fst acc) sname); [reflexivity | ].
      destruct (PyDict.get (schemas_of f) sname); reflexivity.
    + intros s t. rewrite H2. cbn [snd]. rewrite targets_of_merge. split.
      * intros [[H | (ts & Hin & Ht)] | (g & ts & Hg & Hin & Ht)]; eauto 8.
      * intros [H | (g & ts & [<- | Hg] & Hin & Ht)]; eauto 8.
Qed.

(** X26: in the schemas collected from the files, a schema name has the
    definition of the first file, in the order of the listing, that defines
    it; files that are left out and later definitions of the name do not
    count. *)
Theorem X26_first_definition_is_kept (files : list file)
    (all_schemas : list (string * json))
    (all_relationships : list (string * list string)) (sname : string) :
  collect_all_schemas files = Ok (all_schemas, all_relationships) ->
  PyDict.get all_schemas sname = first_definition sname files.
Proof.
  intros H. apply collect_from_ok in H. destruct H as [H _].
  exact (H sname).
Qed.

Lemma X26_first_definition_is_kept_witness :
  collect_all_schemas sample_files
  = Ok ([("Asset", JDict [("v", JInt 1)]); ("Rooms", JDict [])],
        [("Asset", ["End_User"; "Rooms"])])
  /\ PyDict.get [("Asset", JDict [("v", JInt 1)]); ("Rooms", JDict [])] "Asset"
     = first_definition "Asset" sample_files.
Proof.
  assert (H : collect_all_schemas sample_files
              = Ok ([("Asset", JDict [("v", JInt 1)]); ("Rooms", JDict [])],
                    [("Asset", ["End_User"; "Rooms"])]))
    by (vm_compute; reflexivity).
  split; [exact H | ].
  exact (X26_first_definition_is_kept _ _ _ "Asset" H).
Defined.

(** X27: in the relationships collected from the files, the targets of a
    source are the union of the targets the files give for it. *)
Theorem X27_relationships_are_united (files : list file)
    (all_schemas : list (string * json))
    (all_relationships : list (string * list string)) (s t : string) :
  collect_all_schemas files = Ok (all_schemas, all_relationships) ->
  (In t (targets_of all_relationships s)
   <-> exists f ts, In f files /\ In (s, ts) (relationships_of f) /\ In t ts).
Proof.
  intros H. apply collect_from_ok in H. destruct H as [_ H].
  rewrite (H s t). cbn [snd]. split; [ | now right]. intros [[] | H']. exact H'.
Qed.

Lemma X27_relationships_are_united_witness :
  collect_all_schemas sample_files
  = Ok ([("Asset", JDict [("v", JInt 1)]); ("Rooms", JDict [])],
        [("Asset", ["End_User"; "Rooms"])])
  /\ (In "Rooms" (targets_of [("Asset", ["End_User"; "Rooms"])] "Asset")
      <-> exists f ts, In f sample_files
                       /\ In ("Asset", ts) (relationships_of f) /\ In "Rooms" ts).
Proof.
  assert (H : collect_all_schemas sample_files
              = Ok ([("Asset", JDict [("v", JInt 1)]); ("Rooms", JDict [])],
                    [("Asset", ["End_User"; "Rooms"])]))
    by (vm_compute; reflexivity).
  split; [exact H | ].
  exact (X27_relationships_are_united _ _ _ "Asset" "Rooms" H).
Defined.

Lemma load_document (j : json) :
  load_schemas_from_file j
  = match document_of j with
    | None => Ok (JDict [], [])
    | Some (JDict d) =>
        match member "components" d, member "paths" d with
        | JDict comps, JDict paths =>
            Ok (if truthy (member "schemas" comps) then member "schemas" comps
                else JDict [],
                Analyze.path_relationships paths)
        | _, _ => Raise AttributeError
        end
    | Some _ => Raise AttributeError
    end.
Proof.
  assert (L : forall doc,
             match doc with
             | JDict d =>
                 (comps <- get_or_empty_map doc "components" ;;
                  schemas <- get_or_empty_map comps "schemas" ;;
                  paths <- get_or_empty_map doc "paths" ;;
                  match paths with
                  | JDict p =>
                      Ok (if truthy schemas then schemas else JDict [],
                          Analyze.path_relationships p)
                  | _ => Raise AttributeError
                  end)
                 = match member "components" d, member "paths" d with
                   | JDict comps, JDict paths =>
                       Ok (if truthy (member "schemas" comps)
                           then member "schemas" comps else JDict [],
                           Analyze.path_relationships paths)
                   | _, _ => Raise AttributeError
                   end
             | _ => True
             end).
  { intros [ | | | | | d]; try exact I.
    unfold get_or_empty_map at 1 3. fold (member "components" d).
    fold (member "paths" d). simpl.
    destruct (member "components" d) as [ | | | | | comps]; reflexivity. }
  unfold load_schemas_from_file, document_of.
  destruct j as [ | | | | [ | doc l] | d]; try reflexivity.
  - destruct doc as [ | | | | | d]; try reflexivity. exact (L (JDict d)).
  - exact (L (JDict d)).
Qed.

Lemma kept_non_mapping_spec (v : json) :
  kept_non_mapping v = true
  <-> is_mapping (if truthy v then v else JDict []) = false.
Proof.
  destruct v as [ | b | n | s | [ | x l] | [ | x l]]; simpl;
    try (split; congruence).
  - destruct b; simpl; split; congruence.
  - destruct (Z.eqb n 0); simpl; split; congruence.
  - destruct (String.eqb s ""); simpl; split; congruence.
Qed.

Lemma has_bad_schemas_spec (f : file) :
  has_bad_schemas f = true <-> keeps_bad_schemas f.
Proof.
  unfold has_bad_schemas, contribution, keeps_bad_schemas.
  destruct (PyStr.endswith (fname f) ".json"); simpl;
    [ | split; [discriminate | intros [H _]; discriminate]].
  destruct (parsed f) as [j | ];
    [ | split; [discriminate | intros (_ & j & doc & comps & H & _); discriminate]].
  rewrite load_document.
  split.
  - intros H. split; [reflexivity | ]. exists j.
    destruct (document_of j) as [[ | | | | | d] | ]; try discriminate.
    destruct (member "components" d) as [ | | | | | comps] eqn:C; try discriminate.
    destruct (member "paths" d) as [ | | | | | paths] eqn:P; try discriminate.
    exists d, comps. split; [reflexivity | ]. split; [reflexivity | ].
    split; [exact C | ]. split; [now rewrite P | ].
    apply kept_non_mapping_spec.
    destruct (if truthy (member "schemas" comps) then member "schemas" comps
              else JDict []); try reflexivity; discriminate.
  - intros (_ & j' & doc & comps & E & D & C & P & K).
    inversion E; subst j'; clear E. rewrite D, C.
    destruct (member "paths" doc); try discriminate.
    apply kept_non_mapping_spec in K.
    destruct (if truthy (member "schemas" comps) then member "schemas" comps
              else JDict []); try reflexivity; discriminate.
Qed.

Lemma left_out_adds_nothing
    (acc : list (string * json) * list (string * list string)) (f : file) :
  left_out f -> add_file acc f = Ok acc.
Proof.
  unfold left_out, add_file.
  intros [H | [H | (j & H & D)]].
  - now rewrite H.
  - rewrite H. now destruct (negb _).
  - rewrite H. destruct (negb _); [reflexivity | ].
    rewrite load_document.
    destruct (document_of j) as [[ | | | | | d] | ]; try reflexivity.
    + destruct D as [D | D].
      * destruct (member "components" d); try reflexivity; discriminate.
      * destruct (member "components" d); try reflexivity.
        destruct (member "paths" d); try reflexivity; discriminate.
    + now destruct acc.
Qed.

Lemma collect_from_app
    (pre post : list file) (acc : list (string * json) * list (string * list string)) :
  collect_from acc (pre ++ post)
  = (acc' <- collect_from acc pre ;; collect_from acc' post).
Proof.
  revert acc. induction pre as [ | f pre IH]; intros acc; simpl; [reflexivity | ].
  destruct (add_file acc f) as [acc' | e]; simpl; [apply IH | reflexivity].
Qed.

(** X28: collecting the schemas raises an exception exactly when some file
    is loaded with schemas that are not a mapping: the name of the file
    ends in [.json], its document, the components and the paths of the
    document are mappings, and the schemas of the components are [True], a
    number other than zero, or a string or a list with members; the
    exception is [AttributeError].  A file with another suffix, one that
    cannot be read, and one whose document, components or paths are not a
    mapping changes nothing in what is collected. *)
Theorem X28_collect_raises_on_bad_schemas (files : list file) :
  (collect_all_schemas files = Raise AttributeError
   <-> exists f, In f files /\ keeps_bad_schemas f)
  /\ (forall e, collect_all_schemas files = Raise e -> e = AttributeError)
  /\ (forall pre f post,
         files = (pre ++ f :: post)%list -> left_out f ->
         collect_all_schemas files = collect_all_schemas (pre ++ post)).
Proof.
  unfold collect_all_schemas. repeat split.
  - intros H. apply collect_from_raises in H.
    destruct H as (_ & f & Hf & B). exists f. split; [exact Hf | ].
    now apply has_bad_schemas_spec.
  - intros (f & Hf & B). apply collect_from_raises. split; [reflexivity | ].
    exists f. split; [exact Hf | ]. now apply has_bad_schemas_spec.
  - intros e H. apply collect_from_raises in H. tauto.
  - intros pre f post -> L. rewrite !collect_from_app.
    destruct (collect_from ([], []) pre) as [acc | e]; simpl; [ | reflexivity].
    now rewrite (left_out_adds_nothing acc f L).
Qed.

Lemma X28_collect_raises_on_bad_schemas_witness :
  keeps_bad_schemas list_schemas_file
  /\ collect_all_schemas (sample_files ++ [list_schemas_file]) = Raise AttributeError.
Proof.
  assert (K : keeps_bad_schemas list_schemas_file).
  { split; [reflexivity | ].
    exists (JDict [("components", JDict [("schemas", JList [JStr "Asset"])])]),
           [("components", JDict [("schemas", JList [JStr "Asset"])])],
           [("schemas", JList [JStr "Asset"])].
    repeat split. }
  split; [exact K | ].
  apply (proj1 (X28_collect_raises_on_bad_schemas
                  (sample_files ++ [list_schemas_file]))).
  exists list_schemas_file. split; [ | exact K].
  apply in_or_app. right. now left.
Defined.

End Files.

(** ** The report of the schema analysis *)

Section Report.
Import Analyze AnalyzeReport.

Lemma render_line_raises (c : fk) :
  (unprintable c = true -> render_line c = Raise TypeError)
  /\ (unprintable c = false -> exists line, render_line c = Ok line).
Proof.
  unfold unprintable, render_line.
  destruct (String.eqb (source c) "api_path_only").
  - destruct (to_guess c); simpl; split; try discriminate; eauto.
  - destruct (type c); simpl; split; try discriminate; eauto.
Qed.

Lemma print_items_raises (items : list fk) :
  (snd (print_items items) = Some TypeError
   <-> exists c, In c items /\ unprintable c = true)
  /\ (forall e, snd (print_items items) = Some e -> e = TypeError).
Proof.
  induction items as [ | it rest [IH1 IH2]]; simpl.
  - split; [ | discriminate]. split; [discriminate | intros (c & [] & _)].
  - destruct (unprintable it) eqn:U.
    + rewrite (proj1 (render_line_raises it) U). simpl. split.
      * split; [eauto | reflexivity].
      * intros e H. now inversion H.
    + destruct (proj2 (render_line_raises it) U) as [line ->].
      destruct (print_items rest) as [out e]. simpl in *. split; [ | exact IH2].
      rewrite IH1. split.
      * intros (c & Hc & Hu). eauto.
      * intros (c & [<- | Hc] & Hu); [congruence | eauto].
Qed.

Lemma print_groups_raises (groups : list (string * list fk)) :
  (snd (print_groups groups) = Some TypeError
   <-> exists k items c, In (k, items) groups /\ In c items /\ unprintable c = true)
  /\ (forall e, snd (print_groups groups) = Some e -> e = TypeError).
Proof.
  induction groups as [ | [src items] rest [IH1 IH2]]; simpl.
  - split; [ | discriminate].
    split; [discriminate | intros (k & items & c & [] & _)].
  - destruct (print_items_raises items) as [P1 P2].
    destruct (print_items items) as [lines [e | ]]; simpl in *.
    + pose proof (P2 e eq_refl) as ->. split.
      * split; [ | reflexivity]. intros _.
        destruct (proj1 P1 eq_refl) as (c & Hc & Hu). eauto 8.
      * intros e H. now inversion H.
    + destruct (print_groups rest) as [out e]. simpl in *. split; [ | exact IH2].
      rewrite IH1. split.
      * intros (k & its & c & Hin & Hc & Hu). eauto 8.
      * intros (k & its & c & [E | Hin] & Hc & Hu); [ | eauto 8].
        inversion E; subst. 
        assert (C : @None exn = Some TypeError) by (apply P1; eauto).
        discriminate.
Qed.

Lemma set_keeps_members {V : Type} (d : list (string * V)) (k : string) (v : V)
    (e : string * V) :
  In e d -> In e (PyDict.set d k v) \/ (fst e = k /\ PyDict.get d k = Some (snd e)).
Proof.
  induction d as [ | [k0 v0] d IH]; simpl; [intros [] | ].
  destruct (String.eqb k0 k) eqn:E.
  - apply String.eqb_eq in E. subst k0.
    intros [<- | H]; [right; now split | left; now right].
  - intros [<- | H]; [left; now left | ].
    destruct (IH H) as [H' | H']; [left; now right | now right].
Qed.

Lemma add_to_group_members (by_from : list (string * list fk)) (f c : fk) :
  (exists k items, In (k, items) (add_to_group by_from f) /\ In c items)
  <-> (exists k items, In (k, items) by_from /\ In c items) \/ c = f.
Proof.
  unfold add_to_group. split.
  - intros (k & items & Hin & Hc). apply in_set in Hin. destruct Hin as [E | Hin].
    + inversion E; subst. apply in_app_or in Hc. destruct Hc as [Hc | [<- | []]].
      * left. destruct (PyDict.get by_from (from f)) as [its | ] eqn:G; [ | destruct Hc].
        apply get_in in G. eauto.
      * now right.
    + left. eauto.
  - intros [(k & items & Hin & Hc) | ->].
    + apply (set_keeps_members _ (from f)
               ((match PyDict.get by_from (from f) with
                 | Some items => items
                 | None => []
                 end ++ [f])%list)) in Hin.
      destruct Hin as [Hin | [Hk Hg]]; [eauto | ].
      simpl in Hk, Hg. subst k. rewrite Hg.
      exists (from f), (items ++ [f])%list. split.
      * apply get_in. now rewrite get_set, String.eqb_refl.
      * apply in_or_app. now left.
    + eexists _, _. split.
      * apply get_in. rewrite get_set, String.eqb_refl. reflexivity.
      * apply in_or_app. right. now left.
Qed.

Lemma group_by_from_members (fks : list fk) (c : fk) :
  (exists k items, In (k, items) (group_by_from fks) /\ In c items) <-> In c fks.
Proof.
  unfold group_by_from.
  assert (G : forall by_from,
             (exists k items, In (k, items) (fold_left add_to_group fks by_from)
                              /\ In c items)
             <-> (exists k items, In (k, items) by_from /\ In c items) \/ In c fks).
  { induction fks as [ | f fks IH]; intros by_from; simpl.
    - tauto.
    - rewrite IH, add_to_group_members. intuition congruence. }
  rewrite G. split; [ | now right]. intros [(k & items & [] & _) | H]. exact H.
Qed.

Lemma insert_group_perm (g : string * list fk) (l : list (string * list fk)) :
  Permutation (insert_group g l) (g :: l).
Proof.
  induction l as [ | h l IH]; simpl; [reflexivity | ].
  destruct (String.leb (fst g) (fst h)); [reflexivity | ].
  rewrite IH. apply perm_swap.
Qed.

Lemma sorted_groups_perm (l : list (string * list fk)) :
  Permutation (sorted_groups l) l.
Proof.
  induction l as [ | g l IH]; simpl; [reflexivity | ].
  rewrite insert_group_perm. now constructor.
Qed.

Lemma print_report_raises (fks : list fk) :
  (snd (print_report fks) = Some TypeError
   <-> exists c, In c fks /\ unprintable c = true)
  /\ (forall e, snd (print_report fks) = Some e -> e = TypeError).
Proof.
  unfold print_report.
  destruct (print_groups_raises (sorted_groups (group_by_from fks))) as [P1 P2].
  split; [ | exact P2]. rewrite P1. split.
  - intros (k & items & c & Hin & Hc & Hu). exists c. split; [ | exact Hu].
    apply group_by_from_members. exists k, items. split; [ | exact Hc].
    eapply Permutation_in; [apply sorted_groups_perm | exact Hin].
  - intros (c & Hc & Hu). apply group_by_from_members in Hc.
    destruct Hc as (k & items & Hin & Hc). exists k, items, c.
    split; [ | now split].
    eapply Permutation_in; [symmetry; apply sorted_groups_perm | exact Hin].
Qed.

Lemma print_items_lines (items : list fk) :
  snd (print_items items) = None ->
  forall c, In c items ->
            exists line, render_line c = Ok line /\ In line (fst (print_items items)).
Proof.
  induction items as [ | it rest IH]; simpl; [intros _ c [] | ].
  destruct (render_line it) as [line | e] eqn:R; [ | discriminate].
  destruct (print_items rest) as [out e]. simpl in *. intros E c [<- | Hc].
  - exists line. split; [exact R | now left].
  - destruct (IH E c Hc) as (l & Hl & Hin). exists l. split; [exact Hl | now right].
Qed.

Lemma print_groups_lines (groups : list (string * list fk)) :
  snd (print_groups groups) = None ->
  forall k items c,
    In (k, items) groups -> In c items ->
    In ("Schema: " ++ k) (fst (print_groups groups))
    /\ exists line, render_line c = Ok line /\ In line (fst (print_groups groups)).
Proof.
  induction groups as [ | [src its] rest IH]; simpl; [intros _ k items c [] | ].
  pose proof (print_items_lines its) as L.
  destruct (print_items its) as [lines [e | ]]; [discriminate | ].
  destruct (print_groups rest) as [out e]. simpl in *.
  intros E k items c [H | H] Hc.
  - inversion H; subst. split; [now left | ].
    destruct (L eq_refl c Hc) as (l & Hl & Hin). exists l. split; [exact Hl | ].
    right. apply in_or_app. now left.
  - destruct (IH E k items c H Hc) as [H1 (l & Hl & Hin)]. split.
    + right. apply in_or_app. right. now right.
    + exists l. split; [exact Hl | ]. right. apply in_or_app. right. now right.
Qed.

Lemma group_by_from_keys (fks : list fk) (k : string) (items : list fk) (c : fk) :
  In (k, items) (group_by_from fks) -> In c items -> from c = k.
Proof.
  unfold group_by_from.
  assert (G : forall by_from,
             (forall k items c, In (k, items) by_from -> In c items -> from c = k) ->
             forall k items c,
               In (k, items) (fold_left add_to_group fks by_from) ->
               In c items -> from c = k).
  { induction fks as [ | f fks IH]; intros by_from Inv; simpl; [exact Inv | ].
    apply IH. clear IH. intros k0 items0 c0 Hin Hc. unfold add_to_group in Hin.
    apply in_set in Hin. destruct Hin as [E | Hin]; [ | eauto].
    inversion E; subst. apply in_app_or in Hc. destruct Hc as [Hc | [<- | []]].
    - destruct (PyDict.get by_from (from f)) as [its | ] eqn:G; [ | destruct Hc].
      apply get_in in G. eauto.
    - reflexivity. }
  apply G. intros k0 items0 c0 [].
Qed.

(** X29: printing the report of a list of records raises an exception
    exactly when some record of the list has no line, whatever its place in
    the list: a relation without a target, or a named property whose type
    is [None], a list or a mapping; the exception is [TypeError].  When no
    exception is raised, the heading of the schema of every record and the
    line of every record are printed. *)
Theorem X29_report_raises_on_missing_type (fks : list fk) :
  (snd (print_report fks) = Some TypeError
   <-> exists c, In c fks
                 /\ (if String.eqb (source c) "api_path_only"
                     then to_guess c = None
                     else type c = JNull
                          \/ (exists l, type c = JList l)
                          \/ (exists d, type c = JDict d)))
  /\ (forall e, snd (print_report fks) = Some e -> e = TypeError)
  /\ (snd (print_report fks) = None ->
      forall c, In c fks ->
                In ("Schema: " ++ from c) (fst (print_report fks))
                /\ exists line, render_line c = Ok line
                                /\ In line (fst (print_report fks))).
Proof.
  destruct (print_report_raises fks) as [P1 P2].
  split; [ | split; [exact P2 | ]].
  - rewrite P1. split; intros (c & Hc & U); exists c; (split; [exact Hc | ]);
      unfold unprintable in *;
      destruct (String.eqb (source c) "api_path_only").
    + now destruct (to_guess c).
    + destruct (type c); try discriminate; eauto.
    + now rewrite U.
    + destruct U as [-> | [(l & ->) | (d & ->)]]; reflexivity.
  - intros E c Hc. apply group_by_from_members in Hc.
    destruct Hc as (k & items & Hin & Hc).
    pose proof (group_by_from_keys _ _ _ _ Hin Hc) as K. rewrite K.
    unfold print_report in *.
    apply (print_groups_lines _ E k items c); [ | exact Hc].
    eapply Permutation_in; [symmetry; apply sorted_groups_perm | exact Hin].
Qed.

End Report.

(** ** The exceptions of the schema analysis *)

Section MainReport.
Import Analyze AnalyzeReport.











End MainReport.
